(** * dbmate: the migration engine of [pkg/dbmate/db.go]

    A shallow embedding of the engine (file discovery, the statement
    splitter, transactional execution, migrate / rollback / status /
    dump-schema and the connection wait loop) together with the properties
    the specification states about it.

    Go strings are byte strings: they are modelled by [string], one [ascii]
    per byte.  Go errors are modelled by their message. *)

From Stdlib Require Import String Ascii List ZArith Lia Bool DecimalString.
From Stdlib Require Import Sorted Permutation Mergesort OrderedTypeEx.
Import ListNotations.

Local Open Scope string_scope.
Local Open Scope list_scope.

(** ** Bytes, runes and the few [strings] / [unicode] functions the engine uses *)

Module GoString.

Definition code (c : ascii) : nat := nat_of_ascii c.

Definition between (lo hi : nat) (c : ascii) : bool :=
  (lo <=? code c)%nat && (code c <=? hi)%nat.

(** [isDecimal] of text/scanner and [\d] of regexp: an ASCII digit. *)
Definition isDecimal (c : ascii) : bool := between 48 57 c.

Definition LF : ascii := "010"%char.
Definition CR : ascii := "013"%char.
Definition DQUOTE : ascii := "034"%char.
Definition BQUOTE : ascii := "`"%char.
Definition BACKSLASH : ascii := "\"%char.

(** *** UTF-8

    [decode] follows [utf8.DecodeRuneInString] applied repeatedly: a
    well-formed sequence yields its code point, any other byte yields
    [RuneError] and is one byte wide. *)

Definition rune := N.

Definition RuneError : rune := 65533%N.

Definition cont (c : ascii) : bool := between 128 191 c.

Definition low6 (c : ascii) : N := (N_of_ascii c - 128)%N.

(** Runes paired with their width in bytes, as [DecodeRuneInString]
    returns them. *)
Fixpoint decode (s : string) : list (rune * nat) :=
  match s with
  | EmptyString => []
  | String b0 s0 =>
    let bad := (RuneError, 1%nat) :: decode s0 in
    let n0 := N_of_ascii b0 in
    if between 0 127 b0 then (n0, 1%nat) :: decode s0
    else if between 194 223 b0 then
      match s0 with
      | String b1 s1 =>
        if cont b1 then (((n0 - 192) * 64 + low6 b1)%N, 2%nat) :: decode s1
        else bad
      | _ => bad
      end
    else if between 224 239 b0 then
      match s0 with
      | String b1 (String b2 s2) =>
        if (if (code b0 =? 224)%nat then between 160 191 b1
            else if (code b0 =? 237)%nat then between 128 159 b1
            else cont b1) && cont b2
        then (((n0 - 224) * 4096 + low6 b1 * 64 + low6 b2)%N, 3%nat)
             :: decode s2
        else bad
      | _ => bad
      end
    else if between 240 244 b0 then
      match s0 with
      | String b1 (String b2 (String b3 s3)) =>
        if (if (code b0 =? 240)%nat then between 144 191 b1
            else if (code b0 =? 244)%nat then between 128 143 b1
            else cont b1) && cont b2 && cont b3
        then (((n0 - 240) * 262144 + low6 b1 * 4096 + low6 b2 * 64
               + low6 b3)%N, 4%nat) :: decode s3
        else bad
      | _ => bad
      end
    else bad
  end.

Definition runes (s : string) : list rune := map fst (decode s).

(** [utf8.ValidString]: no byte decodes to the error rune with width 1
    (a well-formed encoding of U+FFFD has width 3 and is valid). *)
Definition ValidString (s : string) : bool :=
  forallb (fun rw => negb ((fst rw =? RuneError)%N && (snd rw =? 1)%nat))
          (decode s).

(** [unicode.IsSpace]: the code points with the White_Space property. *)
Definition IsSpace (r : rune) : bool :=
  ((9 <=? r) && (r <=? 13) || (r =? 32) || (r =? 133) || (r =? 160)
   || (r =? 5760) || (8192 <=? r) && (r <=? 8202) || (r =? 8232)
   || (r =? 8233) || (r =? 8239) || (r =? 8287) || (r =? 12288))%N.

(** [strings.TrimSpace s == ""]: trimming removes leading and trailing
    white space, so the result is empty exactly when every rune of [s] is
    white space. *)
Definition TrimSpace_empty (s : string) : bool := forallb IsSpace (runes s).

(** [regexp.QuoteMeta]: a backslash before each of [\.+*?()|[]{}^$]. *)
Definition isMeta (c : ascii) : bool :=
  existsb (Ascii.eqb c) (list_ascii_of_string "\.+*?()|[]{}^$").

Fixpoint QuoteMeta (s : string) : string :=
  match s with
  | EmptyString => EmptyString
  | String c s' =>
    if isMeta c then String BACKSLASH (String c (QuoteMeta s'))
    else String c (QuoteMeta s')
  end.

End GoString.

(** ** The tokenizer: [text/scanner] as [parseStatements] configures it

    [parseStatements] initialises a [scanner.Scanner] and then changes it:
    - [Whitespace ^= 1<<' ' | 1<<'\t' | 1<<'\n'] leaves the carriage return as
      the only character the scanner skips as white space;
    - [IsIdentRune] always answers false, so no identifier token exists;
    - [Mode ^= ScanChars] leaves [ScanIdents | ScanFloats | ScanStrings |
      ScanRawStrings | ScanComments | SkipComments]: double-quoted and
      back-quoted literals are single tokens, comments ([//] to the end of
      the line, [/* */]) are skipped, a single quote is an ordinary
      character.

    A numeric literal is one token in the library; it is made of digits,
    letters, ['_'], ['.'], ['+'] and ['-'] only, and the caller appends its
    text unchanged, so the model reads it one character at a time: the
    token boundaries inside a run of such characters are not observable
    through [TokenText] concatenation.  In the same way a character of
    several bytes is read one byte at a time: no byte of it is a
    character the scanner or the caller distinguishes.

    With [Error] set to nil the scanner reports what it finds malformed
    (an unterminated literal or comment, a bad escape) on the standard
    error stream and goes on; these reports are not modelled. *)

Module Scanner.
Import GoString.

Inductive Token :=
| EOF                       (* scanner.EOF *)
| Char (c : ascii)          (* the character itself *)
| String_                   (* scanner.String *)
| RawString.                (* scanner.RawString *)

(** [Init] followed by the first [Peek]: a leading byte-order mark
    (U+FEFF, bytes EF BB BF) is ignored. *)
Definition Init (src : string) : string :=
  match src with
  | String b0 (String b1 (String b2 rest)) =>
    if ((code b0 =? 239) && (code b1 =? 187) && (code b2 =? 191))%nat
    then rest else src
  | _ => src
  end.

(** The part of [Scan] before a token starts: white space is skipped,
    and a comment is scanned without collecting text, after which [Scan]
    starts over ([goto redo]).  A line comment stops before its line
    feed; a general comment stops after the first [*/]; both stop at the
    end of the input. *)
Inductive SkipMode := Code | LineComment | GeneralComment.

Fixpoint skip (m : SkipMode) (s : string) : string :=
  match s with
  | EmptyString => EmptyString
  | String c s' =>
    match m with
    | Code =>
      if Ascii.eqb c CR then skip Code s'
      else if Ascii.eqb c "/" then
        match s' with
        | String c' s'' =>
          if Ascii.eqb c' "/" then skip LineComment s''
          else if Ascii.eqb c' "*" then skip GeneralComment s''
          else s
        | EmptyString => s
        end
      else s
    | LineComment =>
      if Ascii.eqb c LF then s else skip LineComment s'
    | GeneralComment =>
      if Ascii.eqb c "*" then
        match s' with
        | String c' s'' =>
          if Ascii.eqb c' "/" then skip Code s'' else skip GeneralComment s'
        | EmptyString => EmptyString
        end
      else skip GeneralComment s'
    end
  end.

(** [digitVal]: the value of a hexadecimal digit, 16 for anything else. *)
Definition digitVal (c : ascii) : nat :=
  if between 48 57 c then code c - 48
  else if between 97 102 c then code c - 97 + 10
  else if between 65 70 c then code c - 65 + 10
  else 16.

(** [scanString] with [scanEscape] and [scanDigits], as a machine over
    the characters after the opening quote.  The result is the text up to
    and including the character that ends the literal (the closing quote,
    or the line feed of an unterminated literal), and the input after
    it. *)
Inductive StrState :=
| Body                               (* the loop of [scanString] *)
| Escape                             (* [scanEscape], after the backslash *)
| Digits (base : nat) (n : nat).     (* [scanDigits ch base n] *)

Definition simpleEscape (quote c : ascii) : bool :=
  Ascii.eqb c quote
  || existsb (Ascii.eqb c) (list_ascii_of_string "abfnrtv\").

Definition push (c : ascii) (r : string * string) : string * string :=
  (String c (fst r), snd r).

Fixpoint scanString (quote : ascii) (st : StrState) (s : string)
  : string * string :=
  match s with
  | EmptyString => (EmptyString, EmptyString)
  | String c s' =>
    let body :=
      if Ascii.eqb c quote then (String c EmptyString, s')
      else if Ascii.eqb c LF then (String c EmptyString, s')
      else if Ascii.eqb c BACKSLASH
           then push c (scanString quote Escape s')
           else push c (scanString quote Body s') in
    match st with
    | Body => body
    | Escape =>
      if simpleEscape quote c then push c (scanString quote Body s')
      else if between 48 55 c then push c (scanString quote (Digits 8 2) s')
      else if Ascii.eqb c "x" then push c (scanString quote (Digits 16 2) s')
      else if Ascii.eqb c "u" then push c (scanString quote (Digits 16 4) s')
      else if Ascii.eqb c "U" then push c (scanString quote (Digits 16 8) s')
      else body
    | Digits base n =>
      match n with
      | O => body
      | S n' =>
        if (digitVal c <? base)%nat
        then push c (scanString quote (Digits base n') s')
        else body
      end
    end
  end.

(** [scanRawString]: up to and including the next back quote. *)
Fixpoint scanRawString (s : string) : string * string :=
  match s with
  | EmptyString => (EmptyString, EmptyString)
  | String c s' =>
    if Ascii.eqb c BQUOTE then (String c EmptyString, s')
    else push c (scanRawString s')
  end.

(** [Scan]: the token, its [TokenText], and the input that remains. *)
Definition Scan (s : string) : Token * string * string :=
  match skip Code s with
  | EmptyString => (EOF, EmptyString, EmptyString)
  | String c s' =>
    if Ascii.eqb c DQUOTE then
      let r := scanString DQUOTE Body s' in (String_, String c (fst r), snd r)
    else if Ascii.eqb c BQUOTE then
      let r := scanRawString s' in (RawString, String c (fst r), snd r)
    else (Char c, String c EmptyString, s')
  end.

End Scanner.

(** ** [parseStatements] *)

Definition endOfStatement : ascii := ";"%char.

(** The loop of [parseStatements].  [fuel] bounds the number of tokens;
    every token but [EOF] consumes input, so one more than the length of
    the script is enough ([parseLoop_fuel]). *)
Fixpoint parseLoop (fuel : nat) (s : string) (statement : string)
         (statements : list string) : list string :=
  match fuel with
  | O => statements
  | S fuel' =>
    match Scanner.Scan s with
    | (Scanner.EOF, _, _) =>
      if GoString.TrimSpace_empty statement then statements
      else statements ++ [statement]
    | (Scanner.Char c, text, rest) =>
      if Ascii.eqb c endOfStatement then
        parseLoop fuel' rest EmptyString
                  (if GoString.TrimSpace_empty statement then statements
                   else statements ++ [statement])
      else parseLoop fuel' rest (statement ++ text)%string statements
    | (_, text, rest) =>
      parseLoop fuel' rest (statement ++ text)%string statements
    end
  end.

Definition parseStatements (script : string) : list string :=
  parseLoop (S (String.length script)) (Scanner.Init script) EmptyString [].

(** ** Migration files: names, versions, order *)

(** A compiled [*regexp.Regexp], through its [MatchString]. *)
Definition Regexp := string -> bool.

(** The tail [.*\.sql$] of both patterns, over runes: [.] is any rune but
    the line feed, [$] is the end of the text. *)
Fixpoint dotStarSql (l : list GoString.rune) : bool :=
  match l with
  | [] => false
  | r :: l' =>
    (if list_eq_dec N.eq_dec l (GoString.runes ".sql") then true else false)
    || (negb (r =? 10)%N && dotStarSql l')
  end.

(** [migrationFileRegexp], the pattern [^\d.*\.sql$]. *)
Definition migrationFileRegexp : Regexp := fun name =>
  match GoString.runes name with
  | d :: rest => ((48 <=? d) && (d <=? 57))%N && dotStarSql rest
  | [] => false
  end.

Fixpoint stripPrefix (p l : list GoString.rune) : option (list GoString.rune) :=
  match p, l with
  | [], _ => Some l
  | a :: p', b :: l' => if (a =? b)%N then stripPrefix p' l' else None
  | _ :: _, [] => None
  end.

(** The pattern [^<ver>.*\.sql$] that [findMigrationFile] compiles from the
    quoted version: the runes of [ver], literally, then the common tail. *)
Definition versionFileRegexp (ver : string) : Regexp := fun name =>
  match stripPrefix (GoString.runes ver) (GoString.runes name) with
  | Some rest => dotStarSql rest
  | None => false
  end.

(** [migrationVersion]: what [^\d+] finds, the leading run of digits. *)
Fixpoint migrationVersion (filename : string) : string :=
  match filename with
  | EmptyString => EmptyString
  | String c rest =>
    if GoString.isDecimal c then String c (migrationVersion rest)
    else EmptyString
  end.

(** [sort.Strings]: ascending byte-wise order.  Strings that compare equal
    are equal, so every sorting algorithm yields the same list. *)
Module StringOrder <: Orders.TotalLeBool.
Definition t := string.
Definition leb := String.leb.
Definition leb_total := String.leb_total.
End StringOrder.

Module StringSort := Sort StringOrder.

(** ** Values of the engine *)

Definition error := string.

Inductive result (A : Type) :=
| Ok (a : A)
| Err (e : error).
Arguments Ok {A} a.
Arguments Err {A} e.

Definition nl : string := String GoString.LF EmptyString.

(** [%d] of an [int]. *)
Definition itoa (z : Z) : string := NilZero.string_of_int (Z.to_int z).

(** [time.Duration] arithmetic is on 64-bit signed integers. *)
Definition wrap64 (z : Z) : Z := ((z + 2 ^ 63) mod 2 ^ 64 - 2 ^ 63)%Z.

Module URL.
(** [url.URL]; the engine reads the scheme only. *)
Record t := { Scheme : string; Rest : string }.
End URL.

Record DB := {
  AutoDumpSchema : bool;
  DatabaseURL : URL.t;
  MigrationsDir : string;
  SchemaFile : string;
  WaitBefore : bool;
  WaitInterval : Z;
  WaitTimeout : Z;
  NativeEngine : bool
}.

Record statusResult := { filename : string; applied : bool }.

Record FileInfo := { Name : string; IsDir : bool }.

Module MigrationOptions.
(** The interface has one method, [Transaction() bool]. *)
Record t := { Transaction : bool }.
End MigrationOptions.

Record Migration := { Contents : string; Options : MigrationOptions.t }.

(** Handles: an open [*sql.DB] and an open [*sql.Tx]. *)
Definition conn := nat.
Definition txn := nat.

(** The [Transaction] interface ([Exec]) has two implementations. *)
Inductive Transaction :=
| OnDB (c : conn)
| OnTx (t : txn).

(** A [map[string]bool] together with the order in which [range] visits
    it (which Go leaves unspecified). *)
Definition versions := list (string * bool).

Definition mapGet (m : versions) (k : string) : bool :=
  match find (fun kv => String.eqb (fst kv) k) m with
  | Some kv => snd kv
  | None => false
  end.

(** ** The outside world

    Everything the engine calls but does not define is a field of [Env]
    (or of the [Driver] it hands out), acting on a state [S] that the
    engine never inspects.  What the engine does to the world is recorded
    as a trace of [Event]s. *)

Inductive Event :=
| EvPrint (s : string)                           (* fmt.Print*, standard output *)
| EvSleep (d : Z)                                (* time.Sleep *)
| EvPing (r : option error)                      (* drv.Ping and its answer *)
| EvOpen (c : conn)                              (* drv.Open succeeded *)
| EvClose (c : conn)                             (* mustClose *)
| EvCreateTable (c : conn)                       (* drv.CreateMigrationsTable *)
| EvSelect (c : conn) (limit : Z)                (* drv.SelectMigrations *)
| EvBegin (t : txn)                              (* db.Begin succeeded *)
| EvExec (tx : Transaction) (query : string)     (* tx.Exec *)
| EvInsert (tx : Transaction) (ver : string)     (* drv.InsertMigration *)
| EvDelete (tx : Transaction) (ver : string)     (* drv.DeleteMigration *)
| EvCommit (t : txn)                             (* tx.Commit *)
| EvRollback (t : txn)                           (* tx.Rollback *)
| EvParse (path : string)                        (* parseMigration *)
| EvDump (c : conn)                              (* drv.DumpSchema *)
| EvMkdir (path : string)                        (* ensureDir *)
| EvWrite (path : string) (data : string).       (* ioutil.WriteFile *)

Module Driver.
Record t (S : Type) := {
  Ping : URL.t -> S -> option error * S;
  Open : URL.t -> S -> result conn * S;
  CreateMigrationsTable : conn -> S -> option error * S;
  SelectMigrations : conn -> Z -> S -> result versions * S;
  InsertMigration : Transaction -> string -> S -> option error * S;
  DeleteMigration : Transaction -> string -> S -> option error * S;
  DumpSchema : URL.t -> conn -> S -> result string * S
}.
Arguments Ping {S}. Arguments Open {S}. Arguments CreateMigrationsTable {S}.
Arguments SelectMigrations {S}. Arguments InsertMigration {S}.
Arguments DeleteMigration {S}. Arguments DumpSchema {S}.
End Driver.

Record Env (S : Type) := {
  GetDriver : string -> result (Driver.t S);
  sql_Begin : conn -> S -> result txn * S;
  sql_Exec : Transaction -> string -> S -> option error * S;
  sql_Commit : txn -> S -> option error * S;
  sql_Rollback : txn -> S -> option error * S;
  sql_Close : conn -> S -> S;
  ReadDir : string -> S -> result (list FileInfo);
  parseMigration : string -> S -> result (Migration * Migration);
  ensureDir : string -> S -> option error * S;
  WriteFile : string -> string -> S -> option error * S;
  filepath_Join : string -> string -> string;
  filepath_Dir : string -> string
}.
Arguments GetDriver {S}. Arguments sql_Begin {S}. Arguments sql_Exec {S}.
Arguments sql_Commit {S}. Arguments sql_Rollback {S}. Arguments sql_Close {S}.
Arguments ReadDir {S}. Arguments parseMigration {S}. Arguments ensureDir {S}.
Arguments WriteFile {S}. Arguments filepath_Join {S}. Arguments filepath_Dir {S}.

(** ** A monad for the engine

    A computation takes the fuel of the wait loop and the state of the
    world; it returns a value, the new state and the events it caused, or
    [None] when it does not return (the fuel ran out, or it panicked). *)

Definition M (S A : Type) : Type := nat -> S -> option (A * S * list Event).

Definition ret {S A} (a : A) : M S A := fun _ s => Some (a, s, []).

Definition bind {S A B} (m : M S A) (f : A -> M S B) : M S B :=
  fun fuel s =>
    match m fuel s with
    | None => None
    | Some (a, s1, t1) =>
      match f a fuel s1 with
      | None => None
      | Some (b, s2, t2) => Some (b, s2, t1 ++ t2)
      end
    end.

Notation "x <- m ;; k" := (bind m (fun x => k))
  (at level 61, m at next level, right associativity).
Notation "m ;;; k" := (bind m (fun _ => k))
  (at level 61, right associativity).

(** A call that may change the world, with the events it leaves. *)
Definition call {S A} (f : S -> A * S) (ev : A -> list Event) : M S A :=
  fun _ s => let (a, s') := f s in Some (a, s', ev a).

(** A call that only reads the world. *)
Definition look {S A} (f : S -> A) (ev : list Event) : M S A :=
  fun _ s => Some (f s, s, ev).

Definition emit {S} (e : Event) : M S unit := fun _ s => Some (tt, s, [e]).

Definition panic {S A} : M S A := fun _ _ => None.

(** ** The engine *)

Section Engine.

Context {S : Type} (E : Env S).

Local Abbreviation M := (M S).

(** [db.GetDriver]. *)
Definition DB_GetDriver (db : DB) : result (Driver.t S) :=
  GetDriver E (URL.Scheme (DatabaseURL db)).

(** Modelled from the spec: [mustClose], a helper that is not part of
    db.go; the connection it is given is released (section 5: the
    connection is released on every exit path). *)
Definition mustClose (c : conn) : M unit :=
  fun _ s => Some (tt, sql_Close E c s, [EvClose c]).

(** [defer mustClose(sqlDB)]: the rest of the function runs, then the
    connection is released, then the function returns. *)
Definition deferClose {A} (sqlDB : conn) (rest : M A) : M A :=
  res <- rest ;;
  mustClose sqlDB ;;;
  ret res.

Definition ping (drv : Driver.t S) (db : DB) : M (option error) :=
  call (Driver.Ping drv (DatabaseURL db)) (fun r => [EvPing r]).

(** The [for] loop of [Wait]: [i] is the loop counter, [err] the error
    of the last probe.  One unit of fuel is spent per iteration. *)
Fixpoint waitLoop (drv : Driver.t S) (db : DB) (i : Z) (err : error)
         (fuel : nat) (s : S) {struct fuel}
  : option (option error * S * list Event) :=
  if (i <? WaitTimeout db)%Z then
    match fuel with
    | O => None
    | Datatypes.S fuel' =>
      let (r, s1) := Driver.Ping drv (DatabaseURL db) s in
      let evs := [EvPrint "."; EvSleep (WaitInterval db); EvPing r] in
      match r with
      | None => Some (None, s1, evs ++ [EvPrint nl])
      | Some err' =>
        match waitLoop drv db (wrap64 (i + WaitInterval db)) err' fuel' s1 with
        | None => None
        | Some (res, s2, t) => Some (res, s2, evs ++ t)
        end
      end
    end
  else
    Some (Some ("unable to connect to database: " ++ err)%string, s,
          [EvPrint nl]).


(** [Wait]. *)
Definition Wait (db : DB) : M (option error) :=
  match DB_GetDriver db with
  | Err err => ret (Some err)
  | Ok drv =>
    r <- ping drv db ;;
    match r with
    | None => ret None
    | Some err =>
      emit (EvPrint "Waiting for database") ;;;
      waitLoop drv db 0 err
    end
  end.

(** The prologue [if db.WaitBefore { err := db.Wait(); ... }]. *)
Definition waitBefore (db : DB) : M (option error) :=
  if WaitBefore db then Wait db else ret None.

(** [doTransaction]. *)
Definition doTransaction (db : conn) (txFunc : Transaction -> M (option error))
  : M (option error) :=
  r <- call (sql_Begin E db)
            (fun r => match r with Ok t => [EvBegin t] | Err _ => [] end) ;;
  match r with
  | Err err => ret (Some err)
  | Ok tx =>
    r <- txFunc (OnTx tx) ;;
    match r with
    | Some err =>
      r1 <- call (sql_Rollback E tx) (fun _ => [EvRollback tx]) ;;
      match r1 with
      | Some err1 => ret (Some err1)
      | None => ret (Some err)
      end
    | None => call (sql_Commit E tx) (fun _ => [EvCommit tx])
    end
  end.

(** [openDatabaseForMigration]. *)
Definition openDatabaseForMigration (db : DB)
  : M (result (Driver.t S * conn)) :=
  match DB_GetDriver db with
  | Err err => ret (Err err)
  | Ok drv =>
    r <- call (Driver.Open drv (DatabaseURL db))
              (fun r => match r with Ok c => [EvOpen c] | Err _ => [] end) ;;
    match r with
    | Err err => ret (Err err)
    | Ok sqlDB =>
      r <- call (Driver.CreateMigrationsTable drv sqlDB)
                (fun _ => [EvCreateTable sqlDB]) ;;
      match r with
      | Some err => mustClose sqlDB ;;; ret (Err err)
      | None => ret (Ok (drv, sqlDB))
      end
    end
  end.

Definition exec (tx : Transaction) (query : string) : M (option error) :=
  call (sql_Exec E tx query) (fun _ => [EvExec tx query]).

(** The [range] loop of [executeScript]. *)
Fixpoint execStatements (tx : Transaction) (statements : list string)
  : M (option error) :=
  match statements with
  | [] => ret None
  | statement :: rest =>
    r <- exec tx statement ;;
    match r with
    | Some err => ret (Some err)
    | None => execStatements tx rest
    end
  end.

Definition nativeBanner : string := "Executing script on native engine" ++ nl.
Definition emulatedBanner : string := "Executing script on DBMate engine" ++ nl.

(** [executeScript]. *)
Definition executeScript (tx : Transaction) (script : string)
           (nativeEngine : bool) : M (option error) :=
  emit (EvPrint (if nativeEngine then nativeBanner else emulatedBanner)) ;;;
  if nativeEngine then exec tx script
  else execStatements tx (parseStatements script).

(** [findMigrationFiles]. *)
Definition findMigrationFiles (dir : string) (re : Regexp)
  : M (result (list string)) :=
  r <- look (ReadDir E dir) [] ;;
  match r with
  | Err _ =>
    ret (Err ("could not find migrations directory `" ++ dir ++ "`")%string)
  | Ok files =>
    let matches :=
        map Name (filter (fun file => negb (IsDir file) && re (Name file))
                         files) in
    ret (Ok (StringSort.sort matches))
  end.

(** [findMigrationFile].  It panics on an empty version, and
    [regexp.MustCompile] panics on a pattern that is not valid UTF-8. *)
Definition findMigrationFile (dir : string) (ver : string)
  : M (result string) :=
  if String.eqb ver "" then panic
  else
    let ver' := GoString.QuoteMeta ver in
    if negb (GoString.ValidString ver') then panic
    else
      r <- findMigrationFiles dir (versionFileRegexp ver) ;;
      match r with
      | Err err => ret (Err err)
      | Ok [] =>
        ret (Err ("can't find migration file: " ++ ver' ++ "*.sql")%string)
      | Ok (file :: _) => ret (Ok file)
      end.

(** [DumpSchema], after the connection is open. *)
Definition dumpBody (db : DB) (drv : Driver.t S) (sqlDB : conn)
  : M (option error) :=
  r <- call (Driver.DumpSchema drv (DatabaseURL db) sqlDB)
            (fun _ => [EvDump sqlDB]) ;;
  match r with
  | Err err => ret (Some err)
  | Ok schema =>
    emit (EvPrint ("Writing: " ++ SchemaFile db ++ nl)) ;;;
    r <- call (ensureDir E (filepath_Dir E (SchemaFile db)))
              (fun _ => [EvMkdir (filepath_Dir E (SchemaFile db))]) ;;
    match r with
    | Some err => ret (Some err)
    | None =>
      call (WriteFile E (SchemaFile db) schema)
           (fun _ => [EvWrite (SchemaFile db) schema])
    end
  end.

(** [DumpSchema]. *)
Definition DumpSchema (db : DB) : M (option error) :=
  r <- waitBefore db ;;
  match r with
  | Some err => ret (Some err)
  | None =>
    r <- openDatabaseForMigration db ;;
    match r with
    | Err err => ret (Some err)
    | Ok (drv, sqlDB) => deferClose sqlDB (dumpBody db drv sqlDB)
    end
  end.

(** [if db.AutoDumpSchema { _ = db.DumpSchema() }]. *)
Definition autoDump (db : DB) : M unit :=
  if AutoDumpSchema db then DumpSchema db ;;; ret tt else ret tt.

(** [useNative := db.NativeEngine && db.DatabaseURL.Scheme != "oracle"]. *)
Definition useNative (db : DB) : bool :=
  NativeEngine db && negb (String.eqb (URL.Scheme (DatabaseURL db)) "oracle").

(** The closure [execMigration] of [Migrate]. *)
Definition execMigrationUp (db : DB) (drv : Driver.t S) (up : Migration)
           (ver : string) (tx : Transaction) : M (option error) :=
  r <- executeScript tx (Contents up) (useNative db) ;;
  match r with
  | Some err => ret (Some err)
  | None =>
    call (Driver.InsertMigration drv tx ver) (fun _ => [EvInsert tx ver])
  end.

(** The body of the loop of [Migrate] for a file that is not applied. *)
Definition applyMigration (db : DB) (drv : Driver.t S) (sqlDB : conn)
           (filename : string) : M (option error) :=
  let ver := migrationVersion filename in
  emit (EvPrint ("Applying: " ++ filename ++ nl)) ;;;
  let path := filepath_Join E (MigrationsDir db) filename in
  r <- look (parseMigration E path) [EvParse path] ;;
  match r with
  | Err err => ret (Some err)
  | Ok (up, _) =>
    if MigrationOptions.Transaction (Options up)
    then doTransaction sqlDB (execMigrationUp db drv up ver)   (* begin transaction *)
    else execMigrationUp db drv up ver (OnDB sqlDB)            (* run outside of transaction *)
  end.

(** The loop of [Migrate] over the sorted files. *)
Fixpoint migrateLoop (db : DB) (drv : Driver.t S) (sqlDB : conn)
         (applied : versions) (files : list string) : M (option error) :=
  match files with
  | [] => ret None
  | filename :: rest =>
    if mapGet applied (migrationVersion filename)
    then migrateLoop db drv sqlDB applied rest        (* continue *)
    else
      r <- applyMigration db drv sqlDB filename ;;
      match r with
      | Some err => ret (Some err)
      | None => migrateLoop db drv sqlDB applied rest
      end
  end.

(** [Migrate], after the connection is open. *)
Definition migrateBody (db : DB) (drv : Driver.t S) (sqlDB : conn)
           (files : list string) : M (option error) :=
  r <- call (Driver.SelectMigrations drv sqlDB (-1))
            (fun _ => [EvSelect sqlDB (-1)]) ;;
  match r with
  | Err err => ret (Some err)
  | Ok applied =>
    r <- migrateLoop db drv sqlDB applied files ;;
    match r with
    | Some err => ret (Some err)
    | None => autoDump db ;;; ret None
    end
  end.

(** [Migrate]. *)
Definition Migrate (db : DB) : M (option error) :=
  r <- findMigrationFiles (MigrationsDir db) migrationFileRegexp ;;
  match r with
  | Err err => ret (Some err)
  | Ok files =>
    if (length files =? 0)%nat then ret (Some "no migration files found")
    else
      r <- waitBefore db ;;
      match r with
      | Some err => ret (Some err)
      | None =>
        r <- openDatabaseForMigration db ;;
        match r with
        | Err err => ret (Some err)
        | Ok (drv, sqlDB) => deferClose sqlDB (migrateBody db drv sqlDB files)
        end
      end
  end.

(** [for ver := range applied { latest = ver }]. *)
Definition latestOf (applied : versions) : string :=
  fold_left (fun _ kv => fst kv) applied EmptyString.

(** The closure [execMigration] of [Rollback]. *)
Definition execMigrationDown (db : DB) (drv : Driver.t S) (down : Migration)
           (latest : string) (tx : Transaction) : M (option error) :=
  r <- executeScript tx (Contents down) (useNative db) ;;
  match r with
  | Some err => ret (Some err)
  | None =>
    call (Driver.DeleteMigration drv tx latest) (fun _ => [EvDelete tx latest])
  end.

(** The closure of [Rollback] under the transaction policy of the Down
    section. *)
Definition rollbackMigration (db : DB) (drv : Driver.t S) (sqlDB : conn)
           (down : Migration) (latest : string) : M (option error) :=
  if MigrationOptions.Transaction (Options down)
  then doTransaction sqlDB (execMigrationDown db drv down latest)
  else execMigrationDown db drv down latest (OnDB sqlDB).

(** [Rollback], after the connection is open. *)
Definition rollbackBody (db : DB) (drv : Driver.t S) (sqlDB : conn)
  : M (option error) :=
  r <- call (Driver.SelectMigrations drv sqlDB 1)
            (fun _ => [EvSelect sqlDB 1]) ;;
  match r with
  | Err err => ret (Some err)
  | Ok applied =>
    let latest := latestOf applied in
    if String.eqb latest ""
    then ret (Some "can't rollback: no migrations have been applied")
    else
      r <- findMigrationFile (MigrationsDir db) latest ;;
      match r with
      | Err err => ret (Some err)
      | Ok filename =>
        emit (EvPrint ("Rolling back: " ++ filename ++ nl)) ;;;
        let path := filepath_Join E (MigrationsDir db) filename in
        r <- look (parseMigration E path) [EvParse path] ;;
        match r with
        | Err err => ret (Some err)
        | Ok (_, down) =>
          r <- rollbackMigration db drv sqlDB down latest ;;
          match r with
          | Some err => ret (Some err)
          | None => autoDump db ;;; ret None
          end
        end
      end
  end.

(** [Rollback]. *)
Definition Rollback (db : DB) : M (option error) :=
  r <- waitBefore db ;;
  match r with
  | Some err => ret (Some err)
  | None =>
    r <- openDatabaseForMigration db ;;
    match r with
    | Err err => ret (Some err)
    | Ok (drv, sqlDB) => deferClose sqlDB (rollbackBody db drv sqlDB)
    end
  end.

(** [checkMigrationsStatus], after the connection is open. *)
Definition statusBody (drv : Driver.t S) (sqlDB : conn) (files : list string)
  : M (result (list statusResult)) :=
  r <- call (Driver.SelectMigrations drv sqlDB (-1))
            (fun _ => [EvSelect sqlDB (-1)]) ;;
  match r with
  | Err err => ret (Err err)
  | Ok applied =>
    ret (Ok (map (fun filename =>
                    {| filename := filename;
                       applied := mapGet applied (migrationVersion filename) |})
                 files))
  end.

(** [checkMigrationsStatus]. *)
Definition checkMigrationsStatus (db : DB) : M (result (list statusResult)) :=
  r <- findMigrationFiles (MigrationsDir db) migrationFileRegexp ;;
  match r with
  | Err err => ret (Err err)
  | Ok files =>
    if (length files =? 0)%nat then ret (Err "no migration files found")
    else
      r <- openDatabaseForMigration db ;;
      match r with
      | Err err => ret (Err err)
      | Ok (drv, sqlDB) => deferClose sqlDB (statusBody drv sqlDB files)
      end
  end.

(** The loop of [Status]: it counts the applied files and, unless quiet,
    prints one line per file. *)
Fixpoint statusLoop (quiet : bool) (results : list statusResult)
         (totalApplied : Z) : M Z :=
  match results with
  | [] => ret totalApplied
  | res :: rest =>
    let line := ((if applied res then "[X] " else "[ ] ") ++ filename res)%string in
    (if negb quiet then emit (EvPrint (line ++ nl)) else ret tt) ;;;
    statusLoop quiet rest (if applied res then totalApplied + 1 else totalApplied)%Z
  end.

(** [Status]: the results are Go's [(int, error)]. *)
Definition Status (db : DB) (quiet : bool) : M (Z * option error) :=
  r <- checkMigrationsStatus db ;;
  match r with
  | Err err => ret ((-1)%Z, Some err)
  | Ok results =>
    totalApplied <- statusLoop quiet results 0%Z ;;
    let totalPending := (Z.of_nat (length results) - totalApplied)%Z in
    (if negb quiet
     then emit (EvPrint nl) ;;;
          emit (EvPrint ("Applied: " ++ itoa totalApplied ++ nl)) ;;;
          emit (EvPrint ("Pending: " ++ itoa totalPending ++ nl))
     else ret tt) ;;;
    ret (totalPending, None)
  end.

End Engine.

(** ** A reference world

    The drivers, the SQL connection and the file system are not part of
    db.go.  [Ref] is one world the engine can run in, used to state what
    the specification says about the bookkeeping table and to run the
    engine on concrete fixtures.  The SQL semantics stays a parameter: [D]
    is the schema state, [run] the effect of one [Exec] text, [dump] the
    schema dump. *)

Module Ref.
Section World.

Variable D : Type.
Variable run : string -> D -> result D.
Variable dump : D -> result string.

(** A file of the migrations directory, with what [parseMigration]
    makes of its text. *)
Record File := {
  file_name : string;
  file_isDir : bool;
  file_parse : result (Migration * Migration)
}.

Record State := {
  dirName : string;                  (* the path of the migrations directory *)
  files : list File;                 (* its entries, in listing order *)
  schemaFile : option string;        (* the schema file, kept outside that directory *)
  downFor : option nat;              (* probes the server refuses before it answers;
                                        [None]: it never answers *)
  nextConn : nat;                    (* handle of the next connection *)
  schema : D;                        (* the database *)
  rows : list string;                (* bookkeeping table, most recent first *)
  saved : option (D * list string)   (* state at the start of the open transaction *)
}.

Definition withDown (s : State) (d : option nat) : State :=
  {| dirName := dirName s; files := files s; schemaFile := schemaFile s;
     downFor := d; nextConn := nextConn s; schema := schema s;
     rows := rows s; saved := saved s |}.

Definition withConn (s : State) (n : nat) : State :=
  {| dirName := dirName s; files := files s; schemaFile := schemaFile s;
     downFor := downFor s; nextConn := n; schema := schema s;
     rows := rows s; saved := saved s |}.

Definition withData (s : State) (d : D) (r : list string)
           (sv : option (D * list string)) : State :=
  {| dirName := dirName s; files := files s; schemaFile := schemaFile s;
     downFor := downFor s; nextConn := nextConn s; schema := d;
     rows := r; saved := sv |}.

Definition withSchemaFile (s : State) (f : string) : State :=
  {| dirName := dirName s; files := files s; schemaFile := Some f;
     downFor := downFor s; nextConn := nextConn s; schema := schema s;
     rows := rows s; saved := saved s |}.

Definition refused : error := "connection refused".

(** Modelled from the spec: [Ping] (the liveness probe of 4.5). *)
Definition Ping (_ : URL.t) (s : State) : option error * State :=
  match downFor s with
  | Some O => (None, s)
  | Some (Datatypes.S n) => (Some refused, withDown s (Some n))
  | None => (Some refused, s)
  end.

(** Modelled from the spec: [Open] (section 6), a fresh live connection
    when the server answers. *)
Definition Open (_ : URL.t) (s : State) : result conn * State :=
  match downFor s with
  | Some O => (Ok (nextConn s), withConn s (Datatypes.S (nextConn s)))
  | _ => (Err refused, s)
  end.

(** Modelled from the spec: [CreateMigrationsTable]; the table of the
    model always exists. *)
Definition CreateMigrationsTable (_ : conn) (s : State) : option error * State :=
  (None, s).

(** Modelled from the spec: [SelectMigrations(limit)], the mapping
    version -> applied, bounded to the latest [limit] entries when the
    limit is not negative (4.6: a query bounded to the latest 1 entry
    loads the most-recently-applied version). *)
Definition SelectMigrations (_ : conn) (limit : Z) (s : State)
  : result versions * State :=
  let picked := if (limit <? 0)%Z then rows s
                else firstn (Z.to_nat limit) (rows s) in
  (Ok (map (fun v => (v, true)) picked), s).

(** Modelled from the spec: [InsertMigration], insert-on-apply; the
    version is the primary key of the table (section 6). *)
Definition InsertMigration (_ : Transaction) (ver : string) (s : State)
  : option error * State :=
  if existsb (String.eqb ver) (rows s) then (Some "duplicate key", s)
  else (None, withData s (schema s) (ver :: rows s) (saved s)).

(** Modelled from the spec: [DeleteMigration], delete-on-rollback. *)
Definition DeleteMigration (_ : Transaction) (ver : string) (s : State)
  : option error * State :=
  (None, withData s (schema s)
                  (filter (fun v => negb (String.eqb ver v)) (rows s))
                  (saved s)).

(** Modelled from the spec: [DumpSchema]. *)
Definition DumpSchema (_ : URL.t) (_ : conn) (s : State) : result string * State :=
  (dump (schema s), s).

Definition driver : Driver.t State :=
  {| Driver.Ping := Ping;
     Driver.Open := Open;
     Driver.CreateMigrationsTable := CreateMigrationsTable;
     Driver.SelectMigrations := SelectMigrations;
     Driver.InsertMigration := InsertMigration;
     Driver.DeleteMigration := DeleteMigration;
     Driver.DumpSchema := DumpSchema |}.

(** Modelled from the spec: [GetDriver], one driver per backend named in
    section 9; any other scheme is refused. *)
Definition GetDriver (scheme : string) : result (Driver.t State) :=
  if existsb (String.eqb scheme) ["postgres"; "mysql"; "sqlite"; "oracle"]
  then Ok driver
  else Err ("unsupported driver: " ++ scheme)%string.

(** Modelled from the spec: the transaction scope of 4.4 ([Begin],
    [Commit], [Rollback] of database/sql): commit keeps what the scope
    did, rollback restores the state at its start. *)
Definition Begin (_ : conn) (s : State) : result txn * State :=
  match saved s with
  | Some _ => (Err "transaction already open", s)
  | None => (Ok O, withData s (schema s) (rows s) (Some (schema s, rows s)))
  end.

(** Modelled from the spec: [Commit] keeps what the scope did. *)
Definition Commit (_ : txn) (s : State) : option error * State :=
  (None, withData s (schema s) (rows s) None).

(** Modelled from the spec: [Rollback] restores the database and the
    bookkeeping table to what they were when the scope was opened. *)
Definition Rollback (_ : txn) (s : State) : option error * State :=
  match saved s with
  | Some (d, r) => (None, withData s d r None)
  | None => (Some "no transaction", s)
  end.

(** Modelled from the spec: [Exec] runs one text against the database,
    inside a scope or directly on the connection; a text that fails
    changes nothing. *)
Definition Exec (_ : Transaction) (query : string) (s : State)
  : option error * State :=
  match run query (schema s) with
  | Ok d => (None, withData s d (rows s) (saved s))
  | Err e => (Some e, s)
  end.

(** Modelled from the spec: [filepath.Join] of a directory and a file
    name, on clean paths. *)
Definition Join (dir name : string) : string := (dir ++ "/" ++ name)%string.

(** Modelled from the spec: [filepath.Dir], the directory part of a clean
    path, which is what precedes its last slash. *)
Fixpoint Dir (path : string) : string :=
  match path with
  | EmptyString => "."
  | String c rest =>
    if existsb (Ascii.eqb "/") (list_ascii_of_string rest)
    then String c (Dir rest)
    else if Ascii.eqb c "/" then "/" else "."
  end.

(** Modelled from the spec: [ioutil.ReadDir], the entries of the
    migrations directory (4.1); no other directory exists. *)
Definition ReadDir (dir : string) (s : State) : result (list FileInfo) :=
  if String.eqb dir (dirName s)
  then Ok (map (fun f => {| Name := file_name f; IsDir := file_isDir f |})
               (files s))
  else Err "no such directory".

(** Modelled from the spec: [parseMigration] (4.2), the Up and the Down
    section of the file at [path], each with its options. *)
Definition parseMigration (path : string) (s : State)
  : result (Migration * Migration) :=
  match find (fun f => String.eqb (Join (dirName s) (file_name f)) path)
             (files s) with
  | Some f => file_parse f
  | None => Err "no such file"
  end.

(** Modelled from the spec: the world the engine runs in.  Releasing a
    connection and ensuring a directory change nothing that the model
    records; writing the schema file replaces its content. *)
Definition env : Env State :=
  Build_Env State
    GetDriver Begin Exec Commit Rollback
    (fun _ s => s)                                   (* Close *)
    ReadDir parseMigration
    (fun _ s => (None, s))                           (* ensureDir *)
    (fun _ data s => (None, withSchemaFile s data))  (* WriteFile *)
    Join Dir.

End World.
End Ref.

(** ** Fixtures *)

Module Fixture.

(** A toy SQL: the database is the journal of the statements it has
    run, and a statement fails when it is the text [fail]. *)
Definition run (query : string) (d : list string) : result (list string) :=
  if String.eqb query "fail" then Err "syntax error" else Ok (d ++ [query]).

Definition dump (d : list string) : result string :=
  Ok (String.concat nl d).

Definition env := Ref.env (list string) run dump.

Definition driver := Ref.driver (list string) dump.

Definition file (name up down : string) (tx : bool) : Ref.File :=
  {| Ref.file_name := name; Ref.file_isDir := false;
     Ref.file_parse :=
       Ok ({| Contents := up;
              Options := {| MigrationOptions.Transaction := tx |} |},
           {| Contents := down;
              Options := {| MigrationOptions.Transaction := tx |} |}) |}.

Definition world (fs : list Ref.File) (applied : list string)
  : Ref.State (list string) :=
  {| Ref.dirName := "./db/migrations"; Ref.files := fs;
     Ref.schemaFile := None; Ref.downFor := Some O; Ref.nextConn := O;
     Ref.schema := []; Ref.rows := applied; Ref.saved := None |}.

(** [New(databaseURL)], with the defaults of db.go. *)
Definition New (scheme : string) : DB :=
  {| AutoDumpSchema := true;
     DatabaseURL := {| URL.Scheme := scheme; URL.Rest := "//localhost/db" |};
     MigrationsDir := "./db/migrations";
     SchemaFile := "./db/schema.sql";
     WaitBefore := false;
     WaitInterval := 1000000000;
     WaitTimeout := 60000000000;
     NativeEngine := true |}.

(** Five files, listed out of order, and one that is not a migration. *)
Definition five : list Ref.File :=
  [file "3_c.sql" "create c" "drop c" true;
   file "1_a.sql" "create a; insert a" "drop a" true;
   file "2_b.sql" "create b" "drop b" false;
   file "5_e.sql" "create e" "drop e" true;
   file "4_d.sql" "create d" "drop d" true;
   file "README.md" "" "" true].

(** Two of the five are applied, three are pending. *)
Definition twoApplied : Ref.State (list string) := world five ["2"; "1"].

(** Nothing is applied. *)
Definition fresh : Ref.State (list string) := world five [].

(** Versions of different widths. *)
Definition widths : Ref.State (list string) :=
  world [file "1_a.sql" "create a" "drop a" true;
         file "10_b.sql" "create b" "drop b" true] [].

(** One pending migration with both sections. *)
Definition onePending : Ref.State (list string) :=
  world [file "1_a.sql" "create a" "drop a" true;
         file "2_b.sql" "create b" "drop b" true] ["1"].

(** A server that refuses [n] probes, and one that never answers. *)
Definition slow (n : nat) : Ref.State (list string) :=
  Ref.withDown (list string) (world five []) (Some n).

Definition dead : Ref.State (list string) :=
  Ref.withDown (list string) (world five []) None.

(** [New] with a wait interval of zero. *)
Definition impatient : DB :=
  {| AutoDumpSchema := true;
     DatabaseURL := {| URL.Scheme := "postgres"; URL.Rest := "//localhost/db" |};
     MigrationsDir := "./db/migrations";
     SchemaFile := "./db/schema.sql";
     WaitBefore := true;
     WaitInterval := 0;
     WaitTimeout := 60000000000;
     NativeEngine := true |}.

(** A transaction body that fails. *)
Definition failing (tx : Transaction) : M (Ref.State (list string)) (option error) :=
  exec env tx "fail".

(** A script with a semicolon inside a double-quoted literal. *)
Definition quoted : string :=
  ("select " ++ String GoString.DQUOTE (";" ++ String GoString.DQUOTE ""))%string.

End Fixture.

(** ** The specification's reading of the engine

    Definitions that follow the words of the specification, to be
    compared with the ones above. *)

(** The lexical rule of the statement splitter (4.3): an accumulator is
    closed as one statement when it is not empty after trimming, and is
    discarded otherwise. *)
Definition closeStatement (acc : string) : list string :=
  if GoString.TrimSpace_empty acc then [] else [acc].

(** The statement splitter as the specification words it: every
    character is copied to the accumulator except [;], which closes it;
    the end of the input closes the last one. *)
Fixpoint splitSpec (script : string) (acc : string) : list string :=
  match script with
  | EmptyString => closeStatement acc
  | String c rest =>
    if Ascii.eqb c endOfStatement
    then closeStatement acc ++ splitSpec rest EmptyString
    else splitSpec rest (acc ++ String c EmptyString)%string
  end.

(** Scripts on which the tokenizer has nothing to interpret: no carriage
    return, no double quote, no back quote, no comment opener ([//] or
    [/*]). *)
Fixpoint plain (script : string) : bool :=
  match script with
  | EmptyString => true
  | String c rest =>
    negb (Ascii.eqb c GoString.CR)
    && negb (Ascii.eqb c GoString.DQUOTE)
    && negb (Ascii.eqb c GoString.BQUOTE)
    && negb (Ascii.eqb c "/"
             && match rest with
                | String c' _ => Ascii.eqb c' "/" || Ascii.eqb c' "*"
                | EmptyString => false
                end)
    && plain rest
  end.

(** The probes of a trace, with their answers, oldest first. *)
Definition pings (t : list Event) : list (option error) :=
  flat_map (fun e => match e with EvPing r => [r] | _ => [] end) t.

(** The answers of [n] successive probes, starting in state [s]. *)
Fixpoint pingRun {S} (drv : Driver.t S) (db : DB) (n : nat) (s : S)
  : list (option error) :=
  match n with
  | O => []
  | Datatypes.S n' =>
    fst (Driver.Ping drv (DatabaseURL db) s)
    :: pingRun drv db n' (snd (Driver.Ping drv (DatabaseURL db) s))
  end.

(** The probe fails exactly [k] times from state [s], then succeeds. *)
Definition succeedsAfter {S} (drv : Driver.t S) (db : DB) (k : nat) (s : S)
  : Prop :=
  exists errs, length errs = k /\
               pingRun drv db (Datatypes.S k) s = map Some errs ++ [None].

Definition timeoutMessage (e : error) : error :=
  ("unable to connect to database: " ++ e)%string.

(** What a run of the wait loop amounts to, entered with counter [i] and
    last error [err]: the probes it made are successive probes from [s];
    either the last one succeeded, after [length errs] failures, each made
    while the counter was below the timeout; or all of them failed, the
    counter reached the timeout, and the error carries the last failure. *)
Definition waitOutcome {S} (drv : Driver.t S) (db : DB) (i : Z) (err : error)
           (s : S) (r : option error) (t : list Event) (errs : list error)
  : Prop :=
  pings t = pingRun drv db (length (pings t)) s /\
  ((r = None /\ pings t = map Some errs ++ [None] /\
    (i + Z.of_nat (length errs) * WaitInterval db < WaitTimeout db)%Z)
   \/
   (r = Some (timeoutMessage (last errs err)) /\ pings t = map Some errs /\
    (i + Z.of_nat (length errs) * WaitInterval db >= WaitTimeout db)%Z /\
    (errs = [] \/
     (i + (Z.of_nat (length errs) - 1) * WaitInterval db < WaitTimeout db)%Z))).

(** The wait loop returns, with an outcome as above. *)
Definition Loops {S} (drv : Driver.t S) (db : DB) (i : Z)
           (err : error) (s : S) : Prop :=
  exists fuel r s' t errs,
    waitLoop drv db i err fuel s = Some (r, s', t) /\
    waitOutcome drv db i err s r t errs.

(** The files [findMigrationFiles] discovers in a listing [ents] of the
    migrations directory. *)
Definition discovered (ents : list FileInfo) : list string :=
  StringSort.sort
    (map Name (filter (fun file => negb (IsDir file)
                                   && migrationFileRegexp (Name file)) ents)).

(** The status entries (section 3): the discovered files joined with the
    applied versions. *)
Definition statusOf (m : versions) (files : list string) : list statusResult :=
  map (fun f => {| filename := f; applied := mapGet m (migrationVersion f) |})
      files.

Definition appliedCount (results : list statusResult) : nat :=
  length (filter applied results).

Definition pendingCount (results : list statusResult) : nat :=
  length (filter (fun r => negb (applied r)) results).

(** The line [Status] prints for one file. *)
Definition statusLine (res : statusResult) : string :=
  ((if applied res then "[X] " else "[ ] ") ++ filename res ++ nl)%string.

(** What [Status] prints when it is not quiet. *)
Definition statusReport (results : list statusResult) : list Event :=
  map (fun r => EvPrint (statusLine r)) results
  ++ [EvPrint nl;
      EvPrint ("Applied: " ++ itoa (Z.of_nat (appliedCount results)) ++ nl);
      EvPrint ("Pending: " ++ itoa (Z.of_nat (pendingCount results)) ++ nl)].

(** ** The shape of traces

    What the operations may leave in the trace, as predicates on events
    and on traces. *)

(** Events of [Wait]. *)
Inductive WaitEvent (db : DB) : Event -> Prop :=
| WaitPing r : WaitEvent db (EvPing r)
| WaitNotice : WaitEvent db (EvPrint "Waiting for database")
| WaitDot : WaitEvent db (EvPrint ".")
| WaitSleep : WaitEvent db (EvSleep (WaitInterval db))
| WaitNewline : WaitEvent db (EvPrint nl).

(** The line [executeScript] prints for the mode [Migrate] and [Rollback]
    select. *)
Definition banner (db : DB) : string :=
  if useNative db then nativeBanner else emulatedBanner.

(** Events of [executeScript tx script (useNative db)]: the banner, and
    [Exec] calls on [tx], of the whole script in native mode and of
    statements of the split script in emulated mode. *)
Inductive ScriptEvent (db : DB) (tx : Transaction) (script : string)
  : Event -> Prop :=
| ScriptBanner : ScriptEvent db tx script (EvPrint (banner db))
| ScriptExec q :
    (if useNative db then q = script else In q (parseStatements script)) ->
    ScriptEvent db tx script (EvExec tx q).

(** Events of the closure [execMigration]: the script and then the
    bookkeeping mutation [book], both on the scope [tx]. *)
Inductive ScopeEvent (db : DB) (script : string) (book : Transaction -> Event)
          (tx : Transaction) : Event -> Prop :=
| ScopeScript e : ScriptEvent db tx script e -> ScopeEvent db script book tx e
| ScopeBook : ScopeEvent db script book tx (book tx).

(** The trace of a body run under a transaction policy (4.4): in a
    transaction opened on [sqlDB] and then committed or rolled back (or
    nothing, when the transaction could not begin), or directly on
    [sqlDB]. *)
Definition Scoped (sqlDB : conn) (useTransaction : bool)
           (body : Transaction -> Event -> Prop) (t : list Event) : Prop :=
  if useTransaction then
    t = [] \/
    exists tx tb,
      Forall (body (OnTx tx)) tb /\
      (t = [EvBegin tx] ++ tb ++ [EvCommit tx] \/
       t = [EvBegin tx] ++ tb ++ [EvRollback tx])
  else Forall (body (OnDB sqlDB)) t.

(** Events of the loop of [Migrate]. *)
Inductive ApplyEvent {S} (E : Env S) (db : DB) (sqlDB : conn) : Event -> Prop :=
| ApplyNotice f : ApplyEvent E db sqlDB (EvPrint ("Applying: " ++ f ++ nl))
| ApplyParse f :
    ApplyEvent E db sqlDB (EvParse (filepath_Join E (MigrationsDir db) f))
| ApplyBegin tx : ApplyEvent E db sqlDB (EvBegin tx)
| ApplyCommit tx : ApplyEvent E db sqlDB (EvCommit tx)
| ApplyRollback tx : ApplyEvent E db sqlDB (EvRollback tx)
| ApplyScope tx up ver e :
    (tx = OnDB sqlDB \/ exists t, tx = OnTx t) ->
    ScopeEvent db (Contents up) (fun tx => EvInsert tx ver) tx e ->
    ApplyEvent E db sqlDB e.

(** Events of [Rollback] after its query, [latest] being the version it
    rolls back. *)
Inductive RevertEvent {S} (E : Env S) (db : DB) (sqlDB : conn) (latest : string)
  : Event -> Prop :=
| RevertNotice f :
    versionFileRegexp latest f = true ->
    RevertEvent E db sqlDB latest (EvPrint ("Rolling back: " ++ f ++ nl))
| RevertParse f :
    versionFileRegexp latest f = true ->
    RevertEvent E db sqlDB latest
                (EvParse (filepath_Join E (MigrationsDir db) f))
| RevertBegin tx : RevertEvent E db sqlDB latest (EvBegin tx)
| RevertCommit tx : RevertEvent E db sqlDB latest (EvCommit tx)
| RevertRollback tx : RevertEvent E db sqlDB latest (EvRollback tx)
| RevertScope tx down e :
    (tx = OnDB sqlDB \/ exists t, tx = OnTx t) ->
    ScopeEvent db (Contents down) (fun tx => EvDelete tx latest) tx e ->
    RevertEvent E db sqlDB latest e.

(** Events of [DumpSchema] while its connection is open. *)
Inductive DumpEvent {S} (E : Env S) (db : DB) (sqlDB : conn) : Event -> Prop :=
| DumpCall : DumpEvent E db sqlDB (EvDump sqlDB)
| DumpNotice : DumpEvent E db sqlDB (EvPrint ("Writing: " ++ SchemaFile db ++ nl))
| DumpMkdir : DumpEvent E db sqlDB (EvMkdir (filepath_Dir E (SchemaFile db)))
| DumpWrite data : DumpEvent E db sqlDB (EvWrite (SchemaFile db) data).

(** The trace of [openDatabaseForMigration] followed by a deferred close:
    no connection; or one that is released at once, the bookkeeping table
    being unavailable; or one that is released after the body [body] has
    run on it. *)
Definition Bracket (body : conn -> list Event -> Prop) (t : list Event) : Prop :=
  t = [] \/
  (exists c, t = [EvOpen c; EvCreateTable c; EvClose c]) \/
  (exists c tb, body c tb /\ t = [EvOpen c; EvCreateTable c] ++ tb ++ [EvClose c]).

Definition DumpShape {S} (E : Env S) (db : DB) (t : list Event) : Prop :=
  exists tw tb,
    t = tw ++ tb /\ Forall (WaitEvent db) tw /\
    Bracket (fun c tc => Forall (DumpEvent E db c) tc) tb.

Definition MigrateShape {S} (E : Env S) (db : DB) (t : list Event) : Prop :=
  exists tw tb,
    t = tw ++ tb /\ Forall (WaitEvent db) tw /\
    Bracket (fun c tc =>
               exists tl td,
                 tc = [EvSelect c (-1)] ++ tl ++ td /\
                 Forall (ApplyEvent E db c) tl /\
                 (td = [] \/ AutoDumpSchema db = true /\ DumpShape E db td)) tb.

Definition RollbackShape {S} (E : Env S) (db : DB) (t : list Event) : Prop :=
  exists tw tb,
    t = tw ++ tb /\ Forall (WaitEvent db) tw /\
    Bracket (fun c tc =>
               exists latest tl td,
                 tc = [EvSelect c 1] ++ tl ++ td /\
                 Forall (RevertEvent E db c latest) tl /\
                 (td = [] \/ AutoDumpSchema db = true /\ DumpShape E db td)) tb.

Definition StatusShape (quiet : bool) (t : list Event) : Prop :=
  exists tb tp,
    t = tb ++ tp /\
    Bracket (fun c tc => tc = [EvSelect c (-1)]) tb /\
    Forall (fun e => exists line, e = EvPrint line) tp /\
    (quiet = true -> tp = []).

(** ** Top-level operations and their connections *)

Inductive Operation :=
| OpMigrate
| OpRollback
| OpStatus (quiet : bool)
| OpDumpSchema.

Definition runOp {S} (E : Env S) (db : DB) (op : Operation)
  : M S (option error) :=
  match op with
  | OpMigrate => Migrate E db
  | OpRollback => Rollback E db
  | OpStatus quiet => r <- Status E db quiet ;; ret (snd r)
  | OpDumpSchema => DumpSchema E db
  end.

(** The connections that are live after a trace, innermost first,
    starting from [stack]; [None] when the trace releases a connection
    that is not the innermost live one. *)
Fixpoint live (stack : list conn) (t : list Event) : option (list conn) :=
  match t with
  | [] => Some stack
  | EvOpen c :: t' => live (c :: stack) t'
  | EvClose c :: t' =>
    match stack with
    | c' :: stack' => if (c =? c')%nat then live stack' t' else None
    | [] => None
    end
  | _ :: t' => live stack t'
  end.

(** The number of connections a trace opens. *)
Fixpoint opens (t : list Event) : nat :=
  match t with
  | [] => O
  | EvOpen _ :: t' => Datatypes.S (opens t')
  | _ :: t' => opens t'
  end.

Definition isConn (e : Event) : bool :=
  match e with
  | EvOpen _ | EvClose _ => true
  | _ => false
  end.

(** A trace that leaves the live connections as it found them. *)
Definition Released (t : list Event) : Prop :=
  forall stack, live stack t = Some stack.

(** The connections an operation may open: its own and, for migrate and
    rollback, the one of the schema dump that follows. *)
Definition maxOpens (db : DB) (op : Operation) : nat :=
  match op with
  | OpMigrate | OpRollback => if AutoDumpSchema db then 2 else 1
  | OpStatus _ | OpDumpSchema => 1
  end.

(** What the mode of execution allows in a trace: the banner of the
    native engine only with [NativeEngine] set and a scheme other than
    oracle, the banner of the emulated engine only otherwise, and in
    emulated mode only statements of a split script. *)
Definition modeOK (db : DB) (e : Event) : Prop :=
  match e with
  | EvPrint line =>
    (line = nativeBanner ->
     NativeEngine db = true /\ URL.Scheme (DatabaseURL db) <> "oracle") /\
    (line = emulatedBanner ->
     NativeEngine db = false \/ URL.Scheme (DatabaseURL db) = "oracle")
  | EvExec _ q =>
    useNative db = false -> exists script, In q (parseStatements script)
  | _ => True
  end.

Definition nothingToRollBack : error :=
  "can't rollback: no migrations have been applied".

(** A printed line that is neither banner. *)
Definition ordinaryLine (line : string) : Prop :=
  line <> nativeBanner /\ line <> emulatedBanner.

(** ** The batch of [Migrate], as the specification words it *)

(** The files whose version is absent from the applied set. *)
Definition pendingFiles (m : versions) (files : list string) : list string :=
  filter (fun f => negb (mapGet m (migrationVersion f))) files.

(** The files are processed in order; the first failure halts the rest. *)
Fixpoint applyAll {S} (E : Env S) (db : DB) (drv : Driver.t S) (sqlDB : conn)
         (files : list string) : M S (option error) :=
  match files with
  | [] => ret None
  | f :: rest =>
    r <- applyMigration E db drv sqlDB f ;;
    match r with
    | Some err => ret (Some err)
    | None => applyAll E db drv sqlDB rest
    end
  end.

(** The line that announces a file, and the announcements of a trace. *)
Definition announce (f : string) : Event := EvPrint ("Applying: " ++ f ++ nl).

Definition isAnnouncement (e : Event) : bool :=
  match e with
  | EvPrint line => String.prefix "Applying: " line
  | _ => false
  end.

Definition announced (t : list Event) : list Event := filter isAnnouncement t.

(** The bookkeeping rows a trace inserts, in order. *)
Definition inserted (t : list Event) : list string :=
  flat_map (fun e => match e with EvInsert _ ver => [ver] | _ => [] end) t.

(** Ascending byte-wise order. *)
Definition ascending (l : list string) : Prop :=
  Sorted (fun x y => String.leb x y = true) l.

Definition isInsert (e : Event) : bool :=
  match e with
  | EvInsert _ _ => true
  | _ => false
  end.

(** The outcome of a batch on [files]: the files [processed] were
    announced, in order, and the rest was not touched.  On success there
    is no rest and each processed file has its bookkeeping row; on failure
    the last processed file is the one that failed, the ones before it
    have their rows, and the failing one may have had its own inserted
    before it failed. *)
Definition batchOutcome (files : list string) (r : option error)
           (t : list Event) : Prop :=
  exists processed rest,
    files = processed ++ rest /\
    announced t = map announce processed /\
    match r with
    | None => rest = [] /\ inserted t = map migrationVersion processed
    | Some _ =>
      exists done f,
        processed = done ++ [f] /\
        (inserted t = map migrationVersion done \/
         inserted t = map migrationVersion processed)
    end.

(** ** Bookkeeping in the reference world *)

(** Two states of the reference world with the same directory, database
    and bookkeeping table, the second seeing an answering server if the
    first does. *)
Definition sameData {D} (s s' : Ref.State D) : Prop :=
  Ref.dirName D s' = Ref.dirName D s /\
  Ref.files D s' = Ref.files D s /\
  Ref.schema D s' = Ref.schema D s /\
  Ref.rows D s' = Ref.rows D s /\
  Ref.saved D s' = Ref.saved D s /\
  (Ref.downFor D s = Some O -> Ref.downFor D s' = Some O).

(** The applied-version set the bookkeeping query answers on the table
    [rws]. *)
Definition appliedSet (rws : list string) : versions :=
  map (fun v => (v, true)) rws.

(** The listing of the migrations directory of a state. *)
Definition listing {D} (s : Ref.State D) : list FileInfo :=
  map (fun f => {| Name := Ref.file_name f; IsDir := Ref.file_isDir f |})
      (Ref.files D s).

(** Two states with the same directory and the same server. *)
Definition static {D} (s s' : Ref.State D) : Prop :=
  Ref.dirName D s' = Ref.dirName D s /\
  Ref.files D s' = Ref.files D s /\
  Ref.downFor D s' = Ref.downFor D s.

(** ** What running a migration amounts to

    The outcome of a step of the engine, as the specification describes
    it: the error it returns, the state it leaves and the events it
    causes, computed from the answers of the driver and of the database. *)

Definition Outcome (S : Type) : Type := (option error * S * list Event)%type.

(** The line that names the mode of execution. *)
Definition modeBanner (native : bool) : string :=
  if native then nativeBanner else emulatedBanner.

(** The queries a script is sent as: natively the script itself, as one
    query; emulated, its statements, in order. *)
Definition queriesOf (native : bool) (script : string) : list string :=
  if native then [script] else parseStatements script.

(** Queries sent on [tx] one after the other, the first failure stopping
    the rest: the error, the state, and the queries that were sent. *)
Fixpoint sendAll {S} (E : Env S) (tx : Transaction) (qs : list string) (s : S)
  : option error * S * list string :=
  match qs with
  | [] => (None, s, [])
  | q :: rest =>
    match sql_Exec E tx q s with
    | (Some err, s1) => (Some err, s1, [q])
    | (None, s1) =>
      let '(r, s2, sent) := sendAll E tx rest s1 in (r, s2, q :: sent)
    end
  end.

(** A script executed on [tx] in a mode. *)
Definition runScript {S} (E : Env S) (native : bool) (tx : Transaction)
           (script : string) (s : S) : Outcome S :=
  let '(r, s1, sent) := sendAll E tx (queriesOf native script) s in
  (r, s1, EvPrint (modeBanner native) :: map (EvExec tx) sent).

(** The body of a migration (4.4): the script and, when it succeeded,
    the bookkeeping mutation [book], recorded as [mark], on the same
    [tx]. *)
Definition inScope {S} (E : Env S) (native : bool) (script : string)
           (book : Transaction -> S -> option error * S)
           (mark : Transaction -> Event) (tx : Transaction) (s : S)
  : Outcome S :=
  let '(r, s1, t1) := runScript E native tx script s in
  match r with
  | Some err => (Some err, s1, t1)
  | None => let (r2, s2) := book tx s1 in (r2, s2, t1 ++ [mark tx])
  end.

(** The transaction policy (4.4).  With a transaction: the scope is
    opened on [sqlDB], the body runs in it, and it is committed when the
    body succeeded and rolled back when it failed, the error of a failed
    rollback taking the place of the body's.  Without: the body runs on
    the connection itself. *)
Definition underPolicy {S} (E : Env S) (sqlDB : conn) (useTransaction : bool)
           (body : Transaction -> S -> Outcome S) (s : S) : Outcome S :=
  if useTransaction then
    match sql_Begin E sqlDB s with
    | (Err err, s0) => (Some err, s0, [])
    | (Ok tx, s0) =>
      let '(r, s1, tb) := body (OnTx tx) s0 in
      match r with
      | None =>
        let (rc, s2) := sql_Commit E tx s1 in
        (rc, s2, [EvBegin tx] ++ tb ++ [EvCommit tx])
      | Some err =>
        let (rr, s2) := sql_Rollback E tx s1 in
        (match rr with Some err1 => Some err1 | None => Some err end, s2,
         [EvBegin tx] ++ tb ++ [EvRollback tx])
      end
    end
  else body (OnDB sqlDB) s.

(** One pending file applied (4.6): it is announced and parsed; its Up
    script is executed under the policy of the Up section, its
    bookkeeping row being inserted in the same scope. *)
Definition applyOne {S} (E : Env S) (dir : string) (native : bool)
           (drv : Driver.t S) (sqlDB : conn) (f : string) (s : S) : Outcome S :=
  let path := filepath_Join E dir f in
  match parseMigration E path s with
  | Err err => (Some err, s, [announce f; EvParse path])
  | Ok (up, _) =>
    let '(r, s1, t) :=
        underPolicy E sqlDB (MigrationOptions.Transaction (Options up))
                    (inScope E native (Contents up)
                             (fun tx => Driver.InsertMigration drv tx
                                                               (migrationVersion f))
                             (fun tx => EvInsert tx (migrationVersion f)))
                    s in
    (r, s1, [announce f; EvParse path] ++ t)
  end.

(** The batch (4.6): the files are applied in order, the first failure
    halting the rest. *)
Fixpoint applyBatch {S} (E : Env S) (dir : string) (native : bool)
         (drv : Driver.t S) (sqlDB : conn) (files : list string) (s : S)
  : Outcome S :=
  match files with
  | [] => (None, s, [])
  | f :: rest =>
    let '(r, s1, t1) := applyOne E dir native drv sqlDB f s in
    match r with
    | Some err => (Some err, s1, t1)
    | None =>
      let '(r2, s2, t2) := applyBatch E dir native drv sqlDB rest s1 in
      (r2, s2, t1 ++ t2)
    end
  end.

(** The names of the entries of a listing that are files and that [re]
    accepts, in the order of the listing. *)
Definition matching (re : Regexp) (ents : list FileInfo) : list string :=
  map Name (filter (fun file => negb (IsDir file) && re (Name file)) ents).

(** The file a version resolves to (4.1): the first, in ascending
    byte-wise order of the names, of the files whose name starts with the
    version and ends in [.sql]. *)
Definition resolve (ver : string) (ents : list FileInfo) : result string :=
  match StringSort.sort (matching (versionFileRegexp ver) ents) with
  | [] => Err ("can't find migration file: "
                 ++ GoString.QuoteMeta ver ++ "*.sql")%string
  | f :: _ => Ok f
  end.

(** The run [o] with the events [tw] before its own. *)
Definition after {S A} (tw : list Event) (o : option (A * S * list Event))
  : option (A * S * list Event) :=
  match o with
  | Some (r, s', t) => Some (r, s', tw ++ t)
  | None => None
  end.

(** The run [o] followed by the release of the connection [c]. *)
Definition released {S A} (E : Env S) (c : conn)
           (o : option (A * S * list Event)) : option (A * S * list Event) :=
  match o with
  | Some (r, s', t) => Some (r, sql_Close E c s', t ++ [EvClose c])
  | None => None
  end.

(** A step followed, when it succeeded, by the best-effort schema dump,
    whose result is dropped. *)
Definition thenDump {S} (E : Env S) (db : DB) (fuel : nat) (o : Outcome S)
  : option (Outcome S) :=
  let '(r, s1, t) := o in
  match r with
  | Some err => Some (Some err, s1, t)
  | None =>
    match autoDump E db fuel s1 with
    | Some (_, s2, td) => Some (None, s2, t ++ td)
    | None => None
    end
  end.

(** [Rollback] once the bookkeeping query has answered [m] (4.6):
    nothing to roll back when it names no version; otherwise the version
    is resolved to a file, the file is announced and parsed, its Down
    script is executed under the policy of the Down section, the
    bookkeeping row of the version being deleted in the same scope, and
    the schema is dumped. *)
Definition rollbackFrom {S} (E : Env S) (db : DB) (native : bool) (fuel : nat)
           (drv : Driver.t S) (sqlDB : conn) (m : versions) (s : S)
  : option (Outcome S) :=
  let latest := latestOf m in
  if String.eqb latest "" then Some (Some nothingToRollBack, s, [])
  else if negb (GoString.ValidString (GoString.QuoteMeta latest)) then None
  else
    match ReadDir E (MigrationsDir db) s with
    | Err _ =>
      Some (Some ("could not find migrations directory `"
                    ++ MigrationsDir db ++ "`")%string, s, [])
    | Ok ents =>
      match resolve latest ents with
      | Err err => Some (Some err, s, [])
      | Ok f =>
        let path := filepath_Join E (MigrationsDir db) f in
        let notice := [EvPrint ("Rolling back: " ++ f ++ nl); EvParse path] in
        match parseMigration E path s with
        | Err err => Some (Some err, s, notice)
        | Ok (_, down) =>
          after notice
                (thenDump E db fuel
                   (underPolicy E sqlDB
                      (MigrationOptions.Transaction (Options down))
                      (inScope E native (Contents down)
                               (fun tx => Driver.DeleteMigration drv tx latest)
                               (fun tx => EvDelete tx latest))
                      s))
        end
      end
    end.

(** ** The database itself, and new migration files

    [CreateAndMigrate], [Create], [Drop] and [NewMigration]. *)

Module DriverAdmin.
(** The methods of the [Driver] interface that act on the database as a
    whole; [Driver.t] holds the others. *)
Record t (S : Type) := {
  DatabaseExists : URL.t -> S -> result bool * S;
  CreateDatabase : URL.t -> S -> option error * S;
  DropDatabase : URL.t -> S -> option error * S
}.
Arguments DatabaseExists {S}. Arguments CreateDatabase {S}.
Arguments DropDatabase {S}.
End DriverAdmin.

(** An open [*os.File]. *)
Definition osFile := nat.

(** What [NewMigration] asks of the clock and of the file system. *)
Record Files (S : Type) := {
  time_Now : S -> string;      (* time.Now().UTC().Format("20060102150405") *)
  os_Stat : string -> S -> option error;          (* the error of os.Stat *)
  os_IsNotExist : error -> bool;
  os_Create : string -> S -> result osFile * S;
  file_WriteString : osFile -> string -> S -> option error * S;
  file_Close : osFile -> S -> S
}.
Arguments time_Now {S}. Arguments os_Stat {S}. Arguments os_IsNotExist {S}.
Arguments os_Create {S}. Arguments file_WriteString {S}.
Arguments file_Close {S}.

(** [migrationTemplate]. *)
Definition migrationTemplate : string :=
  "-- migrate:up" ++ nl ++ nl ++ nl ++ "-- migrate:down" ++ nl ++ nl.

(** [fmt.Sprintf("%s_%s.sql", timestamp, name)]. *)
Definition migrationFileName (timestamp name : string) : string :=
  timestamp ++ "_" ++ name ++ ".sql".

Section Administration.

Context {S : Type} (E : Env S) (admin : Driver.t S -> DriverAdmin.t S)
        (F : Files S).

Local Abbreviation M := (M S).

(** [CreateAndMigrate]. *)
Definition CreateAndMigrate (db : DB) : M (option error) :=
  r <- waitBefore E db ;;
  match r with
  | Some err => ret (Some err)
  | None =>
    match DB_GetDriver E db with
    | Err err => ret (Some err)
    | Ok drv =>
      r <- call (DriverAdmin.DatabaseExists (admin drv) (DatabaseURL db))
                (fun _ => []) ;;
      r <- match r with
           | Ok false =>                       (* err == nil && !exists *)
             call (DriverAdmin.CreateDatabase (admin drv) (DatabaseURL db))
                  (fun _ => [])
           | _ => ret None
           end ;;
      match r with
      | Some err => ret (Some err)
      | None => Migrate E db
      end
    end
  end.

(** [Create]. *)
Definition Create (db : DB) : M (option error) :=
  r <- waitBefore E db ;;
  match r with
  | Some err => ret (Some err)
  | None =>
    match DB_GetDriver E db with
    | Err err => ret (Some err)
    | Ok drv =>
      call (DriverAdmin.CreateDatabase (admin drv) (DatabaseURL db))
           (fun _ => [])
    end
  end.

(** [Drop]. *)
Definition Drop (db : DB) : M (option error) :=
  r <- waitBefore E db ;;
  match r with
  | Some err => ret (Some err)
  | None =>
    match DB_GetDriver E db with
    | Err err => ret (Some err)
    | Ok drv =>
      call (DriverAdmin.DropDatabase (admin drv) (DatabaseURL db))
           (fun _ => [])
    end
  end.

(** Modelled from the spec: [mustClose] on a file, a helper that is not
    part of db.go; the file it is given is closed. *)
Definition mustCloseFile (f : osFile) : M unit :=
  fun _ s => Some (tt, file_Close F f s, []).

(** [NewMigration]. *)
Definition NewMigration (db : DB) (name : string) : M (option error) :=
  timestamp <- look (time_Now F) [] ;;
  if String.eqb name ""
  then ret (Some "please specify a name for the new migration")
  else
    let name := migrationFileName timestamp name in
    r <- call (ensureDir E (MigrationsDir db))
              (fun _ => [EvMkdir (MigrationsDir db)]) ;;
    match r with
    | Some err => ret (Some err)
    | None =>
      let path := filepath_Join E (MigrationsDir db) name in
      emit (EvPrint ("Creating migration: " ++ path ++ nl)) ;;;
      err <- look (os_Stat F path) [] ;;
      if negb (match err with
               | Some e => os_IsNotExist F e
               | None => false
               end)
      then ret (Some "file already exists")
      else
        r <- call (os_Create F path) (fun _ => []) ;;
        match r with
        | Err err => ret (Some err)
        | Ok f =>
          res <- call (file_WriteString F f migrationTemplate) (fun _ => []) ;;
          mustCloseFile f ;;;
          ret res
        end
    end.

End Administration.

(** ** Vocabulary of the further properties *)

(** The script holds no double quote and no back quote, the delimiters
    of the literals the tokenizer knows. *)
Fixpoint quoteFree (script : string) : bool :=
  match script with
  | EmptyString => true
  | String c rest =>
    negb (Ascii.eqb c GoString.DQUOTE) && negb (Ascii.eqb c GoString.BQUOTE)
    && quoteFree rest
  end.

(** The script without what the tokenizer skips from the mode [m] on:
    carriage returns and comments.  A line comment leaves its line feed;
    a general comment that is not closed runs to the end. *)
Fixpoint uncomment (m : Scanner.SkipMode) (s : string) : string :=
  match s with
  | EmptyString => EmptyString
  | String c s' =>
    match m with
    | Scanner.Code =>
      if Ascii.eqb c GoString.CR then uncomment Scanner.Code s'
      else if Ascii.eqb c "/" then
        match s' with
        | String c' s'' =>
          if Ascii.eqb c' "/" then uncomment Scanner.LineComment s''
          else if Ascii.eqb c' "*" then uncomment Scanner.GeneralComment s''
          else String c (uncomment Scanner.Code s')
        | EmptyString => String c EmptyString
        end
      else String c (uncomment Scanner.Code s')
    | Scanner.LineComment =>
      if Ascii.eqb c GoString.LF then String c (uncomment Scanner.Code s')
      else uncomment Scanner.LineComment s'
    | Scanner.GeneralComment =>
      if Ascii.eqb c "*" then
        match s' with
        | String c' s'' =>
          if Ascii.eqb c' "/" then uncomment Scanner.Code s''
          else uncomment Scanner.GeneralComment s'
        | EmptyString => EmptyString
        end
      else uncomment Scanner.GeneralComment s'
    end
  end.


(** [strings.TrimSpace] leaves something of the statement. *)
Definition nonBlank (statement : string) : Prop :=
  GoString.TrimSpace_empty statement = false.

(** The byte [c] occurs in [s]. *)
Definition holds (c : ascii) (s : string) : Prop :=
  In c (list_ascii_of_string s).

(** ASCII white space: tab, line feed, vertical tab, form feed, carriage
    return and space. *)
Definition asciiSpace (c : ascii) : bool :=
  existsb (Nat.eqb (GoString.code c)) [9; 10; 11; 12; 13; 32]%nat.

(** A script of ASCII white space only. *)
Fixpoint asciiBlank (script : string) : bool :=
  match script with
  | EmptyString => true
  | String c rest => asciiSpace c && asciiBlank rest
  end.

(** ASCII digits only. *)
Fixpoint allDigits (s : string) : bool :=
  match s with
  | EmptyString => true
  | String c rest => GoString.isDecimal c && allDigits rest
  end.

(** The first byte is an ASCII digit. *)
Definition startsWithDigit (s : string) : bool :=
  match s with
  | EmptyString => false
  | String c _ => GoString.isDecimal c
  end.

(** The runes of [.sql]. *)
Definition dotSql : list GoString.rune := [46; 115; 113; 108]%N.

(** The state after the queries [qs] have run on [tx], one after the other. *)
Fixpoint runQueries {S} (E : Env S) (tx : Transaction) (qs : list string) (s : S)
  : S :=
  match qs with
  | [] => s
  | q :: qs' => runQueries E tx qs' (snd (sql_Exec E tx q s))
  end.

(** Each of the queries [qs], run in turn from [s], succeeds. *)
Fixpoint allSucceed {S} (E : Env S) (tx : Transaction) (qs : list string) (s : S)
  : Prop :=
  match qs with
  | [] => True
  | q :: qs' =>
    fst (sql_Exec E tx q s) = None /\
    allSucceed E tx qs' (snd (sql_Exec E tx q s))
  end.

(** What one retry of [Wait] leaves in the trace. *)
Definition retry (db : DB) (r : option error) : list Event :=
  [EvPrint "."; EvSleep (WaitInterval db); EvPing r].


(** The events of [Wait]: a probe of the server, a sleep. *)
Definition isProbe (e : Event) : bool :=
  match e with
  | EvPing _ | EvSleep _ => true
  | _ => false
  end.

(** The events of a schema dump that reach the driver or the schema
    file. *)
Definition isDump (e : Event) : bool :=
  match e with
  | EvDump _ | EvMkdir _ | EvWrite _ _ => true
  | _ => false
  end.

(** The error of [Migrate] and [Status] when they find nothing to work
    on in the listing [r] of the migrations directory. *)
Definition nothingFound (dir : string) (r : result (list FileInfo)) : error :=
  match r with
  | Err _ => ("could not find migrations directory `" ++ dir ++ "`")%string
  | Ok _ => "no migration files found"
  end.

(** ** More fixtures *)

Module Sample.

Definition State := Ref.State (list string).


Definition tableDDL : string := "create table schema_migrations".

(** Modelled from the spec: [CreateMigrationsTable] of a driver that
    creates the bookkeeping table when the database does not have it
    (4.6: the engine ensures the bookkeeping table exists). *)
Definition provision (_ : conn) (s : State) : option error * State :=
  if existsb (String.eqb tableDDL) (Ref.schema _ s) then (None, s)
  else (None, Ref.withData _ s (Ref.schema _ s ++ [tableDDL]) (Ref.rows _ s)
                           (Ref.saved _ s)).

(** Modelled from the spec: the driver of the reference world, with that
    [CreateMigrationsTable]. *)
Definition provisioningDriver : Driver.t State :=
  {| Driver.Ping := Driver.Ping Fixture.driver;
     Driver.Open := Driver.Open Fixture.driver;
     Driver.CreateMigrationsTable := provision;
     Driver.SelectMigrations := Driver.SelectMigrations Fixture.driver;
     Driver.InsertMigration := Driver.InsertMigration Fixture.driver;
     Driver.DeleteMigration := Driver.DeleteMigration Fixture.driver;
     Driver.DumpSchema := Driver.DumpSchema Fixture.driver |}.

(** Modelled from the spec: the reference world, with that driver for
    every scheme. *)
Definition provisioning : Env State :=
  {| GetDriver := fun _ => Ok provisioningDriver;
     sql_Begin := sql_Begin Fixture.env;
     sql_Exec := sql_Exec Fixture.env;
     sql_Commit := sql_Commit Fixture.env;
     sql_Rollback := sql_Rollback Fixture.env;
     sql_Close := sql_Close Fixture.env;
     ReadDir := ReadDir Fixture.env;
     parseMigration := parseMigration Fixture.env;
     ensureDir := ensureDir Fixture.env;
     WriteFile := WriteFile Fixture.env;
     filepath_Join := filepath_Join Fixture.env;
     filepath_Dir := filepath_Dir Fixture.env |}.

Definition admin (found : result bool) (created : option error)
           (_ : Driver.t State) : DriverAdmin.t State :=
  {| DriverAdmin.DatabaseExists := fun _ s => (found, s);
     DriverAdmin.CreateDatabase := fun _ s => (created, s);
     DriverAdmin.DropDatabase := fun _ s => (None, s) |}.

Definition notExist : error := "no such file or directory".

Definition withFiles (s : State) (fs : list Ref.File) : State :=
  {| Ref.dirName := Ref.dirName _ s; Ref.files := fs;
     Ref.schemaFile := Ref.schemaFile _ s; Ref.downFor := Ref.downFor _ s;
     Ref.nextConn := Ref.nextConn _ s; Ref.schema := Ref.schema _ s;
     Ref.rows := Ref.rows _ s; Ref.saved := Ref.saved _ s |}.

Fixpoint basename (path : string) : string :=
  match path with
  | EmptyString => EmptyString
  | String c rest =>
    if existsb (Ascii.eqb "/") (list_ascii_of_string rest) then basename rest
    else if Ascii.eqb c "/" then rest else path
  end.

Definition files : Files State :=
  {| time_Now := fun _ => "20200102030405";
     os_Stat := fun path s =>
       if existsb (fun f => String.eqb (Ref.Join (Ref.dirName _ s)
                                                 (Ref.file_name f)) path)
                  (Ref.files _ s)
       then None else Some notExist;
     os_IsNotExist := fun e => String.eqb e notExist;
     os_Create := fun path s =>
       (Ok O, withFiles s (Ref.files _ s
                             ++ [Fixture.file (basename path) "" "" true]));
     file_WriteString := fun _ _ s => (None, s);
     file_Close := fun _ s => s |}.

Definition dumpFails (_ : list string) : result string :=
  Err "pg_dump: command not found".

Definition envNoDump := Ref.env (list string) Fixture.run dumpFails.

Definition driverNoDump := Ref.driver (list string) dumpFails.

Definition empty : State :=
  Fixture.world [Fixture.file "README.md" "" "" true] [].

Definition broken : State :=
  Fixture.world [Fixture.file "1_a.sql" "create a" "drop a" true;
                 Fixture.file "2_b.sql" "fail" "drop b" true] [].

Definition orphan : State := Fixture.world Fixture.five ["7"].

Definition hurried : DB :=
  {| AutoDumpSchema := true;
     DatabaseURL := {| URL.Scheme := "postgres"; URL.Rest := "//localhost/db" |};
     MigrationsDir := "./db/migrations";
     SchemaFile := "./db/schema.sql";
     WaitBefore := true;
     WaitInterval := 1000000000;
     WaitTimeout := 2000000000;
     NativeEngine := true |}.

Definition once : DB :=
  {| AutoDumpSchema := true;
     DatabaseURL := {| URL.Scheme := "postgres"; URL.Rest := "//localhost/db" |};
     MigrationsDir := "./db/migrations";
     SchemaFile := "./db/schema.sql";
     WaitBefore := true;
     WaitInterval := 1000000000;
     WaitTimeout := 0;
     NativeEngine := true |}.

Definition taken : State :=
  Fixture.world [Fixture.file "20200102030405_add_users.sql" "" "" true] [].

Definition commented : string :=
  "create a; /* drop a; */ create b; // create c;" ++ nl ++ "create d".

End Sample.

(** * Properties *)

(** ** Running computations *)

Section Running.

Context {S : Type}.

Lemma bind_returns {A B} (m : M S A) (f : A -> M S B) fuel s b s2 t :
  bind m f fuel s = Some (b, s2, t) ->
  exists a s1 t1 t2,
    m fuel s = Some (a, s1, t1) /\ f a fuel s1 = Some (b, s2, t2) /\
    t = t1 ++ t2.
Proof.
  unfold bind. destruct (m fuel s) as [[[a s1] t1]|]; [|discriminate].
  destruct (f a fuel s1) as [[[b' s2'] t2]|] eqn:Hf; [|discriminate].
  intros H. inversion H; subst. exists a, s1, t1, t2. auto.
Qed.

Lemma bind_run {A B} (m : M S A) (f : A -> M S B) fuel s a s1 t1 :
  m fuel s = Some (a, s1, t1) ->
  bind m f fuel s =
  match f a fuel s1 with
  | Some (b, s2, t2) => Some (b, s2, t1 ++ t2)
  | None => None
  end.
Proof. unfold bind. intros ->. reflexivity. Qed.

Lemma call_run {A} (f : S -> A * S) ev fuel s :
  call f ev fuel s = Some (fst (f s), snd (f s), ev (fst (f s))).
Proof. unfold call. destruct (f s); reflexivity. Qed.

Lemma bind_call {A B} (f : S -> A * S) ev (k : A -> M S B) fuel s :
  bind (call f ev) k fuel s =
  match k (fst (f s)) fuel (snd (f s)) with
  | Some (b, s2, t2) => Some (b, s2, ev (fst (f s)) ++ t2)
  | None => None
  end.
Proof. unfold bind. rewrite call_run. reflexivity. Qed.

Lemma bind_emit {B} e (k : unit -> M S B) fuel s :
  bind (emit e) k fuel s =
  match k tt fuel s with
  | Some (b, s2, t2) => Some (b, s2, e :: t2)
  | None => None
  end.
Proof. reflexivity. Qed.

Lemma bind_look {A B} (f : S -> A) ev (k : A -> M S B) fuel s :
  bind (look f ev) k fuel s =
  match k (f s) fuel s with
  | Some (b, s2, t2) => Some (b, s2, ev ++ t2)
  | None => None
  end.
Proof. reflexivity. Qed.

Lemma run_nil {A} (o : option (A * S * list Event)) x :
  match o with
  | Some (b, s2, t2) => Some (b, s2, [] ++ t2)
  | None => None
  end = Some x -> o = Some x.
Proof. destruct o as [[[b s2] t2]|]; [exact (fun H => H) | discriminate]. Qed.

Lemma bind_ret {A B} (a : A) (k : A -> M S B) fuel s :
  bind (ret a) k fuel s = k a fuel s.
Proof.
  unfold bind, ret. destruct (k a fuel s) as [[[b s2] t2]|]; reflexivity.
Qed.

End Running.

(** One step of symbolic execution of a goal [bind m k fuel s = _]. *)
Ltac run_step :=
  first [ rewrite bind_call | rewrite bind_emit | rewrite bind_look
        | rewrite bind_ret ].

(** Splits a hypothesis [bind m f fuel s = Some _] into its two runs: the
    first returns [a] in state [s1] with trace [t1] (hypothesis [H1]), the
    second, with trace [t2], takes the place of [H]. *)
Tactic Notation "bind_inv" hyp(H) "as" ident(a) ident(s1) ident(t1) ident(t2)
       ident(H1) :=
  let H' := fresh "Hboth" in
  let H2 := fresh "Hnext" in
  let Heq := fresh "Htrace" in
  pose proof (bind_returns _ _ _ _ _ _ _ H) as H'; clear H;
  destruct H' as (a & s1 & t1 & t2 & H1 & H2 & Heq);
  rename H2 into H; subst.

(** Turns the run of a primitive into equations. *)
Ltac prim_inv H :=
  first
    [ rewrite call_run in H
    | unfold ret, emit, look, mustClose in H ];
  inversion H; subst; clear H.

(** ** The transaction scope (claim C4) *)

Section TransactionScope.

Context {S : Type} (E : Env S).

(** C4.  Once the scope is open ([Begin] succeeded) and the body returns,
    [doTransaction] returns, and: when the body succeeded the scope is
    committed and nothing is rolled back, the result being that of the
    commit; when the body failed with [err] the scope is rolled back and
    nothing is committed, the result being the rollback's error if the
    rollback fails and [err] otherwise. *)
Theorem doTransaction_commit_iff_body_succeeds
        (db : conn) (txFunc : Transaction -> M S (option error))
        (fuel : nat) (s s0 sb : S) (tx : txn) (rb : option error)
        (tb : list Event) :
  sql_Begin E db s = (Ok tx, s0) ->
  txFunc (OnTx tx) fuel s0 = Some (rb, sb, tb) ->
  match rb with
  | None =>
    doTransaction E db txFunc fuel s =
    Some (fst (sql_Commit E tx sb), snd (sql_Commit E tx sb),
          [EvBegin tx] ++ tb ++ [EvCommit tx])
  | Some err =>
    doTransaction E db txFunc fuel s =
    Some (match fst (sql_Rollback E tx sb) with
          | Some err1 => Some err1
          | None => Some err
          end,
          snd (sql_Rollback E tx sb),
          [EvBegin tx] ++ tb ++ [EvRollback tx])
  end.
Proof.
  intros Hbegin Hbody. unfold doTransaction.
  rewrite (bind_run _ _ _ _ (Ok tx) s0 [EvBegin tx])
    by (rewrite call_run, Hbegin; reflexivity).
  rewrite (bind_run _ _ _ _ rb sb tb) by exact Hbody.
  destruct rb as [err|].
  - rewrite (bind_run _ _ _ _ (fst (sql_Rollback E tx sb))
                      (snd (sql_Rollback E tx sb)) [EvRollback tx])
      by (rewrite call_run; reflexivity).
    destruct (fst (sql_Rollback E tx sb)); unfold ret; reflexivity.
  - rewrite call_run. reflexivity.
Qed.

End TransactionScope.

(** ** The statement splitter (claim C3) *)

Section Splitter.

Import Scanner.

Lemma push_length c r :
  String.length (snd (push c r)) = String.length (snd r).
Proof. reflexivity. Qed.

Lemma skip_shorter m s : String.length (skip m s) <= String.length s.
Proof.
  remember (String.length s) as n eqn:Hn.
  revert m s Hn. induction n as [n IH] using lt_wf_ind. intros m s Hn.
  destruct s as [|c s']; [simpl; lia|].
  simpl in Hn. destruct m; simpl.
  - destruct (Ascii.eqb c GoString.CR).
    + specialize (IH (String.length s') ltac:(lia) Code s' eq_refl). lia.
    + destruct (Ascii.eqb c "/"); [|simpl; lia].
      destruct s' as [|c' s'']; [simpl; lia|]. simpl in Hn.
      destruct (Ascii.eqb c' "/").
      * specialize (IH (String.length s'') ltac:(lia) LineComment s'' eq_refl).
        simpl. lia.
      * destruct (Ascii.eqb c' "*"); [|simpl; lia].
        specialize (IH (String.length s'') ltac:(lia) GeneralComment s'' eq_refl).
        simpl. lia.
  - destruct (Ascii.eqb c GoString.LF); [simpl; lia|].
    specialize (IH (String.length s') ltac:(lia) LineComment s' eq_refl). lia.
  - destruct (Ascii.eqb c "*").
    + destruct s' as [|c' s'']; [simpl; lia|]. simpl in Hn.
      destruct (Ascii.eqb c' "/").
      * specialize (IH (String.length s'') ltac:(lia) Code s'' eq_refl).
        simpl. lia.
      * specialize (IH (String.length (String c' s'')) ltac:(simpl; lia)
                       GeneralComment (String c' s'') eq_refl).
        simpl in *. lia.
    + specialize (IH (String.length s') ltac:(lia) GeneralComment s' eq_refl).
      lia.
Qed.

Lemma scanString_shorter quote st s :
  String.length (snd (scanString quote st s)) <= String.length s.
Proof.
  revert st. induction s as [|c s' IH]; intros st; [simpl; lia|].
  assert (Hbody :
    String.length
      (snd (if Ascii.eqb c quote then (String c EmptyString, s')
            else if Ascii.eqb c GoString.LF then (String c EmptyString, s')
            else if Ascii.eqb c GoString.BACKSLASH
                 then push c (scanString quote Escape s')
                 else push c (scanString quote Body s')))
    <= String.length (String c s')).
  { destruct (Ascii.eqb c quote); [simpl; lia|].
    destruct (Ascii.eqb c GoString.LF); [simpl; lia|].
    destruct (Ascii.eqb c GoString.BACKSLASH); rewrite push_length;
      [specialize (IH Escape)|specialize (IH Body)]; simpl; lia. }
  destruct st as [| |base n]; cbn [scanString]; try exact Hbody.
  - repeat match goal with
           | |- context [if ?b then _ else _] =>
             lazymatch b with
             | Ascii.eqb c quote => fail
             | _ => destruct b
             end
           end;
      try exact Hbody; rewrite push_length;
      match goal with
      | |- context [scanString quote ?st' s'] => specialize (IH st')
      end; simpl; lia.
  - destruct n as [|n']; [exact Hbody|].
    destruct (digitVal c <? base)%nat; [|exact Hbody].
    rewrite push_length. specialize (IH (Digits base n')). simpl. lia.
Qed.

Lemma scanRawString_shorter s :
  String.length (snd (scanRawString s)) <= String.length s.
Proof.
  induction s as [|c s' IH]; simpl; [lia|].
  destruct (Ascii.eqb c GoString.BQUOTE); [simpl; lia|].
  rewrite push_length. lia.
Qed.

(** Every token but [EOF] consumes input. *)
Lemma Scan_shorter s tok text rest :
  Scan s = (tok, text, rest) -> tok <> EOF ->
  String.length rest < String.length s.
Proof.
  unfold Scan. pose proof (skip_shorter Code s) as Hskip.
  destruct (skip Code s) as [|c s'].
  - intros H. inversion H. congruence.
  - simpl in Hskip.
    destruct (Ascii.eqb c GoString.DQUOTE).
    + intros H _. inversion H; subst.
      pose proof (scanString_shorter GoString.DQUOTE Body s'). lia.
    + destruct (Ascii.eqb c GoString.BQUOTE); intros H _; inversion H; subst.
      * pose proof (scanRawString_shorter s'). lia.
      * lia.
Qed.

(** The fuel [parseStatements] gives its loop is enough: more fuel does
    not change the result. *)
Lemma parseLoop_fuel s :
  forall fuel statement statements,
    String.length s < fuel ->
    parseLoop fuel s statement statements =
    parseLoop (Datatypes.S (String.length s)) s statement statements.
Proof.
  remember (String.length s) as n eqn:Hn.
  revert s Hn. induction n as [n IH] using lt_wf_ind.
  intros s Hn fuel statement statements Hfuel.
  destruct fuel as [|fuel]; [lia|]. cbn [parseLoop].
  destruct (Scan s) as [[tok text] rest] eqn:HScan.
  assert (Hrest : tok <> EOF -> String.length rest < n).
  { intros Htok. subst n. eapply Scan_shorter; eauto. }
  assert (Hgo : forall st sts, tok <> EOF ->
            parseLoop fuel rest st sts = parseLoop n rest st sts).
  { intros st sts Htok. specialize (Hrest Htok).
    rewrite (IH (String.length rest) Hrest rest eq_refl fuel) by lia.
    destruct n as [|n']; [lia|].
    rewrite (IH (String.length rest) Hrest rest eq_refl (Datatypes.S n')) by lia.
    reflexivity. }
  destruct tok; try reflexivity;
    try (apply Hgo; discriminate).
  destruct (Ascii.eqb c endOfStatement); apply Hgo; discriminate.
Qed.

Lemma Scan_plain c rest :
  plain (String c rest) = true ->
  Scan (String c rest) = (Char c, String c EmptyString, rest).
Proof.
  cbn [plain]. rewrite !andb_true_iff, !negb_true_iff.
  intros [[[[Hcr Hdq] Hbq] Hcomment] _].
  unfold Scan. cbn [skip]. rewrite Hcr.
  assert (Hskip : (if Ascii.eqb c "/"
                   then match rest with
                        | String c' s'' =>
                          if Ascii.eqb c' "/" then skip LineComment s''
                          else if Ascii.eqb c' "*" then skip GeneralComment s''
                               else String c rest
                        | EmptyString => String c rest
                        end
                   else String c rest) = String c rest).
  { destruct (Ascii.eqb c "/"); [|reflexivity].
    destruct rest as [|c' s'']; [reflexivity|].
    simpl in Hcomment. apply orb_false_iff in Hcomment as [-> ->].
    reflexivity. }
  rewrite Hskip, Hdq, Hbq. reflexivity.
Qed.

Lemma parseLoop_plain s :
  forall fuel statement statements,
    plain s = true -> String.length s < fuel ->
    parseLoop fuel s statement statements =
    statements ++ splitSpec s statement.
Proof.
  induction s as [|c rest IH]; intros fuel statement statements Hplain Hfuel;
    (destruct fuel as [|fuel]; [simpl in Hfuel; lia|]).
  - cbn. unfold closeStatement.
    destruct (GoString.TrimSpace_empty statement);
      [rewrite app_nil_r|]; reflexivity.
  - cbn [parseLoop]. rewrite (Scan_plain _ _ Hplain).
    assert (Hrest : plain rest = true).
    { cbn [plain] in Hplain. apply andb_true_iff in Hplain. tauto. }
    simpl in Hfuel. cbn [splitSpec].
    destruct (Ascii.eqb c endOfStatement).
    + rewrite IH by (auto; lia). unfold closeStatement.
      destruct (GoString.TrimSpace_empty statement);
        [reflexivity | rewrite <- app_assoc; reflexivity].
    + rewrite IH by (auto; lia). reflexivity.
Qed.

(** C3, as amended.  On a script without carriage return, double quote,
    back quote or comment opener, and without a leading byte-order mark,
    [parseStatements] is the splitter of the specification: every
    character but [;] is copied, each [;] and the end of the input close
    the accumulator, which is kept when it is not blank. *)
Theorem parseStatements_plain (script : string) :
  plain script = true ->
  Scanner.Init script = script ->
  parseStatements script = splitSpec script EmptyString.
Proof.
  intros Hplain Hbom. unfold parseStatements. rewrite Hbom.
  rewrite parseLoop_plain by (auto; lia). reflexivity.
Qed.

End Splitter.

(** ** The connection wait loop (claim C8) *)

Section Waiting.

Context {S : Type} (E : Env S) (drv : Driver.t S) (db : DB).

Hypothesis interval_nonneg : (0 <= WaitInterval db)%Z.
Hypothesis no_overflow : (WaitTimeout db + WaitInterval db < 2 ^ 63)%Z.

Local Abbreviation Loops := (Loops drv db).

Lemma wrap64_small z : (0 <= z < 2 ^ 63)%Z -> wrap64 z = z.
Proof.
  intros Hz. unfold wrap64.
  rewrite Z.mod_small by (change (2 ^ 64)%Z with (2 ^ 63 + 2 ^ 63)%Z; lia).
  lia.
Qed.

Lemma last_cons (errs : list error) :
  forall e d, last (e :: errs) d = last errs e.
Proof.
  induction errs as [|e' errs IH]; intros e d; [reflexivity|].
  change (last (e :: e' :: errs) d) with (last (e' :: errs) d).
  rewrite (IH e' d), (IH e' e). reflexivity.
Qed.

Lemma loop_exit i err s : (i >= WaitTimeout db)%Z -> Loops i err s.
Proof.
  intros Hi. exists O, (Some (timeoutMessage err)), s, [EvPrint nl], [].
  split.
  - destruct O; simpl; destruct (Z.ltb_spec i (WaitTimeout db));
      try lia; reflexivity.
  - split; [reflexivity|]. right. simpl. repeat split; auto; lia.
Qed.

Lemma loop_hit i err s :
  (i < WaitTimeout db)%Z ->
  fst (Driver.Ping drv (DatabaseURL db) s) = None ->
  Loops i err s.
Proof.
  intros Hi Hping.
  exists 1%nat, None, (snd (Driver.Ping drv (DatabaseURL db) s)),
    ([EvPrint "."; EvSleep (WaitInterval db); EvPing None] ++ [EvPrint nl]),
    [].
  split.
  - simpl. destruct (Z.ltb_spec i (WaitTimeout db)); [|lia].
    destruct (Driver.Ping drv (DatabaseURL db) s) as [r s1].
    simpl in Hping. subst r. reflexivity.
  - split.
    + simpl. rewrite Hping. reflexivity.
    + left. simpl. repeat split; auto; lia.
Qed.

Lemma loop_step i err s e :
  (0 <= i < WaitTimeout db)%Z ->
  fst (Driver.Ping drv (DatabaseURL db) s) = Some e ->
  Loops (i + WaitInterval db)%Z e (snd (Driver.Ping drv (DatabaseURL db) s)) ->
  Loops i err s.
Proof.
  intros Hi Hping (fuel & r & s' & t & errs & Hrun & Hpings & Hcase).
  exists (Datatypes.S fuel), r, s',
    ([EvPrint "."; EvSleep (WaitInterval db); EvPing (Some e)] ++ t),
    (e :: errs).
  split.
  - simpl. destruct (Z.ltb_spec i (WaitTimeout db)); [|lia].
    destruct (Driver.Ping drv (DatabaseURL db) s) as [r1 s1].
    simpl in Hping, Hrun. subst r1.
    rewrite wrap64_small by lia. rewrite Hrun. reflexivity.
  - assert (Hp : pings ([EvPrint "."; EvSleep (WaitInterval db);
                          EvPing (Some e)] ++ t) = Some e :: pings t)
      by reflexivity.
    unfold waitOutcome. rewrite Hp. split.
    + simpl. rewrite Hping. f_equal. exact Hpings.
    + destruct Hcase as [(Hr & Hps & Hlt) | (Hr & Hps & Hge & Hran)].
      * left. rewrite Hps. repeat split; auto.
        change (length (e :: errs)) with (Datatypes.S (length errs)). lia.
      * right. rewrite Hps, (last_cons errs e err).
        change (length (e :: errs)) with (Datatypes.S (length errs)).
        rewrite Nat2Z.inj_succ.
        repeat split; auto; try lia.
        right. destruct Hran as [-> | Hran]; [simpl length|]; lia.
Qed.

(** With a positive interval the counter reaches the timeout. *)
Lemma loop_positive_interval :
  (0 < WaitInterval db)%Z ->
  forall n i err s, (0 <= i)%Z -> (WaitTimeout db - i <= Z.of_nat n)%Z ->
                    Loops i err s.
Proof.
  intros Hpos. induction n as [|n IH]; intros i err s Hi Hn.
  - apply loop_exit. lia.
  - destruct (Z_lt_ge_dec i (WaitTimeout db)) as [Hlt|Hge];
      [|apply loop_exit; exact Hge].
    destruct (fst (Driver.Ping drv (DatabaseURL db) s)) as [e|] eqn:Hping.
    + eapply loop_step; eauto. apply IH; lia.
    + apply loop_hit; auto.
Qed.

(** With any interval the loop ends when a probe succeeds. *)
Lemma loop_probe_succeeds :
  forall k i err s, (0 <= i)%Z -> succeedsAfter drv db k s -> Loops i err s.
Proof.
  induction k as [|k IH]; intros i err s Hi (errs & Hlen & Hrun).
  - destruct (Z_lt_ge_dec i (WaitTimeout db)) as [Hlt|Hge];
      [|apply loop_exit; exact Hge].
    apply loop_hit; auto.
    destruct errs; [|discriminate]. simpl in Hrun. congruence.
  - destruct (Z_lt_ge_dec i (WaitTimeout db)) as [Hlt|Hge];
      [|apply loop_exit; exact Hge].
    destruct errs as [|e errs]; [discriminate|].
    cbn [pingRun map app] in Hrun. inversion Hrun as [[Hping Hrest]].
    eapply loop_step; eauto. apply IH; [lia|].
    exists errs. split; [simpl in Hlen; lia | exact Hrest].
Qed.

(** C8, as amended.  [Wait] returns whenever the interval is positive,
    or the timeout is not, or some probe eventually succeeds (interval
    and timeout being such that the counter does not overflow).  It then
    has made successive probes, of which only the last may have
    succeeded: it returns success exactly when the last probe did, having
    started each retry with the counter below the timeout; otherwise the
    counter reached the timeout and the error carries the last probe
    error. *)
Theorem Wait_returns (s : S) :
  DB_GetDriver E db = Ok drv ->
  ((0 < WaitInterval db)%Z \/ (WaitTimeout db <= 0)%Z
   \/ exists k, succeedsAfter drv db k s) ->
  exists fuel r s' t errs,
    Wait E db fuel s = Some (r, s', t) /\
    pings t = pingRun drv db (length (pings t)) s /\
    ((r = None /\ pings t = map Some errs ++ [None] /\
      (errs = [] \/
       ((Z.of_nat (length errs) - 1) * WaitInterval db < WaitTimeout db)%Z))
     \/
     (exists e,
         r = Some (timeoutMessage e) /\ pings t = map Some (errs ++ [e]) /\
         (Z.of_nat (length errs) * WaitInterval db >= WaitTimeout db)%Z /\
         (errs = [] \/
          ((Z.of_nat (length errs) - 1) * WaitInterval db
           < WaitTimeout db)%Z))).
Proof.
  intros Hdrv Hwhy. unfold Wait. rewrite Hdrv. cbv beta iota.
  destruct (fst (Driver.Ping drv (DatabaseURL db) s)) as [e|] eqn:Hping.
  - assert (Hloop : Loops 0%Z e (snd (Driver.Ping drv (DatabaseURL db) s))).
    { destruct Hwhy as [Hpos | [Hto | (k & errs & Hlen & Hrun)]].
      - apply (loop_positive_interval Hpos (Z.to_nat (WaitTimeout db))); lia.
      - apply loop_exit. lia.
      - destruct k as [|k].
        + destruct errs; [|discriminate]. simpl in Hrun. congruence.
        + destruct errs as [|e' errs]; [discriminate|].
          cbn [pingRun map app] in Hrun. inversion Hrun as [[He Hrest]].
          apply (loop_probe_succeeds k); [lia|].
          exists errs. split; [simpl in Hlen; lia | exact Hrest]. }
    destruct Hloop as (fuel & r & s' & t & errs & Hrun & Hpings & Hcase).
    destruct Hcase as [(Hr & Hps & Hlt) | (Hr & Hps & Hge & Hran)].
    + exists fuel, r, s',
        ([EvPing (Some e)] ++ [EvPrint "Waiting for database"] ++ t),
        (e :: errs).
      split; [|split].
      * unfold ping. rewrite bind_call, Hping, bind_emit, Hrun.
        reflexivity.
      * change (pings ([EvPing (Some e)] ++
                       [EvPrint "Waiting for database"] ++ t))
          with (Some e :: pings t).
        simpl. rewrite Hping. f_equal. exact Hpings.
      * left. change (pings ([EvPing (Some e)] ++
                             [EvPrint "Waiting for database"] ++ t))
          with (Some e :: pings t).
        rewrite Hps. repeat split; auto.
        right. change (length (e :: errs)) with (Datatypes.S (length errs)).
        lia.
    + destruct (exists_last (l := e :: errs) ltac:(discriminate))
        as (errs0 & e0 & Hsplit).
      exists fuel, r, s',
        ([EvPing (Some e)] ++ [EvPrint "Waiting for database"] ++ t),
        errs0.
      assert (Hlen : length errs0 = length errs).
      { apply (f_equal (@length error)) in Hsplit.
        rewrite length_app in Hsplit. simpl in Hsplit. lia. }
      assert (Hlast : last errs e = e0).
      { rewrite <- (last_cons errs e e), Hsplit. apply last_last. }
      split; [|split].
      * unfold ping. rewrite bind_call, Hping, bind_emit, Hrun.
        reflexivity.
      * change (pings ([EvPing (Some e)] ++
                       [EvPrint "Waiting for database"] ++ t))
          with (Some e :: pings t).
        simpl. rewrite Hping. f_equal. exact Hpings.
      * right. exists e0.
        change (pings ([EvPing (Some e)] ++
                       [EvPrint "Waiting for database"] ++ t))
          with (Some e :: pings t).
        rewrite Hps, Hr, Hlast, <- Hsplit, Hlen.
        repeat split; auto; try lia.
        destruct Hran as [-> | Hran]; [|right; lia].
        left. destruct errs0; [reflexivity|discriminate].
  - exists O, None, (snd (Driver.Ping drv (DatabaseURL db) s)),
      [EvPing None], [].
    split; [|split].
    + unfold ping. rewrite bind_call, Hping. reflexivity.
    + simpl. rewrite Hping. reflexivity.
    + left. repeat split; auto.
Qed.

End Waiting.

(** ** Opening and releasing the connection *)

Section Connection.

Context {S : Type} (E : Env S).

Lemma deferClose_run {A} (c : conn) (rest : M S A) fuel s r s2 t2 :
  rest fuel s = Some (r, s2, t2) ->
  deferClose E c rest fuel s = Some (r, sql_Close E c s2, t2 ++ [EvClose c]).
Proof.
  intros Hrest. unfold deferClose.
  rewrite (bind_run _ _ _ _ _ _ _ Hrest). reflexivity.
Qed.

Lemma deferClose_returns {A} (c : conn) (rest : M S A) fuel s r s' t :
  deferClose E c rest fuel s = Some (r, s', t) ->
  exists s2 t2,
    rest fuel s = Some (r, s2, t2) /\ s' = sql_Close E c s2 /\
    t = t2 ++ [EvClose c].
Proof.
  unfold deferClose. intros H.
  destruct (rest fuel s) as [[[r0 s2] t2]|] eqn:Hrest.
  - rewrite (bind_run _ _ _ _ _ _ _ Hrest) in H. cbn in H.
    inversion H; subst. eauto.
  - unfold bind in H. rewrite Hrest in H. discriminate.
Qed.

Lemma open_run (db : DB) drv c fuel s s1 s2 :
  DB_GetDriver E db = Ok drv ->
  Driver.Open drv (DatabaseURL db) s = (Ok c, s1) ->
  Driver.CreateMigrationsTable drv c s1 = (None, s2) ->
  openDatabaseForMigration E db fuel s =
  Some (Ok (drv, c), s2, [EvOpen c; EvCreateTable c]).
Proof.
  intros Hdrv Hopen Hcreate. unfold openDatabaseForMigration.
  rewrite Hdrv. cbv beta iota.
  rewrite bind_call, Hopen. cbn [fst snd].
  rewrite bind_call, Hcreate. reflexivity.
Qed.

(** The ways [openDatabaseForMigration] returns: without a connection
    (none was opened, or the one opened was released), or with a live
    one. *)
Lemma open_returns (db : DB) fuel s r s' t :
  openDatabaseForMigration E db fuel s = Some (r, s', t) ->
  (exists err, r = Err err /\
               (t = [] \/ exists c, t = [EvOpen c; EvCreateTable c; EvClose c]))
  \/ (exists drv c, r = Ok (drv, c) /\ DB_GetDriver E db = Ok drv /\
                    t = [EvOpen c; EvCreateTable c]).
Proof.
  unfold openDatabaseForMigration.
  destruct (DB_GetDriver E db) as [drv|err] eqn:Hdrv.
  - rewrite bind_call.
    destruct (Driver.Open drv (DatabaseURL db) s) as [[c|err] s1]; cbn [fst snd].
    + rewrite bind_call.
      destruct (Driver.CreateMigrationsTable drv c s1) as [[err|] s2];
        cbn; intros H; inversion H; subst; eauto 10.
    + cbn. intros H; inversion H; subst. eauto.
  - cbn. intros H; inversion H; subst. eauto.
Qed.

(** [findMigrationFiles] reads the directory and changes nothing. *)
Lemma findMigrationFiles_run dir re fuel s :
  findMigrationFiles E dir re fuel s =
  Some (match ReadDir E dir s with
        | Ok files =>
          Ok (StringSort.sort
                (map Name (filter (fun file => negb (IsDir file)
                                               && re (Name file)) files)))
        | Err _ =>
          Err ("could not find migrations directory `" ++ dir ++ "`")%string
        end, s, []).
Proof.
  unfold findMigrationFiles. rewrite bind_look.
  destruct (ReadDir E dir s); reflexivity.
Qed.

End Connection.

(** ** Status (claim C1) *)

Section StatusReport.

Context {S : Type} (E : Env S).

Lemma count_split (results : list statusResult) :
  length results = (appliedCount results + pendingCount results)%nat.
Proof.
  unfold appliedCount, pendingCount.
  induction results as [|r results IH]; [reflexivity|].
  simpl. destruct (applied r); simpl; lia.
Qed.

Lemma statusLoop_run quiet results :
  forall total fuel (s : S),
    statusLoop quiet results total fuel s =
    Some ((total + Z.of_nat (appliedCount results))%Z, s,
          if quiet then []
          else map (fun r => EvPrint (statusLine r)) results).
Proof.
  induction results as [|r results IH]; intros total fuel s.
  - cbn. rewrite Z.add_0_r. destruct quiet; reflexivity.
  - cbn [statusLoop].
    assert (Hcount : appliedCount (r :: results)
                     = ((if applied r then 1 else 0) + appliedCount results)%nat).
    { unfold appliedCount. simpl. destruct (applied r); reflexivity. }
    rewrite Hcount. destruct quiet; cbn [negb].
    + rewrite bind_ret, IH. destruct (applied r); do 3 f_equal; lia.
    + rewrite bind_emit, IH. cbn [map]. unfold statusLine at 2.
      destruct (applied r) eqn:Happlied; cbn [String.append];
        do 3 f_equal; lia.
Qed.

(** C1, as amended.  When the migrations directory lists at least one
    matching file and the bookkeeping query answers, [Status] returns
    the number of pending files and a nil error (the number of applied
    files is computed, and printed unless quiet, but not returned); it
    opens one connection and releases it; when quiet it prints nothing,
    otherwise one line per file in ascending file-name order and the two
    counts. *)
Theorem Status_returns_pending_count
        (db : DB) (quiet : bool) (fuel : nat) (s s1 s2 s3 : S)
        (ents : list FileInfo) (drv : Driver.t S) (c : conn) (m : versions) :
  ReadDir E (MigrationsDir db) s = Ok ents ->
  discovered ents <> [] ->
  DB_GetDriver E db = Ok drv ->
  Driver.Open drv (DatabaseURL db) s = (Ok c, s1) ->
  Driver.CreateMigrationsTable drv c s1 = (None, s2) ->
  Driver.SelectMigrations drv c (-1) s2 = (Ok m, s3) ->
  Status E db quiet fuel s =
  Some ((Z.of_nat (pendingCount (statusOf m (discovered ents))), None),
        sql_Close E c s3,
        [EvOpen c; EvCreateTable c; EvSelect c (-1); EvClose c]
        ++ (if quiet then []
            else statusReport (statusOf m (discovered ents)))).
Proof.
  intros Hdir Hfiles Hdrv Hopen Hcreate Hselect.
  assert (Hcheck :
    checkMigrationsStatus E db fuel s =
    Some (Ok (statusOf m (discovered ents)), sql_Close E c s3,
          [EvOpen c; EvCreateTable c; EvSelect c (-1); EvClose c])).
  { unfold checkMigrationsStatus.
    rewrite (bind_run _ _ _ _ _ _ _ (findMigrationFiles_run E _ _ fuel s)).
    rewrite Hdir. cbv beta iota. fold (discovered ents).
    destruct (discovered ents) as [|f files] eqn:Hd; [congruence|].
    cbn [length Nat.eqb].
    rewrite (bind_run _ _ _ _ _ _ _ (open_run E db drv c fuel s s1 s2
                                              Hdrv Hopen Hcreate)).
    cbv beta iota.
    rewrite (deferClose_run E c _ fuel s2 (Ok (statusOf m (f :: files))) s3
                            [EvSelect c (-1)]).
    - reflexivity.
    - unfold statusBody. rewrite bind_call, Hselect. reflexivity. }
  unfold Status. rewrite (bind_run _ _ _ _ _ _ _ Hcheck). cbv beta iota.
  rewrite (bind_run _ _ _ _ _ _ _ (statusLoop_run quiet _ 0%Z fuel _)).
  pose proof (count_split (statusOf m (discovered ents))) as Hsplit.
  replace (Z.of_nat (length (statusOf m (discovered ents)))
           - (0 + Z.of_nat (appliedCount (statusOf m (discovered ents)))))%Z
    with (Z.of_nat (pendingCount (statusOf m (discovered ents)))) by lia.
  destruct quiet; cbn [negb].
  - rewrite bind_ret. reflexivity.
  - cbv [bind emit ret]. unfold statusReport.
    rewrite !app_nil_r, Z.add_0_l. reflexivity.
Qed.

End StatusReport.

(** ** The shape of the traces of the engine *)

Section Shapes.

Context {S : Type} (E : Env S) (db : DB).

Lemma waitLoop_events (drv : Driver.t S) :
  forall fuel i err s r s' t,
    waitLoop drv db i err fuel s = Some (r, s', t) ->
    Forall (WaitEvent db) t.
Proof.
  induction fuel as [|fuel IH]; intros i err s r s' t; simpl;
    destruct (i <? WaitTimeout db)%Z; try discriminate;
    try solve [intros H; inversion H; subst; repeat constructor].
  destruct (Driver.Ping drv (DatabaseURL db) s) as [[e|] s1].
  - destruct (waitLoop drv db (wrap64 (i + WaitInterval db)) e fuel s1)
      as [[[r2 s2] t2]|] eqn:Hloop; [|discriminate].
    intros H; inversion H; subst.
    repeat constructor. eapply IH; eauto.
  - intros H; inversion H; subst. repeat constructor.
Qed.

Lemma Wait_events fuel s r s' t :
  Wait E db fuel s = Some (r, s', t) -> Forall (WaitEvent db) t.
Proof.
  unfold Wait. destruct (DB_GetDriver E db) as [drv|err].
  - unfold ping. rewrite bind_call.
    destruct (Driver.Ping drv (DatabaseURL db) s) as [[e|] s1]; cbn [fst snd].
    + rewrite bind_emit.
      destruct (waitLoop drv db 0 e fuel s1) as [[[r2 s2] t2]|] eqn:Hloop;
        [|discriminate].
      intros H; inversion H; subst. repeat constructor.
      eapply waitLoop_events; eauto.
    + cbn. intros H; inversion H; subst. repeat constructor.
  - cbn. intros H; inversion H; subst. constructor.
Qed.

Lemma waitBefore_events fuel s r s' t :
  waitBefore E db fuel s = Some (r, s', t) -> Forall (WaitEvent db) t.
Proof.
  unfold waitBefore. destruct (WaitBefore db).
  - apply Wait_events.
  - cbn. intros H; inversion H; subst. constructor.
Qed.

Lemma execStatements_events tx statements :
  forall fuel s r s' t,
    execStatements E tx statements fuel s = Some (r, s', t) ->
    Forall (fun e => exists q, e = EvExec tx q /\ In q statements) t.
Proof.
  induction statements as [|q rest IH]; intros fuel s r s' t; cbn [execStatements].
  - cbn. intros H; inversion H; subst. constructor.
  - unfold exec. rewrite bind_call.
    destruct (fst (sql_Exec E tx q s)).
    + cbn. intros H; inversion H; subst.
      repeat constructor. exists q. split; [reflexivity | left; reflexivity].
    + destruct (execStatements E tx rest fuel (snd (sql_Exec E tx q s)))
        as [[[r2 s2] t2]|] eqn:Hrest; [|discriminate].
      intros H; inversion H; subst. constructor.
      * exists q. split; [reflexivity | left; reflexivity].
      * eapply Forall_impl; [|eapply IH; eauto].
        intros e (q' & -> & Hin). exists q'. split; [reflexivity|right; exact Hin].
Qed.

Lemma executeScript_events tx script fuel s r s' t :
  executeScript E tx script (useNative db) fuel s = Some (r, s', t) ->
  Forall (ScriptEvent db tx script) t.
Proof.
  unfold executeScript. rewrite bind_emit.
  assert (Hbanner : ScriptEvent db tx script
                      (EvPrint (if useNative db then nativeBanner
                                else emulatedBanner)))
    by apply ScriptBanner.
  destruct (useNative db) eqn:Hmode.
  - unfold exec. rewrite call_run. intros H; inversion H; subst.
    repeat constructor; auto. rewrite Hmode. reflexivity.
  - destruct (execStatements E tx (parseStatements script) fuel s)
      as [[[r2 s2] t2]|] eqn:Hrun; [|discriminate].
    intros H; inversion H; subst. constructor; auto.
    eapply Forall_impl; [|eapply execStatements_events; eauto].
    intros e (q & -> & Hin). constructor. rewrite Hmode. exact Hin.
Qed.

(** The closures [execMigration]: script, then bookkeeping, on [tx]. *)
Lemma scope_events (script : string) (book : Transaction -> Event)
      (mutate : Transaction -> S -> option error * S) tx fuel s r s' t :
  (r0 <- executeScript E tx script (useNative db) ;;
   match r0 with
   | Some err => ret (Some err)
   | None => call (mutate tx) (fun _ => [book tx])
   end) fuel s = Some (r, s', t) ->
  Forall (ScopeEvent db script book tx) t.
Proof.
  intros H. bind_inv H as a s1 t1 t2 Hrun.
  apply executeScript_events in Hrun.
  apply Forall_app. split.
  - eapply Forall_impl; [|exact Hrun]. intros e He. constructor. exact He.
  - destruct a.
    + cbn in H. inversion H; subst. constructor.
    + rewrite call_run in H. inversion H; subst.
      constructor; [apply ScopeBook | constructor].
Qed.

(** A body run by [doTransaction]. *)
Lemma doTransaction_scoped (sqlDB : conn)
      (txFunc : Transaction -> M S (option error))
      (body : Transaction -> Event -> Prop) fuel s r s' t :
  (forall tx fuel s r s' t,
      txFunc tx fuel s = Some (r, s', t) -> Forall (body tx) t) ->
  doTransaction E sqlDB txFunc fuel s = Some (r, s', t) ->
  Scoped sqlDB true body t.
Proof.
  intros Hbody. unfold doTransaction, Scoped. rewrite bind_call.
  destruct (sql_Begin E sqlDB s) as [[tx|err] s0]; cbn [fst snd].
  - destruct (txFunc (OnTx tx) fuel s0) as [[[rb sb] tb]|] eqn:Hrun.
    + rewrite (bind_run _ _ _ _ _ _ _ Hrun).
      apply Hbody in Hrun. destruct rb as [err|].
      * rewrite bind_call.
        destruct (fst (sql_Rollback E tx sb)); cbn;
          intros H; inversion H; subst; right; exists tx, tb;
            rewrite ?app_nil_r; auto.
      * rewrite call_run. intros H; inversion H; subst.
        right. exists tx, tb. auto.
    + unfold bind at 1. rewrite Hrun. discriminate.
  - cbn. intros H; inversion H; subst. left. reflexivity.
Qed.

Lemma applyMigration_shape drv sqlDB f fuel s r s' t :
  applyMigration E db drv sqlDB f fuel s = Some (r, s', t) ->
  exists t',
    t = [EvPrint ("Applying: " ++ f ++ nl);
         EvParse (filepath_Join E (MigrationsDir db) f)] ++ t' /\
    match parseMigration E (filepath_Join E (MigrationsDir db) f) s with
    | Err err => t' = [] /\ r = Some err /\ s' = s
    | Ok (up, _) =>
      Scoped sqlDB (MigrationOptions.Transaction (Options up))
             (ScopeEvent db (Contents up)
                         (fun tx => EvInsert tx (migrationVersion f))) t'
    end.
Proof.
  unfold applyMigration. rewrite bind_emit, bind_look.
  destruct (parseMigration E (filepath_Join E (MigrationsDir db) f) s)
    as [[up down]|err].
  - destruct (MigrationOptions.Transaction (Options up)) eqn:Hpolicy.
    + destruct (doTransaction E sqlDB _ fuel s) as [[[r2 s2] t2]|] eqn:Hrun;
        [|discriminate].
      intros H; inversion H; subst. exists t2. split; [reflexivity|].
      eapply doTransaction_scoped; [|exact Hrun].
      intros tx fuel' s0 r0 s0' t0 Hbody.
      exact (scope_events _ _ (fun tx => Driver.InsertMigration drv tx _)
                          _ _ _ _ _ _ Hbody).
    + destruct (execMigrationUp E db drv up (migrationVersion f)
                                (OnDB sqlDB) fuel s)
        as [[[r2 s2] t2]|] eqn:Hrun; [|discriminate].
      intros H; inversion H; subst. exists t2. split; [reflexivity|].
      exact (scope_events _ _ (fun tx => Driver.InsertMigration drv tx _)
                          _ _ _ _ _ _ Hrun).
  - cbn. intros H; inversion H; subst. exists []. auto.
Qed.

Lemma scoped_events (sqlDB : conn) (policy : bool)
      (body : Transaction -> Event -> Prop) (P : Event -> Prop) t :
  Scoped sqlDB policy body t ->
  (forall tx, P (EvBegin tx) /\ P (EvCommit tx) /\ P (EvRollback tx)) ->
  (forall tx e, tx = OnDB sqlDB \/ (exists x, tx = OnTx x) -> body tx e -> P e) ->
  Forall P t.
Proof.
  unfold Scoped. intros Hshape Htx Hbody. destruct policy.
  - destruct Hshape as [-> | (tx & tb & Htb & [-> | ->])];
      [constructor| |];
      (constructor; [apply Htx|]); apply Forall_app; split;
        try (repeat constructor; apply Htx);
        (eapply Forall_impl; [|exact Htb]); intros e; apply Hbody; eauto.
  - eapply Forall_impl; [|exact Hshape]. intros e; apply Hbody; auto.
Qed.

Lemma applyMigration_events drv sqlDB f fuel s r s' t :
  applyMigration E db drv sqlDB f fuel s = Some (r, s', t) ->
  Forall (ApplyEvent E db sqlDB) t.
Proof.
  intros H. apply applyMigration_shape in H as (t' & -> & Hshape).
  constructor; [apply ApplyNotice|]. constructor; [apply ApplyParse|].
  destruct (parseMigration E (filepath_Join E (MigrationsDir db) f) s)
    as [[up down]|err].
  - eapply scoped_events; [exact Hshape| |].
    + intros tx. repeat split; constructor.
    + intros tx e Htx He. eapply ApplyScope; eauto.
  - destruct Hshape as (-> & _). constructor.
Qed.

Lemma migrateLoop_events drv sqlDB applied files :
  forall fuel s r s' t,
    migrateLoop E db drv sqlDB applied files fuel s = Some (r, s', t) ->
    Forall (ApplyEvent E db sqlDB) t.
Proof.
  induction files as [|f files IH]; intros fuel s r s' t; cbn [migrateLoop].
  - cbn. intros H; inversion H; subst. constructor.
  - destruct (mapGet applied (migrationVersion f)); [apply IH|].
    intros H. bind_inv H as a s1 t1 t2 Hrun. apply Forall_app. split.
    + eapply applyMigration_events; eauto.
    + destruct a.
      * cbn in H. inversion H; subst. constructor.
      * eapply IH; eauto.
Qed.

(** An operation that opens the database, defers the release and runs
    [body]. *)
Lemma bracket_shape {A} (onErr : error -> A)
      (body : Driver.t S -> conn -> M S A)
      (B : conn -> list Event -> Prop) fuel s r s' t :
  (forall drv c fuel s r s' t, body drv c fuel s = Some (r, s', t) -> B c t) ->
  (r0 <- openDatabaseForMigration E db ;;
   match r0 with
   | Err err => ret (onErr err)
   | Ok (drv, sqlDB) => deferClose E sqlDB (body drv sqlDB)
   end) fuel s = Some (r, s', t) ->
  Bracket B t.
Proof.
  intros Hbody H. bind_inv H as a s1 t1 t2 Hrun.
  apply open_returns in Hrun
    as [(err & -> & Hopen) | (drv & c & -> & _ & ->)].
  - cbn in H. inversion H; subst. rewrite app_nil_r.
    destruct Hopen as [-> | (c & ->)]; [left; reflexivity|].
    right; left. eauto.
  - apply deferClose_returns in H as (s2 & tb & Hrun & -> & ->).
    right; right. exists c, tb. split; [eapply Hbody; eauto|].
    reflexivity.
Qed.

(** An operation that starts with the optional wait. *)
Lemma waited_shape {A} (onErr : error -> A) (rest : M S A)
      (B : list Event -> Prop) fuel s r s' t :
  B [] ->
  (forall fuel s r s' t, rest fuel s = Some (r, s', t) -> B t) ->
  (r0 <- waitBefore E db ;;
   match r0 with
   | Some err => ret (onErr err)
   | None => rest
   end) fuel s = Some (r, s', t) ->
  exists tw tb, t = tw ++ tb /\ Forall (WaitEvent db) tw /\ B tb.
Proof.
  intros Hnil Hrest H. bind_inv H as a s1 t1 t2 Hrun.
  apply waitBefore_events in Hrun.
  exists t1, t2. repeat split; auto.
  destruct a.
  - cbn in H. inversion H; subst. exact Hnil.
  - eapply Hrest; eauto.
Qed.

Lemma dumpBody_events drv sqlDB fuel s r s' t :
  dumpBody E db drv sqlDB fuel s = Some (r, s', t) ->
  Forall (DumpEvent E db sqlDB) t.
Proof.
  unfold dumpBody. rewrite bind_call.
  destruct (fst (Driver.DumpSchema drv (DatabaseURL db) sqlDB s)) as [schema|err].
  - rewrite bind_emit, bind_call.
    destruct (fst (ensureDir E _ _)).
    + cbn. intros H; inversion H; subst. repeat constructor.
    + rewrite call_run. intros H; inversion H; subst. repeat constructor.
  - cbn. intros H; inversion H; subst. repeat constructor.
Qed.

Lemma DumpSchema_shape fuel s r s' t :
  DumpSchema E db fuel s = Some (r, s', t) -> DumpShape E db t.
Proof.
  unfold DumpSchema, DumpShape.
  apply (waited_shape Some _
           (Bracket (fun c tc => Forall (DumpEvent E db c) tc))).
  - left; reflexivity.
  - intros fuel' s0 r0 s0' t0.
    apply (bracket_shape Some (dumpBody E db)).
    intros drv c fuel'' s1 r1 s1' t1. apply dumpBody_events.
Qed.

Lemma autoDump_shape fuel s r s' t :
  autoDump E db fuel s = Some (r, s', t) ->
  t = [] \/ AutoDumpSchema db = true /\ DumpShape E db t.
Proof.
  unfold autoDump. destruct (AutoDumpSchema db).
  - intros H. bind_inv H as a s1 t1 t2 Hrun. cbn in H. inversion H; subst.
    rewrite app_nil_r. right. split; [reflexivity|].
    eapply DumpSchema_shape; eauto.
  - cbn. intros H; inversion H; subst. auto.
Qed.

Lemma migrateBody_shape drv sqlDB files fuel s r s' t :
  migrateBody E db drv sqlDB files fuel s = Some (r, s', t) ->
  exists tl td,
    t = [EvSelect sqlDB (-1)] ++ tl ++ td /\
    Forall (ApplyEvent E db sqlDB) tl /\
    (td = [] \/ AutoDumpSchema db = true /\ DumpShape E db td).
Proof.
  unfold migrateBody. rewrite bind_call.
  destruct (fst (Driver.SelectMigrations drv sqlDB (-1) s)) as [applied|err].
  - destruct (bind _ _ fuel _) as [[[r2 s2] t2]|] eqn:Hrest; [|discriminate].
    intros H; inversion H; subst. bind_inv Hrest as a s1 tl td Hrun.
    apply migrateLoop_events in Hrun. exists tl, td.
    repeat split; auto. destruct a.
    + cbn in Hrest. inversion Hrest; subst. auto.
    + bind_inv Hrest as u s3 t3 t4 Hdump. cbn in Hrest.
      inversion Hrest; subst.
      rewrite app_nil_r. eapply autoDump_shape; eauto.
  - cbn. intros H; inversion H; subst. exists [], []. auto.
Qed.

Lemma Migrate_shape fuel s r s' t :
  Migrate E db fuel s = Some (r, s', t) -> MigrateShape E db t.
Proof.
  unfold Migrate. intros H.
  rewrite (bind_run _ _ _ _ _ _ _ (findMigrationFiles_run E _ _ fuel s)) in H.
  assert (Hnone : MigrateShape E db []).
  { exists [], []. repeat split; auto. left; reflexivity. }
  destruct (ReadDir E (MigrationsDir db) s) as [ents|err].
  - cbv beta iota in H.
    destruct (length _ =? 0)%nat.
    + cbn in H. inversion H; subst. exact Hnone.
    + destruct (bind _ _ fuel s) as [[[r2 s2] t2]|] eqn:Hrest; [|discriminate].
      inversion H; subst. cbn [app]. revert Hrest.
      apply (waited_shape Some).
      * left; reflexivity.
      * intros fuel' s0 r0 s0' t0.
        apply (bracket_shape Some (fun drv c => migrateBody E db drv c _)).
        intros drv c fuel'' s1 r1 s1' t1. apply migrateBody_shape.
  - cbn in H. inversion H; subst. exact Hnone.
Qed.

Lemma findMigrationFile_returns dir ver fuel s r s' t :
  findMigrationFile E dir ver fuel s = Some (r, s', t) ->
  t = [] /\ s' = s /\ ver <> EmptyString /\
  forall f, r = Ok f -> versionFileRegexp ver f = true.
Proof.
  unfold findMigrationFile.
  destruct (String.eqb_spec ver ""); [discriminate|].
  destruct (negb (GoString.ValidString (GoString.QuoteMeta ver)));
    [discriminate|].
  rewrite (bind_run _ _ _ _ _ _ _ (findMigrationFiles_run E _ _ fuel s)).
  destruct (ReadDir E dir s) as [ents|err].
  - cbv beta iota.
    destruct (StringSort.sort _) as [|f0 files] eqn:Hsort;
      cbn; intros H; inversion H; subst; repeat split; auto;
        try discriminate.
    intros f Hf. inversion Hf; subst f0.
    assert (Hin : In f (StringSort.sort
                          (map Name (filter (fun file => negb (IsDir file)
                                       && versionFileRegexp ver (Name file))
                                    ents))))
      by (rewrite Hsort; left; reflexivity).
    eapply Permutation_in in Hin;
      [|apply Permutation_sym, StringSort.Permuted_sort].
    apply in_map_iff in Hin as (file & <- & Hin).
    apply filter_In in Hin as (_ & Hin).
    apply andb_true_iff in Hin. tauto.
  - cbn. intros H; inversion H; subst. repeat split; auto. discriminate.
Qed.

Lemma rollbackMigration_events drv sqlDB down latest fuel s r s' t :
  rollbackMigration E db drv sqlDB down latest fuel s = Some (r, s', t) ->
  Forall (RevertEvent E db sqlDB latest) t.
Proof.
  unfold rollbackMigration. intros H.
  assert (Hshape :
    Scoped sqlDB (MigrationOptions.Transaction (Options down))
           (ScopeEvent db (Contents down) (fun tx => EvDelete tx latest)) t).
  { destruct (MigrationOptions.Transaction (Options down)) eqn:Hpolicy.
    - eapply doTransaction_scoped; [|exact H].
      intros tx fuel' s0 r0 s0' t0 Hbody.
      exact (scope_events _ _ (fun tx => Driver.DeleteMigration drv tx _)
                          _ _ _ _ _ _ Hbody).
    - exact (scope_events _ _ (fun tx => Driver.DeleteMigration drv tx _)
                          _ _ _ _ _ _ H). }
  eapply scoped_events; [exact Hshape| |].
  - intros tx. repeat split; constructor.
  - intros tx e Htx He. eapply RevertScope; eauto.
Qed.

(** [Rollback] after the connection is open: one query, bounded to one
    entry; then what concerns the version [latest] it answered; then the
    schema dump. *)
Lemma rollbackBody_shape drv sqlDB fuel s r s' t :
  rollbackBody E db drv sqlDB fuel s = Some (r, s', t) ->
  exists tl td,
    t = [EvSelect sqlDB 1] ++ tl ++ td /\
    (td = [] \/ AutoDumpSchema db = true /\ DumpShape E db td) /\
    match fst (Driver.SelectMigrations drv sqlDB 1 s) with
    | Ok applied => Forall (RevertEvent E db sqlDB (latestOf applied)) tl
    | Err _ => tl = []
    end.
Proof.
  unfold rollbackBody. rewrite bind_call.
  destruct (fst (Driver.SelectMigrations drv sqlDB 1 s)) as [applied|err].
  - destruct (String.eqb (latestOf applied) "").
    { cbn. intros H; inversion H; subst. exists [], []. auto. }
    destruct (bind _ _ fuel _) as [[[r2 s2] t2]|] eqn:Hrest; [|discriminate].
    intros H; inversion H; subst. clear H.
    bind_inv Hrest as a s1 tf tr Hfind.
    apply findMigrationFile_returns in Hfind as (-> & -> & _ & Hmatch).
    destruct a as [f|err].
    + specialize (Hmatch f eq_refl).
      rewrite bind_emit, bind_look in Hrest.
      destruct (parseMigration E _ _) as [[up down]|err].
      * destruct (bind _ _ fuel _) as [[[r3 s3] t3]|] eqn:Hstep;
          [|discriminate].
        inversion Hrest; subst. clear Hrest.
        bind_inv Hstep as b s4 tl td Hrun.
        apply rollbackMigration_events in Hrun.
        exists ([EvPrint ("Rolling back: " ++ f ++ nl);
                 EvParse (filepath_Join E (MigrationsDir db) f)] ++ tl), td.
        split; [rewrite <- !app_assoc; reflexivity|]. split.
        -- destruct b.
           ++ cbn in Hstep. inversion Hstep; subst. auto.
           ++ bind_inv Hstep as u s5 t5 t6 Hdump. cbn in Hstep.
              inversion Hstep; subst.
              rewrite app_nil_r. eapply autoDump_shape; eauto.
        -- constructor; [apply RevertNotice; exact Hmatch|].
           constructor; [apply RevertParse; exact Hmatch|]. exact Hrun.
      * cbn in Hrest. inversion Hrest; subst.
        exists [EvPrint ("Rolling back: " ++ f ++ nl);
                EvParse (filepath_Join E (MigrationsDir db) f)], [].
        repeat split; auto.
        constructor; [apply RevertNotice; exact Hmatch|].
        constructor; [apply RevertParse; exact Hmatch|]. constructor.
    + cbn in Hrest. inversion Hrest; subst. exists [], []. auto.
  - cbn. intros H; inversion H; subst. exists [], []. auto.
Qed.

Lemma Rollback_shape fuel s r s' t :
  Rollback E db fuel s = Some (r, s', t) -> RollbackShape E db t.
Proof.
  unfold Rollback, RollbackShape.
  apply (waited_shape Some).
  - left; reflexivity.
  - intros fuel' s0 r0 s0' t0.
    apply (bracket_shape Some (rollbackBody E db)).
    intros drv c fuel'' s1 r1 s1' t1 Hbody.
    apply rollbackBody_shape in Hbody as (tl & td & -> & Hdump & Hevents).
    destruct (fst (Driver.SelectMigrations drv c 1 s1)) as [applied|err].
    + exists (latestOf applied), tl, td. auto.
    + subst tl. exists EmptyString, [], td. auto.
Qed.

Lemma statusLoop_events quiet results :
  forall total fuel (s : S) r s' t,
    statusLoop quiet results total fuel s = Some (r, s', t) ->
    Forall (fun e => exists line, e = EvPrint line) t /\
    (quiet = true -> t = []).
Proof.
  intros total fuel s r s' t. rewrite statusLoop_run.
  intros H; inversion H; subst. destruct quiet.
  - split; [constructor | reflexivity].
  - split; [|discriminate]. apply Forall_map, Forall_forall.
    intros res _. eauto.
Qed.

Lemma Status_shape quiet fuel s r s' t :
  Status E db quiet fuel s = Some (r, s', t) -> StatusShape quiet t.
Proof.
  unfold Status. intros H. bind_inv H as a s1 tb tp Hcheck.
  exists tb, tp. split; [reflexivity|].
  assert (Hbracket : Bracket (fun c tc => tc = [EvSelect c (-1)]) tb).
  { unfold checkMigrationsStatus in Hcheck.
    rewrite (bind_run _ _ _ _ _ _ _ (findMigrationFiles_run E _ _ fuel s))
      in Hcheck.
    destruct (ReadDir E (MigrationsDir db) s) as [ents|err].
    - cbv beta iota in Hcheck. destruct (length _ =? 0)%nat.
      + cbn in Hcheck. inversion Hcheck; subst. left; reflexivity.
      + destruct (bind _ _ fuel s) as [[[r2 s2] t2]|] eqn:Hrest;
          [|discriminate].
        inversion Hcheck; subst. cbn [app]. revert Hrest.
        apply (bracket_shape Err (fun drv c => statusBody drv c _)).
        intros drv c fuel' s0 r0 s0' t0. unfold statusBody.
        rewrite bind_call.
        destruct (fst (Driver.SelectMigrations drv c (-1) s0));
          cbn; intros H'; inversion H'; subst; reflexivity.
    - cbn in Hcheck. inversion Hcheck; subst. left; reflexivity. }
  split; [exact Hbracket|].
  destruct a as [results|err].
  - bind_inv H as total s2 t1 t2 Hloop.
    apply statusLoop_events in Hloop as (Hprints & Hquiet).
    bind_inv H as u s3 t3 t4 Hsummary.
    cbn in H. inversion H; subst. rewrite app_nil_r.
    destruct quiet; cbn [negb] in Hsummary.
    + cbn in Hsummary. inversion Hsummary; subst.
      rewrite (Hquiet eq_refl). split; [constructor | reflexivity].
    + split; [|discriminate]. apply Forall_app. split; [exact Hprints|].
      cbv [bind emit] in Hsummary. inversion Hsummary; subst.
      repeat constructor; eauto.
  - cbn in H. inversion H; subst. split; [constructor | reflexivity].
Qed.

End Shapes.

(** ** The order of files and versions (claim C2) *)

Section Ordering.

Lemma leb_iff (a b : string) :
  String.leb a b = true <-> a = b \/ String_as_OT.lt a b.
Proof.
  unfold String.leb.
  pose proof (String_as_OT.cmp_eq a b) as Heq.
  pose proof (String_as_OT.cmp_lt a b) as Hlt.
  unfold String_as_OT.cmp in *.
  destruct (String.compare a b); split; intros H; try reflexivity;
    try discriminate.
  - left. apply Heq. reflexivity.
  - right. apply Hlt. reflexivity.
  - destruct H as [H | H]; [apply Heq in H | apply Hlt in H]; discriminate.
Qed.

Lemma leb_trans (a b c : string) :
  String.leb a b = true -> String.leb b c = true -> String.leb a c = true.
Proof.
  rewrite !leb_iff. intros [-> | Hab] [-> | Hbc]; auto.
  right. eapply String_as_OT.lt_trans; eauto.
Qed.

Lemma ascending_strongly l :
  ascending l -> StronglySorted (fun x y => String.leb x y = true) l.
Proof.
  apply Sorted_StronglySorted. intros a b c. apply leb_trans.
Qed.

(** A list has one ascending arrangement. *)
Lemma ascending_unique l1 :
  forall l2, ascending l1 -> ascending l2 -> Permutation l1 l2 -> l1 = l2.
Proof.
  induction l1 as [|a l1 IH]; intros l2 H1 H2 Hperm.
  - apply Permutation_nil in Hperm. congruence.
  - destruct l2 as [|b l2].
    + apply Permutation_sym, Permutation_nil in Hperm. discriminate.
    + apply ascending_strongly in H1 as Hs1.
      apply ascending_strongly in H2 as Hs2.
      inversion Hs1 as [|? ? _ Hall1]; subst.
      inversion Hs2 as [|? ? _ Hall2]; subst.
      assert (Hab : a = b).
      { assert (Hin1 : In a (b :: l2))
          by (eapply Permutation_in; [exact Hperm | left; reflexivity]).
        assert (Hin2 : In b (a :: l1))
          by (eapply Permutation_in;
              [apply Permutation_sym; exact Hperm | left; reflexivity]).
        destruct Hin1 as [-> | Hin1]; [reflexivity|].
        destruct Hin2 as [-> | Hin2]; [reflexivity|].
        rewrite Forall_forall in Hall1, Hall2.
        apply String.leb_antisym; auto. }
      subst b. f_equal. apply IH.
      * inversion H1; assumption.
      * inversion H2; assumption.
      * eapply Permutation_cons_inv; eauto.
Qed.

Lemma discovered_ascending ents : ascending (discovered ents).
Proof. unfold discovered, ascending. apply StringSort.Sorted_sort. Qed.

Lemma discovered_matching ents f :
  In f (discovered ents) <->
  exists file, In file ents /\ Name file = f /\ IsDir file = false /\
               migrationFileRegexp f = true.
Proof.
  unfold discovered. split.
  - intros Hin.
    eapply Permutation_in in Hin;
      [|apply Permutation_sym, StringSort.Permuted_sort].
    apply in_map_iff in Hin as (file & <- & Hin).
    apply filter_In in Hin as (Hin & Hok).
    apply andb_true_iff in Hok as [Hdir Hre].
    apply negb_true_iff in Hdir. eauto.
  - intros (file & Hin & <- & Hdir & Hre).
    eapply Permutation_in; [apply StringSort.Permuted_sort|].
    apply in_map, filter_In. split; [exact Hin|].
    rewrite Hdir, Hre. reflexivity.
Qed.

(** The order of the directory listing does not matter. *)
Lemma discovered_listing_order ents ents' :
  Permutation ents ents' -> discovered ents' = discovered ents.
Proof.
  intros Hperm. apply ascending_unique; try apply discovered_ascending.
  unfold discovered.
  eapply Permutation_trans; [apply Permutation_sym, StringSort.Permuted_sort|].
  eapply Permutation_trans; [|apply StringSort.Permuted_sort].
  apply Permutation_map. apply Permutation_sym.
  revert Hperm. generalize (fun file => negb (IsDir file)
                                        && migrationFileRegexp (Name file)).
  intros keep. induction 1 as [|x l l' _ IH|x y l|l l' l'' _ IH1 _ IH2]; cbn.
  - constructor.
  - destruct (keep x); [constructor|]; exact IH.
  - destruct (keep x), (keep y); try reflexivity. constructor.
  - eapply Permutation_trans; eauto.
Qed.

(** On names whose versions are equally long, the order of the names is
    the order of the versions. *)
Lemma version_monotone f :
  forall g,
    String.leb f g = true ->
    String.length (migrationVersion f) = String.length (migrationVersion g) ->
    String.leb (migrationVersion f) (migrationVersion g) = true.
Proof.
  assert (Hempty : forall s, String.leb EmptyString s = true)
    by (intros [|c s]; reflexivity).
  induction f as [|a f IH]; intros g Hle Hlen.
  - apply Hempty.
  - destruct g as [|b g]; [discriminate|].
    cbn [migrationVersion] in *. unfold String.leb in Hle.
    cbn [String.compare] in Hle.
    destruct (Ascii.compare a b) eqn:Hab.
    + apply Ascii.compare_eq_iff in Hab. subst b.
      destruct (GoString.isDecimal a); [|apply Hempty].
      assert (Haa : Ascii.compare a a = Eq)
        by (apply Ascii_as_OT.cmp_eq; reflexivity).
      unfold String.leb. cbn [String.compare]. rewrite Haa.
      apply IH; [exact Hle|]. simpl in Hlen. lia.
    + destruct (GoString.isDecimal a); [|apply Hempty].
      destruct (GoString.isDecimal b); [|discriminate].
      unfold String.leb. cbn [String.compare]. rewrite Hab. reflexivity.
    + discriminate.
Qed.

Lemma versions_ascending files :
  ascending files ->
  (forall f g, In f files -> In g files ->
               String.length (migrationVersion f)
               = String.length (migrationVersion g)) ->
  ascending (map migrationVersion files).
Proof.
  unfold ascending. induction 1 as [|f files Hsorted IH Hhd]; intros Hwidth.
  - constructor.
  - cbn [map]. constructor.
    + apply IH. intros x y Hx Hy. apply Hwidth; right; assumption.
    + destruct Hhd as [|g files Hfg]; constructor.
      apply version_monotone; [exact Hfg|].
      apply Hwidth; [left; reflexivity | right; left; reflexivity].
Qed.

End Ordering.

(** ** The loop of [Migrate] *)

Section Loop.

Context {S : Type} (E : Env S) (db : DB).

(** The loop with its [continue] is the batch over the pending files. *)
Lemma migrateLoop_pending drv sqlDB m files :
  forall fuel s,
    migrateLoop E db drv sqlDB m files fuel s =
    applyAll E db drv sqlDB (pendingFiles m files) fuel s.
Proof.
  induction files as [|f files IH]; intros fuel s; [reflexivity|].
  cbn [migrateLoop pendingFiles filter].
  destruct (mapGet m (migrationVersion f)); cbn [negb]; [apply IH|].
  cbn [applyAll]. unfold bind.
  destruct (applyMigration E db drv sqlDB f fuel s) as [[[r s1] t1]|];
    [|reflexivity].
  destruct r; [reflexivity|]. rewrite IH. reflexivity.
Qed.

End Loop.

(** ** The engine, step by step

    Each step of [Migrate] and [Rollback] returns the outcome defined
    above. *)

Section Steps.

Context {S : Type} (E : Env S).

Lemma execStatements_exact tx qs :
  forall fuel (s : S),
    execStatements E tx qs fuel s =
    Some (let '(r, s1, sent) := sendAll E tx qs s in
          (r, s1, map (EvExec tx) sent)).
Proof.
  induction qs as [|q qs IH]; intros fuel s; [reflexivity|].
  cbn [execStatements sendAll]. unfold exec. rewrite bind_call.
  destruct (sql_Exec E tx q s) as [[err|] s1]; cbn [fst snd]; [reflexivity|].
  rewrite IH. destruct (sendAll E tx qs s1) as [[r s2] sent]. reflexivity.
Qed.

Lemma executeScript_exact tx script native fuel (s : S) :
  executeScript E tx script native fuel s
  = Some (runScript E native tx script s).
Proof.
  unfold executeScript, runScript, queriesOf, modeBanner. rewrite bind_emit.
  destruct native.
  - unfold exec. rewrite call_run. cbn [sendAll].
    destruct (sql_Exec E tx script s) as [[err|] s1]; reflexivity.
  - rewrite execStatements_exact.
    destruct (sendAll E tx (parseStatements script) s) as [[r s1] sent].
    reflexivity.
Qed.

Lemma scope_exact native script
      (book : Transaction -> S -> option error * S)
      (mark : Transaction -> Event) tx fuel (s : S) :
  (r0 <- executeScript E tx script native ;;
   match r0 with
   | Some err => ret (Some err)
   | None => call (book tx) (fun _ => [mark tx])
   end) fuel s = Some (inScope E native script book mark tx s).
Proof.
  unfold bind at 1. rewrite executeScript_exact. unfold inScope.
  destruct (runScript E native tx script s) as [[r s1] t1].
  destruct r as [err|]; [cbn; rewrite app_nil_r; reflexivity|].
  rewrite call_run. destruct (book tx s1) as [r2 s2]. reflexivity.
Qed.

Lemma doTransaction_exact (c : conn)
      (txFunc : Transaction -> M S (option error))
      (body : Transaction -> S -> Outcome S) fuel (s : S) :
  (forall tx fuel s, txFunc tx fuel s = Some (body tx s)) ->
  doTransaction E c txFunc fuel s = Some (underPolicy E c true body s).
Proof.
  intros Hbody. unfold doTransaction, underPolicy. rewrite bind_call.
  destruct (sql_Begin E c s) as [[tx|err] s0]; cbn [fst snd]; [|reflexivity].
  unfold bind at 1. rewrite Hbody.
  destruct (body (OnTx tx) s0) as [[r s1] tb].
  destruct r as [err|].
  - rewrite bind_call. destruct (sql_Rollback E tx s1) as [[err1|] s2];
      reflexivity.
  - rewrite call_run. destruct (sql_Commit E tx s1) as [rc s2]. reflexivity.
Qed.

Lemma policy_exact (c : conn) (policy : bool)
      (txFunc : Transaction -> M S (option error))
      (body : Transaction -> S -> Outcome S) fuel (s : S) :
  (forall tx fuel s, txFunc tx fuel s = Some (body tx s)) ->
  (if policy then doTransaction E c txFunc else txFunc (OnDB c)) fuel s
  = Some (underPolicy E c policy body s).
Proof.
  intros Hbody. destruct policy.
  - apply doTransaction_exact. exact Hbody.
  - apply Hbody.
Qed.

Lemma applyMigration_exact db drv c f fuel (s : S) :
  applyMigration E db drv c f fuel s
  = Some (applyOne E (MigrationsDir db) (useNative db) drv c f s).
Proof.
  unfold applyMigration, applyOne. rewrite bind_emit, bind_look.
  destruct (parseMigration E (filepath_Join E (MigrationsDir db) f) s)
    as [[up down]|err]; [|reflexivity].
  rewrite (policy_exact c _ _
             (inScope E (useNative db) (Contents up)
                      (fun tx => Driver.InsertMigration drv tx (migrationVersion f))
                      (fun tx => EvInsert tx (migrationVersion f)))).
  - destruct (underPolicy E c _ _ s) as [[r s1] t]. reflexivity.
  - intros tx fuel' s'.
    exact (scope_exact (useNative db) (Contents up)
             (fun tx => Driver.InsertMigration drv tx (migrationVersion f))
             (fun tx => EvInsert tx (migrationVersion f)) tx fuel' s').
Qed.

Lemma applyAll_exact db drv c files :
  forall fuel (s : S),
    applyAll E db drv c files fuel s
    = Some (applyBatch E (MigrationsDir db) (useNative db) drv c files s).
Proof.
  induction files as [|f files IH]; intros fuel s; [reflexivity|].
  cbn [applyAll applyBatch]. unfold bind at 1. rewrite applyMigration_exact.
  destruct (applyOne E (MigrationsDir db) (useNative db) drv c f s)
    as [[r s1] t1].
  destruct r as [err|]; [cbn; rewrite app_nil_r; reflexivity|].
  rewrite IH.
  destruct (applyBatch E (MigrationsDir db) (useNative db) drv c files s1)
    as [[r2 s2] t2]. reflexivity.
Qed.

Lemma migrateLoop_exact db drv c m files fuel (s : S) :
  migrateLoop E db drv c m files fuel s
  = Some (applyBatch E (MigrationsDir db) (useNative db) drv c
                     (pendingFiles m files) s).
Proof. rewrite migrateLoop_pending. apply applyAll_exact. Qed.

Lemma rollbackMigration_exact db drv c down latest fuel (s : S) :
  rollbackMigration E db drv c down latest fuel s
  = Some (underPolicy E c (MigrationOptions.Transaction (Options down))
                      (inScope E (useNative db) (Contents down)
                               (fun tx => Driver.DeleteMigration drv tx latest)
                               (fun tx => EvDelete tx latest))
                      s).
Proof.
  unfold rollbackMigration. apply policy_exact.
  intros tx fuel' s'.
  exact (scope_exact (useNative db) (Contents down)
           (fun tx => Driver.DeleteMigration drv tx latest)
           (fun tx => EvDelete tx latest) tx fuel' s').
Qed.

Lemma findMigrationFile_exact dir ver fuel (s : S) :
  findMigrationFile E dir ver fuel s =
  if String.eqb ver "" then None
  else if negb (GoString.ValidString (GoString.QuoteMeta ver)) then None
       else Some (match ReadDir E dir s with
                  | Err _ =>
                    Err ("could not find migrations directory `" ++ dir ++ "`")%string
                  | Ok ents => resolve ver ents
                  end, s, []).
Proof.
  unfold findMigrationFile.
  destruct (String.eqb ver ""); [reflexivity|].
  destruct (negb (GoString.ValidString (GoString.QuoteMeta ver)));
    [reflexivity|].
  rewrite (bind_run _ _ _ _ _ _ _ (findMigrationFiles_run E _ _ fuel s)).
  destruct (ReadDir E dir s) as [ents|err]; [|reflexivity].
  unfold resolve, matching.
  destruct (StringSort.sort _); reflexivity.
Qed.

Lemma thenDump_exact db (step : M S (option error)) (o : Outcome S) fuel (s : S) :
  step fuel s = Some o ->
  (r <- step ;;
   match r with
   | Some err => ret (Some err)
   | None => autoDump E db ;;; ret None
   end) fuel s = thenDump E db fuel o.
Proof.
  intros Hstep. unfold bind at 1. rewrite Hstep. unfold thenDump.
  destruct o as [[r s1] t]. destruct r as [err|].
  - cbn. rewrite app_nil_r. reflexivity.
  - unfold bind. destruct (autoDump E db fuel s1) as [[[u s2] td]|];
      [|reflexivity].
    cbn. rewrite app_nil_r. reflexivity.
Qed.

Lemma migrateBody_exact db drv c files m fuel (s s3 : S) :
  Driver.SelectMigrations drv c (-1) s = (Ok m, s3) ->
  migrateBody E db drv c files fuel s
  = after [EvSelect c (-1)]
          (thenDump E db fuel
             (applyBatch E (MigrationsDir db) (useNative db) drv c
                         (pendingFiles m files) s3)).
Proof.
  intros Hselect. unfold migrateBody. rewrite bind_call, Hselect.
  cbn [fst snd].
  rewrite (thenDump_exact db _ _ fuel s3 (migrateLoop_exact db drv c m files fuel s3)).
  unfold after. destruct (thenDump E db fuel _) as [[[r s'] t]|]; reflexivity.
Qed.

Lemma rollbackBody_exact db drv c m fuel (s s3 : S) :
  Driver.SelectMigrations drv c 1 s = (Ok m, s3) ->
  rollbackBody E db drv c fuel s
  = after [EvSelect c 1] (rollbackFrom E db (useNative db) fuel drv c m s3).
Proof.
  intros Hselect. unfold rollbackBody, rollbackFrom.
  rewrite bind_call, Hselect. cbn [fst snd].
  destruct (String.eqb (latestOf m) "") eqn:Hlatest; [reflexivity|].
  unfold bind at 1. rewrite findMigrationFile_exact, Hlatest.
  destruct (negb (GoString.ValidString (GoString.QuoteMeta (latestOf m))));
    [reflexivity|].
  destruct (ReadDir E (MigrationsDir db) s3) as [ents|err]; [|reflexivity].
  destruct (resolve (latestOf m) ents) as [f|err]; [|reflexivity].
  rewrite bind_emit, bind_look.
  destruct (parseMigration E (filepath_Join E (MigrationsDir db) f) s3)
    as [[up down]|err]; [|reflexivity].
  rewrite (thenDump_exact db _ _ fuel s3
             (rollbackMigration_exact db drv c down (latestOf m) fuel s3)).
  unfold after.
  destruct (thenDump E db fuel _) as [[[r s'] t]|]; reflexivity.
Qed.

Lemma bracket_exact {A} db (onErr : error -> A)
      (body : Driver.t S -> conn -> M S A) drv c fuel (s s0 s1 s2 : S) tw :
  waitBefore E db fuel s = Some (None, s0, tw) ->
  DB_GetDriver E db = Ok drv ->
  Driver.Open drv (DatabaseURL db) s0 = (Ok c, s1) ->
  Driver.CreateMigrationsTable drv c s1 = (None, s2) ->
  forall (onWait : error -> M S A),
  (r0 <- waitBefore E db ;;
   match r0 with
   | Some err => onWait err
   | None =>
     r1 <- openDatabaseForMigration E db ;;
     match r1 with
     | Err err => ret (onErr err)
     | Ok (drv, sqlDB) => deferClose E sqlDB (body drv sqlDB)
     end
   end) fuel s
  = after (tw ++ [EvOpen c; EvCreateTable c])
          (released E c (body drv c fuel s2)).
Proof.
  intros Hwait Hdrv Hopen Hcreate onWait.
  rewrite (bind_run _ _ _ _ _ _ _ Hwait). cbv beta iota.
  rewrite (bind_run _ _ _ _ _ _ _
                    (open_run E db drv c fuel s0 s1 s2 Hdrv Hopen Hcreate)).
  cbv beta iota. unfold deferClose, mustClose, bind, ret, after, released.
  destruct (body drv c fuel s2) as [[[r s'] t]|]; [|reflexivity].
  rewrite app_nil_r, <- !app_assoc. reflexivity.
Qed.

End Steps.


Section WholeRuns.

Context {S : Type} (E : Env S) (db : DB).

Lemma Migrate_exact
      (fuel : nat) (s s0 s1 s2 s3 : S) (tw : list Event)
      (ents : list FileInfo) (drv : Driver.t S) (c : conn) (m : versions) :
  ReadDir E (MigrationsDir db) s = Ok ents ->
  discovered ents <> [] ->
  waitBefore E db fuel s = Some (None, s0, tw) ->
  DB_GetDriver E db = Ok drv ->
  Driver.Open drv (DatabaseURL db) s0 = (Ok c, s1) ->
  Driver.CreateMigrationsTable drv c s1 = (None, s2) ->
  Driver.SelectMigrations drv c (-1) s2 = (Ok m, s3) ->
  Migrate E db fuel s =
  after (tw ++ [EvOpen c; EvCreateTable c; EvSelect c (-1)])
        (released E c
           (thenDump E db fuel
              (applyBatch E (MigrationsDir db) (useNative db) drv c
                          (pendingFiles m (discovered ents)) s3))).
Proof.
  intros Hdir Hfiles Hwait Hdrv Hopen Hcreate Hselect. unfold Migrate.
  rewrite (bind_run _ _ _ _ _ _ _ (findMigrationFiles_run E _ _ fuel s)).
  rewrite Hdir. cbv beta iota. fold (discovered ents).
  destruct (discovered ents) as [|f0 files] eqn:Hd; [congruence|].
  cbn [length Nat.eqb app]. rewrite <- Hd.
  rewrite (bracket_exact E db Some (fun drv c => migrateBody E db drv c _)
                         drv c fuel s s0 s1 s2 tw Hwait Hdrv Hopen Hcreate
                         (fun err => ret (Some err))).
  rewrite (migrateBody_exact E db drv c _ m fuel s2 s3 Hselect).
  unfold after, released.
  destruct (thenDump E db fuel _) as [[[r s'] t]|]; [|reflexivity].
  rewrite <- !app_assoc. reflexivity.
Qed.

Lemma Rollback_exact
      (fuel : nat) (s s0 s1 s2 s3 : S) (tw : list Event)
      (drv : Driver.t S) (c : conn) (m : versions) :
  waitBefore E db fuel s = Some (None, s0, tw) ->
  DB_GetDriver E db = Ok drv ->
  Driver.Open drv (DatabaseURL db) s0 = (Ok c, s1) ->
  Driver.CreateMigrationsTable drv c s1 = (None, s2) ->
  Driver.SelectMigrations drv c 1 s2 = (Ok m, s3) ->
  Rollback E db fuel s =
  after (tw ++ [EvOpen c; EvCreateTable c; EvSelect c 1])
        (released E c (rollbackFrom E db (useNative db) fuel drv c m s3)).
Proof.
  intros Hwait Hdrv Hopen Hcreate Hselect. unfold Rollback.
  rewrite (bracket_exact E db Some (rollbackBody E db)
                         drv c fuel s s0 s1 s2 tw Hwait Hdrv Hopen Hcreate
                         (fun err => ret (Some err))).
  rewrite (rollbackBody_exact E db drv c m fuel s2 s3 Hselect).
  unfold after, released.
  destruct (rollbackFrom E db (useNative db) fuel drv c m s3)
    as [[[r s'] t]|]; [|reflexivity].
  rewrite <- !app_assoc. reflexivity.
Qed.

(** The mode in words: emulated for the scheme oracle, whatever
    [NativeEngine] says; otherwise what [NativeEngine] says. *)
Lemma useNative_mode :
  useNative db = (if String.eqb (URL.Scheme (DatabaseURL db)) "oracle"
                  then false else NativeEngine db).
Proof.
  unfold useNative.
  destruct (String.eqb (URL.Scheme (DatabaseURL db)) "oracle"),
           (NativeEngine db); reflexivity.
Qed.

End WholeRuns.

(** ** One connection per operation, released on every path (claim C9) *)

Section Connections.

Context {S : Type} (E : Env S) (db : DB).

Lemma live_app t1 : forall stack t2,
    live stack (t1 ++ t2) =
    match live stack t1 with
    | Some stack' => live stack' t2
    | None => None
    end.
Proof.
  induction t1 as [|e t1 IH]; intros stack t2; [reflexivity|].
  destruct e; cbn [app live]; try apply IH.
  destruct stack as [|c' stack]; [reflexivity|].
  destruct (c =? c')%nat; [apply IH | reflexivity].
Qed.

Lemma opens_app t1 t2 : opens (t1 ++ t2) = (opens t1 + opens t2)%nat.
Proof.
  induction t1 as [|e t1 IH]; [reflexivity|].
  destruct e; cbn [app opens]; rewrite ?IH; reflexivity.
Qed.

Lemma Released_app t1 t2 : Released t1 -> Released t2 -> Released (t1 ++ t2).
Proof.
  intros H1 H2 stack. rewrite live_app, H1. apply H2.
Qed.

Lemma inert_released t :
  Forall (fun e => isConn e = false) t -> Released t /\ opens t = O.
Proof.
  induction 1 as [|e t He _ [IHr IHo]]; [split; [intro|]; reflexivity|].
  destruct e; try discriminate; (split; [intros stack; apply IHr | exact IHo]).
Qed.

Lemma inert_impl (P : Event -> Prop) t :
  (forall e, P e -> isConn e = false) -> Forall P t ->
  Released t /\ opens t = O.
Proof.
  intros HP Ht. apply inert_released.
  eapply Forall_impl; [|exact Ht]. exact HP.
Qed.

Lemma print_inert e : (exists line, e = EvPrint line) -> isConn e = false.
Proof. intros (line & ->). reflexivity. Qed.

Lemma WaitEvent_inert e : WaitEvent db e -> isConn e = false.
Proof. destruct 1; reflexivity. Qed.

Lemma DumpEvent_inert c e : DumpEvent E db c e -> isConn e = false.
Proof. destruct 1; reflexivity. Qed.

Lemma ScopeEvent_inert script book tx e :
  isConn (book tx) = false ->
  ScopeEvent db script book tx e -> isConn e = false.
Proof.
  intros Hbook [e' He | ]; [destruct He; reflexivity | exact Hbook].
Qed.

Lemma ApplyEvent_inert c e : ApplyEvent E db c e -> isConn e = false.
Proof.
  destruct 1; try reflexivity.
  eapply ScopeEvent_inert; [|eassumption]. reflexivity.
Qed.

Lemma RevertEvent_inert c latest e :
  RevertEvent E db c latest e -> isConn e = false.
Proof.
  destruct 1; try reflexivity.
  eapply ScopeEvent_inert; [|eassumption]. reflexivity.
Qed.

(** A bracket releases what it opens. *)
Lemma Bracket_released (B : conn -> list Event -> Prop) (n : nat) t :
  (forall c tb, B c tb -> Released tb /\ opens tb <= n) ->
  Bracket B t -> Released t /\ opens t <= Datatypes.S n.
Proof.
  intros HB [-> | [(c & ->) | (c & tb & Hb & ->)]].
  - split; [intro; reflexivity | cbn; lia].
  - split; [|cbn; lia]. intros stack. cbn. rewrite Nat.eqb_refl. reflexivity.
  - destruct (HB c tb Hb) as [Hrel Hn]. split.
    + intros stack. cbn [app live]. rewrite live_app, Hrel. cbn.
      rewrite Nat.eqb_refl. reflexivity.
    + cbn [app opens]. rewrite opens_app. cbn. lia.
Qed.

Lemma DumpShape_released t :
  DumpShape E db t -> Released t /\ opens t <= 1.
Proof.
  intros (tw & tb & -> & Hw & Hb).
  destruct (inert_impl _ _ WaitEvent_inert Hw) as [Hwr Hwo].
  apply (Bracket_released _ O) in Hb as [Hbr Hbo].
  - split; [apply Released_app; auto | rewrite opens_app; lia].
  - intros c tc Hc.
    destruct (inert_impl _ _ (DumpEvent_inert c) Hc) as [? ->]. auto.
Qed.

Lemma autoDump_released td :
  td = [] \/ AutoDumpSchema db = true /\ DumpShape E db td ->
  Released td /\ opens td <= (if AutoDumpSchema db then 1 else 0).
Proof.
  intros [-> | [-> Hd]].
  - split; [intro; reflexivity | cbn; lia].
  - apply DumpShape_released. exact Hd.
Qed.

(** C9, as amended.  Whenever a top-level operation returns, every
    connection it opened has been released, innermost first, on the
    failing paths as on the successful one.  Status and dump-schema open
    at most one connection; migrate and rollback open at most one of
    their own and, when the automatic schema dump is on, a second one
    for the dump that follows, while the first is still live. *)
Theorem connections_released (op : Operation) fuel s r s' t :
  runOp E db op fuel s = Some (r, s', t) ->
  live [] t = Some [] /\ opens t <= maxOpens db op.
Proof.
  intros H.
  assert (Hgoal : Released t /\ opens t <= maxOpens db op);
    [|destruct Hgoal as [Hrel Hn]; split; [apply Hrel | exact Hn]].
  destruct op as [| |quiet|]; cbn [runOp maxOpens] in *.
  - apply Migrate_shape in H as (tw & tb & -> & Hw & Hb).
    destruct (inert_impl _ _ WaitEvent_inert Hw) as [Hwr Hwo].
    apply (Bracket_released _ (if AutoDumpSchema db then 1 else 0)) in Hb
      as [Hbr Hbo].
    + split; [apply Released_app; auto|].
      rewrite opens_app. destruct (AutoDumpSchema db); lia.
    + intros c tc (tl & td & -> & Hl & Hd).
      destruct (inert_impl _ _ (ApplyEvent_inert c) Hl) as [Hlr Hlo].
      destruct (autoDump_released td Hd) as [Hdr Hdo].
      split.
      * apply (Released_app [EvSelect c (-1)]); [intro; reflexivity|].
        apply Released_app; auto.
      * rewrite !opens_app. cbn [opens]. lia.
  - apply Rollback_shape in H as (tw & tb & -> & Hw & Hb).
    destruct (inert_impl _ _ WaitEvent_inert Hw) as [Hwr Hwo].
    apply (Bracket_released _ (if AutoDumpSchema db then 1 else 0)) in Hb
      as [Hbr Hbo].
    + split; [apply Released_app; auto|].
      rewrite opens_app. destruct (AutoDumpSchema db); lia.
    + intros c tc (latest & tl & td & -> & Hl & Hd).
      destruct (inert_impl _ _ (RevertEvent_inert c latest) Hl) as [Hlr Hlo].
      destruct (autoDump_released td Hd) as [Hdr Hdo].
      split.
      * apply (Released_app [EvSelect c 1]); [intro; reflexivity|].
        apply Released_app; auto.
      * rewrite !opens_app. cbn [opens]. lia.
  - bind_inv H as a s1 t1 t2 Hstatus. cbn in H. inversion H; subst.
    rewrite app_nil_r.
    apply Status_shape in Hstatus as (tb & tp & -> & Hb & Hp & _).
    apply (Bracket_released _ O) in Hb as [Hbr Hbo].
    + assert (Hprints : Released tp /\ opens tp = O).
      { apply (inert_impl _ _ print_inert Hp). }
      destruct Hprints as [Hpr Hpo].
      split; [apply Released_app; auto | rewrite opens_app; lia].
    + intros c tc ->. split; [intro; reflexivity | cbn; lia].
  - apply DumpShape_released. eapply DumpSchema_shape; eauto.
Qed.

End Connections.

(** ** Native and emulated execution (claim C10) *)

Section Mode.

Context {S : Type} (E : Env S) (db : DB).

Lemma useNative_true :
  useNative db = true <->
  NativeEngine db = true /\ URL.Scheme (DatabaseURL db) <> "oracle".
Proof.
  unfold useNative. rewrite andb_true_iff, negb_true_iff.
  destruct (String.eqb_spec (URL.Scheme (DatabaseURL db)) "oracle");
    intuition congruence.
Qed.

Lemma useNative_false :
  useNative db = false <->
  NativeEngine db = false \/ URL.Scheme (DatabaseURL db) = "oracle".
Proof.
  unfold useNative. rewrite andb_false_iff, negb_false_iff.
  destruct (String.eqb_spec (URL.Scheme (DatabaseURL db)) "oracle");
    intuition congruence.
Qed.

Lemma ordinary_modeOK line : ordinaryLine line -> modeOK db (EvPrint line).
Proof. intros [Hn He]. split; intros Heq; congruence. Qed.

Ltac ordinary :=
  apply ordinary_modeOK; split; unfold nativeBanner, emulatedBanner; cbn;
  discriminate.

Lemma WaitEvent_modeOK e : WaitEvent db e -> modeOK db e.
Proof. destruct 1; try exact I; ordinary. Qed.

Lemma DumpEvent_modeOK c e : DumpEvent E db c e -> modeOK db e.
Proof. destruct 1; try exact I; ordinary. Qed.

Lemma ScriptEvent_modeOK tx script e :
  ScriptEvent db tx script e -> modeOK db e.
Proof.
  destruct 1 as [|q Hq].
  - unfold banner. destruct (useNative db) eqn:Hmode.
    + split; intros Heq.
      * apply useNative_true. exact Hmode.
      * unfold nativeBanner, emulatedBanner in Heq. cbn in Heq. discriminate.
    + split; intros Heq.
      * unfold nativeBanner, emulatedBanner in Heq. cbn in Heq. discriminate.
      * apply useNative_false. exact Hmode.
  - cbn. intros Hmode. rewrite Hmode in Hq. eauto.
Qed.

Lemma ScopeEvent_modeOK script book tx e :
  modeOK db (book tx) -> ScopeEvent db script book tx e -> modeOK db e.
Proof.
  intros Hbook [e' He | ]; [eapply ScriptEvent_modeOK; eauto | exact Hbook].
Qed.

Lemma ApplyEvent_modeOK c e : ApplyEvent E db c e -> modeOK db e.
Proof.
  destruct 1; try exact I; try ordinary.
  eapply ScopeEvent_modeOK; [|eassumption]. exact I.
Qed.

Lemma RevertEvent_modeOK c latest e :
  RevertEvent E db c latest e -> modeOK db e.
Proof.
  destruct 1; try exact I; try ordinary.
  eapply ScopeEvent_modeOK; [|eassumption]. exact I.
Qed.

Lemma Bracket_forall (B : conn -> list Event -> Prop) (P : Event -> Prop) t :
  (forall c, P (EvOpen c) /\ P (EvCreateTable c) /\ P (EvClose c)) ->
  (forall c tb, B c tb -> Forall P tb) ->
  Bracket B t -> Forall P t.
Proof.
  intros Hconn HB [-> | [(c & ->) | (c & tb & Hb & ->)]].
  - constructor.
  - repeat constructor; apply Hconn.
  - constructor; [apply Hconn|]. constructor; [apply Hconn|].
    apply Forall_app. split; [eapply HB; eauto|].
    repeat constructor; apply Hconn.
Qed.

Lemma DumpShape_modeOK t : DumpShape E db t -> Forall (modeOK db) t.
Proof.
  intros (tw & tb & -> & Hw & Hb). apply Forall_app. split.
  - eapply Forall_impl; [|exact Hw]. apply WaitEvent_modeOK.
  - eapply Bracket_forall; [| |exact Hb].
    + intros c. repeat split.
    + intros c tc Hc. eapply Forall_impl; [|exact Hc].
      apply DumpEvent_modeOK.
Qed.

(** C10.  [Migrate] and [Rollback] execute every script in the mode
    [useNative], which is emulated for the scheme oracle, whatever
    [NativeEngine] says, and is what [NativeEngine] says for every other
    scheme.  In that mode, [native]: a script is sent as the queries
    [queriesOf native], the whole script natively and its statements, one
    by one, emulated; each pending file of [Migrate] is applied as
    [applyOne] says and the migration of [Rollback] is reverted as
    [inScope] says, so that both operations return the outcome computed
    with that mode.  In the trace of either operation the banner of the
    native engine appears only in native mode, the banner of the emulated
    engine only in emulated mode, and in emulated mode every [Exec] is a
    statement of a split script. *)
Theorem oracle_runs_emulated (op : Operation) fuel s r s' t :
  op = OpMigrate \/ op = OpRollback ->
  runOp E db op fuel s = Some (r, s', t) ->
  (URL.Scheme (DatabaseURL db) = "oracle" -> useNative db = false) /\
  (useNative db = true <->
   NativeEngine db = true /\ URL.Scheme (DatabaseURL db) <> "oracle") /\
  Forall (modeOK db) t /\
  let native := if String.eqb (URL.Scheme (DatabaseURL db)) "oracle"
                then false else NativeEngine db in
  (forall tx script fuel' s0,
      executeScript E tx script (useNative db) fuel' s0
      = Some (runScript E native tx script s0)) /\
  (forall drv c f fuel' s0,
      applyMigration E db drv c f fuel' s0
      = Some (applyOne E (MigrationsDir db) native drv c f s0)) /\
  (forall drv c down latest fuel' s0,
      rollbackMigration E db drv c down latest fuel' s0
      = Some (underPolicy E c (MigrationOptions.Transaction (Options down))
                          (inScope E native (Contents down)
                                   (fun tx => Driver.DeleteMigration drv tx latest)
                                   (fun tx => EvDelete tx latest))
                          s0)) /\
  (forall fuel' s0 s1 s2 s3 s4 tw ents drv c m,
      ReadDir E (MigrationsDir db) s0 = Ok ents ->
      discovered ents <> [] ->
      waitBefore E db fuel' s0 = Some (None, s1, tw) ->
      DB_GetDriver E db = Ok drv ->
      Driver.Open drv (DatabaseURL db) s1 = (Ok c, s2) ->
      Driver.CreateMigrationsTable drv c s2 = (None, s3) ->
      Driver.SelectMigrations drv c (-1) s3 = (Ok m, s4) ->
      Migrate E db fuel' s0 =
      after (tw ++ [EvOpen c; EvCreateTable c; EvSelect c (-1)])
            (released E c
               (thenDump E db fuel'
                  (applyBatch E (MigrationsDir db) native drv c
                              (pendingFiles m (discovered ents)) s4)))) /\
  (forall fuel' s0 s1 s2 s3 s4 tw drv c m,
      waitBefore E db fuel' s0 = Some (None, s1, tw) ->
      DB_GetDriver E db = Ok drv ->
      Driver.Open drv (DatabaseURL db) s1 = (Ok c, s2) ->
      Driver.CreateMigrationsTable drv c s2 = (None, s3) ->
      Driver.SelectMigrations drv c 1 s3 = (Ok m, s4) ->
      Rollback E db fuel' s0 =
      after (tw ++ [EvOpen c; EvCreateTable c; EvSelect c 1])
            (released E c (rollbackFrom E db native fuel' drv c m s4))).
Proof.
  intros Hop H. split; [|split; [|split]].
  - intros Horacle. apply useNative_false. auto.
  - apply useNative_true.
  - destruct Hop as [-> | ->]; cbn [runOp] in H.
    + apply Migrate_shape in H as (tw & tb & -> & Hw & Hb).
      apply Forall_app. split.
      * eapply Forall_impl; [|exact Hw]. apply WaitEvent_modeOK.
      * eapply Bracket_forall; [| |exact Hb].
        -- intros c. repeat split.
        -- intros c tc (tl & td & -> & Hl & Hd).
           constructor; [exact I|]. apply Forall_app. split.
           ++ eapply Forall_impl; [|exact Hl]. apply ApplyEvent_modeOK.
           ++ destruct Hd as [-> | [_ Hd]]; [constructor|].
              apply DumpShape_modeOK. exact Hd.
    + apply Rollback_shape in H as (tw & tb & -> & Hw & Hb).
      apply Forall_app. split.
      * eapply Forall_impl; [|exact Hw]. apply WaitEvent_modeOK.
      * eapply Bracket_forall; [| |exact Hb].
        -- intros c. repeat split.
        -- intros c tc (latest & tl & td & -> & Hl & Hd).
           constructor; [exact I|]. apply Forall_app. split.
           ++ eapply Forall_impl; [|exact Hl]. apply RevertEvent_modeOK.
           ++ destruct Hd as [-> | [_ Hd]]; [constructor|].
              apply DumpShape_modeOK. exact Hd.
  - cbv zeta. rewrite <- (useNative_mode db).
    split; [intros; apply executeScript_exact|].
    split; [intros; apply applyMigration_exact|].
    split; [intros; apply rollbackMigration_exact|].
    split; intros.
    + eapply Migrate_exact; eauto.
    + eapply Rollback_exact; eauto.
Qed.

End Mode.

(** ** Rollback (claim C5) *)

Section RollingBack.

Context {S : Type} (E : Env S) (db : DB).


End RollingBack.

(** ** The batch of pending files (claim C2) *)

Section Batch.

Context {S : Type} (E : Env S) (db : DB).

Lemma announced_app t1 t2 : announced (t1 ++ t2) = announced t1 ++ announced t2.
Proof. apply filter_app. Qed.

Lemma inserted_app t1 t2 : inserted (t1 ++ t2) = inserted t1 ++ inserted t2.
Proof. apply flat_map_app. Qed.

(** Events that are neither announcements nor insertions leave no trace
    in [announced] and [inserted]. *)
Lemma silent (P : Event -> Prop) t :
  (forall e, P e -> isAnnouncement e = false /\ isInsert e = false) ->
  Forall P t -> announced t = [] /\ inserted t = [].
Proof.
  intros HP. induction 1 as [|e t He _ [IHa IHi]]; [split; reflexivity|].
  destruct (HP e He) as [Ha Hi]. unfold announced in *. cbn [filter].
  rewrite Ha. split; [exact IHa|].
  destruct e; try discriminate; exact IHi.
Qed.

Lemma WaitEvent_silent e :
  WaitEvent db e -> isAnnouncement e = false /\ isInsert e = false.
Proof. destruct 1; split; reflexivity. Qed.

Lemma DumpEvent_silent c e :
  DumpEvent E db c e -> isAnnouncement e = false /\ isInsert e = false.
Proof. destruct 1; split; reflexivity. Qed.

Lemma ScriptEvent_silent tx script e :
  ScriptEvent db tx script e -> isAnnouncement e = false /\ isInsert e = false.
Proof.
  destruct 1; split; try reflexivity.
  unfold banner. destruct (useNative db); reflexivity.
Qed.

Lemma DumpShape_silent t :
  DumpShape E db t -> announced t = [] /\ inserted t = [].
Proof.
  intros (tw & tb & -> & Hw & Hb).
  destruct (silent _ _ WaitEvent_silent Hw) as [Hwa Hwi].
  rewrite announced_app, inserted_app, Hwa, Hwi. cbn [app].
  destruct Hb as [-> | [(c & ->) | (c & tc & Hc & ->)]]; try (split; reflexivity).
  destruct (silent _ _ (DumpEvent_silent c) Hc) as [Hca Hci].
  cbn [app]. unfold announced in *. cbn [filter isAnnouncement inserted flat_map].
  fold (inserted (tc ++ [EvClose c])).
  rewrite filter_app, inserted_app, Hca, Hci. split; reflexivity.
Qed.

Lemma execMigrationUp_batch drv up ver tx fuel s r s' t :
  execMigrationUp E db drv up ver tx fuel s = Some (r, s', t) ->
  announced t = [] /\
  (inserted t = [ver] \/ (inserted t = [] /\ r <> None)).
Proof.
  unfold execMigrationUp. intros H. bind_inv H as a s1 ts tk Hscript.
  apply executeScript_events in Hscript.
  destruct (silent _ _ (ScriptEvent_silent tx (Contents up)) Hscript)
    as [Hsa Hsi].
  rewrite announced_app, inserted_app, Hsa, Hsi. cbn [app].
  destruct a as [err|].
  - cbn in H. inversion H; subst. split; [reflexivity|].
    right. split; [reflexivity | discriminate].
  - rewrite call_run in H. inversion H; subst. split; [reflexivity|].
    left. reflexivity.
Qed.

Lemma announce_is_announcement f : isAnnouncement (announce f) = true.
Proof. destruct f; reflexivity. Qed.

(** One file: it is announced once, and its row is inserted when it
    succeeds. *)
Lemma applyMigration_batch drv sqlDB f fuel s r s' t :
  applyMigration E db drv sqlDB f fuel s = Some (r, s', t) ->
  announced t = [announce f] /\
  (inserted t = [migrationVersion f] \/ (inserted t = [] /\ r <> None)).
Proof.
  assert (Hhead : forall p t',
             announced ([EvPrint ("Applying: " ++ f ++ nl); EvParse p] ++ t')
             = announce f :: announced t' /\
             inserted ([EvPrint ("Applying: " ++ f ++ nl); EvParse p] ++ t')
             = inserted t').
  { intros p t'. split; [|reflexivity].
    change (EvPrint ("Applying: " ++ f ++ nl)) with (announce f).
    unfold announced. cbn [app filter].
    rewrite announce_is_announcement. reflexivity. }
  assert (Htx : forall tx tb tk,
             announced ([EvBegin tx] ++ tb ++ tk) = announced tb ++ announced tk
             /\ inserted ([EvBegin tx] ++ tb ++ tk) = inserted tb ++ inserted tk).
  { intros tx tb tk. split.
    - rewrite <- announced_app. reflexivity.
    - rewrite <- inserted_app. reflexivity. }
  unfold applyMigration. rewrite bind_emit, bind_look.
  destruct (parseMigration E _ s) as [[up down]|err].
  - destruct (MigrationOptions.Transaction (Options up)).
    + unfold doTransaction. rewrite bind_call.
      destruct (sql_Begin E sqlDB s) as [[tx|err] s0]; cbn [fst snd].
      * destruct (bind _ _ fuel s0) as [[[r2 s2] t2]|] eqn:Hrest;
          [|discriminate].
        intros H. inversion H; subst. clear H.
        bind_inv Hrest as rb sb tb tk Hbody.
        apply execMigrationUp_batch in Hbody as (Hba & Hbi).
        match goal with
        | |- announced ?t = _ /\ _ =>
          change t with ([EvPrint ("Applying: " ++ f ++ nl);
                          EvParse (filepath_Join E (MigrationsDir db) f)]
                           ++ [EvBegin tx] ++ tb ++ tk)
        end.
        destruct (Hhead (filepath_Join E (MigrationsDir db) f)
                        ([EvBegin tx] ++ tb ++ tk)) as [-> ->].
        destruct (Htx tx tb tk) as [-> ->]. rewrite Hba. cbn [app].
        destruct rb as [err|].
        -- rewrite bind_call in Hrest.
           assert (Htk : tk = [EvRollback tx] /\ r <> None).
           { destruct (fst (sql_Rollback E tx sb)); cbn in Hrest;
               inversion Hrest; subst; split; try reflexivity; discriminate. }
           destruct Htk as [-> Hr]. split; [reflexivity|].
           change (inserted [EvRollback tx]) with (@nil string).
           rewrite app_nil_r.
           destruct Hbi as [-> | [-> _]]; auto.
        -- rewrite call_run in Hrest. inversion Hrest; subst.
           split; [reflexivity|].
           change (inserted [EvCommit tx]) with (@nil string).
           rewrite app_nil_r.
           destruct Hbi as [-> | [_ Hbad]]; [auto | congruence].
      * cbn. intros H. inversion H; subst.
        destruct (Hhead (filepath_Join E (MigrationsDir db) f) []) as [Ha Hi].
        split; [exact Ha|]. right. split; [exact Hi | discriminate].
    + destruct (execMigrationUp E db drv up (migrationVersion f) (OnDB sqlDB)
                                fuel s) as [[[r2 s2] t2]|] eqn:Hbody;
        [|discriminate].
      intros H. inversion H; subst. clear H.
      apply execMigrationUp_batch in Hbody as (Hba & Hbi).
      destruct (Hhead (filepath_Join E (MigrationsDir db) f) t2) as [Ha Hi].
      rewrite Hba in Ha. split; [exact Ha|].
      destruct Hbi as [Hbi | [Hbi Hr]]; [left | right; split; auto];
        (etransitivity; [exact Hi | exact Hbi]).
  - cbn. intros H. inversion H; subst.
    destruct (Hhead (filepath_Join E (MigrationsDir db) f) []) as [Ha Hi].
    split; [exact Ha|]. right. split; [exact Hi | discriminate].
Qed.

Lemma applyAll_batch drv sqlDB files :
  forall fuel s r s' t,
    applyAll E db drv sqlDB files fuel s = Some (r, s', t) ->
    batchOutcome files r t.
Proof.
  unfold batchOutcome.
  induction files as [|f files IH]; intros fuel s r s' t; cbn [applyAll].
  - cbn. intros H. inversion H; subst. exists [], []. auto.
  - intros H. bind_inv H as a s1 t1 t2 Hone.
    apply applyMigration_batch in Hone as (Hann & Hins).
    rewrite announced_app, inserted_app, Hann.
    destruct a as [err|].
    + cbn in H. inversion H; subst. exists [f], files.
      rewrite !app_nil_r. repeat split; auto.
      exists [], f. split; [reflexivity|].
      destruct Hins as [-> | [-> _]]; auto.
    + destruct Hins as [Hins | [_ Hbad]]; [|congruence]. rewrite Hins.
      apply IH in H as (processed & rest & -> & Hann' & Hres).
      exists (f :: processed), rest. rewrite Hann'.
      repeat split; auto.
      destruct r as [err|].
      * destruct Hres as (done & g & -> & Hcase).
        exists (f :: done), g. split; [reflexivity|].
        destruct Hcase as [-> | ->]; auto.
      * destruct Hres as [-> ->]. auto.
Qed.

(** C2, as amended.  [Migrate] discovers the matching files in ascending
    file-name order, whatever the order of the directory listing; that is
    ascending version order when the versions are equally long.  Its loop
    is the batch over the files whose version is absent from the applied
    set, in that order: each is announced and parsed, its Up script is
    executed (as one query natively, statement by statement emulated)
    inside a transaction or directly on the connection as the options of
    the Up section say, the bookkeeping row being inserted in the same
    scope when the script succeeded; the first failure halts the rest,
    and the schema is dumped when none failed.  [Migrate] returns the
    outcome [applyBatch] computes for those files. *)
Theorem Migrate_applies_pending_in_file_order
        (fuel : nat) (s s0 s1 s2 s3 : S) (tw : list Event)
        (ents : list FileInfo) (drv : Driver.t S) (c : conn) (m : versions) :
  ReadDir E (MigrationsDir db) s = Ok ents ->
  discovered ents <> [] ->
  waitBefore E db fuel s = Some (None, s0, tw) ->
  DB_GetDriver E db = Ok drv ->
  Driver.Open drv (DatabaseURL db) s0 = (Ok c, s1) ->
  Driver.CreateMigrationsTable drv c s1 = (None, s2) ->
  Driver.SelectMigrations drv c (-1) s2 = (Ok m, s3) ->
  ascending (discovered ents) /\
  (forall ents', Permutation ents ents' -> discovered ents' = discovered ents) /\
  ((forall f g, In f (discovered ents) -> In g (discovered ents) ->
                String.length (migrationVersion f)
                = String.length (migrationVersion g)) ->
   ascending (map migrationVersion (discovered ents))) /\
  (forall fuel' s',
      migrateLoop E db drv c m (discovered ents) fuel' s' =
      applyAll E db drv c (pendingFiles m (discovered ents)) fuel' s') /\
  (forall f fuel' s4 r s' t,
      applyMigration E db drv c f fuel' s4 = Some (r, s', t) ->
      exists t',
        t = [announce f; EvParse (filepath_Join E (MigrationsDir db) f)] ++ t' /\
        match parseMigration E (filepath_Join E (MigrationsDir db) f) s4 with
        | Err err => t' = [] /\ r = Some err /\ s' = s4
        | Ok (up, _) =>
          Scoped c (MigrationOptions.Transaction (Options up))
                 (ScopeEvent db (Contents up)
                             (fun tx => EvInsert tx (migrationVersion f))) t'
        end) /\
  (forall r s' t,
      Migrate E db fuel s = Some (r, s', t) ->
      batchOutcome (pendingFiles m (discovered ents)) r t) /\
  (forall f fuel' s4,
      applyMigration E db drv c f fuel' s4
      = Some (applyOne E (MigrationsDir db) (useNative db) drv c f s4)) /\
  Migrate E db fuel s =
  after (tw ++ [EvOpen c; EvCreateTable c; EvSelect c (-1)])
        (released E c
           (thenDump E db fuel
              (applyBatch E (MigrationsDir db) (useNative db) drv c
                          (pendingFiles m (discovered ents)) s3))).
Proof.
  intros Hdir Hfiles Hwait Hdrv Hopen Hcreate Hselect.
  split; [apply discovered_ascending|].
  split; [apply discovered_listing_order|].
  split; [apply versions_ascending, discovered_ascending|].
  split; [apply migrateLoop_pending|].
  split; [intros f fuel' s4 r s' t; apply applyMigration_shape|].
  split; [|split; [intros; apply applyMigration_exact
                  |eapply Migrate_exact; eauto]].
  intros r s' t. unfold Migrate.
  rewrite (bind_run _ _ _ _ _ _ _ (findMigrationFiles_run E _ _ fuel s)).
  rewrite Hdir. cbv beta iota. fold (discovered ents).
  destruct (discovered ents) as [|f0 files] eqn:Hd; [congruence|].
  cbn [length Nat.eqb]. rewrite <- Hd. clear Hd f0 files Hfiles.
  rewrite (bind_run _ _ _ _ _ _ _ Hwait). cbv beta iota.
  rewrite (bind_run _ _ _ _ _ _ _ (open_run E db drv c fuel s0 s1 s2
                                            Hdrv Hopen Hcreate)).
  cbv beta iota.
  destruct (deferClose E c _ fuel s2) as [[[b s4] t4]|] eqn:Hrun;
    [|discriminate].
  intros H. inversion H; subst. clear H.
  apply deferClose_returns in Hrun as (s5 & tb & Hbody & -> & ->).
  unfold migrateBody in Hbody. rewrite bind_call, Hselect in Hbody.
  cbn [fst snd] in Hbody.
  destruct (bind _ _ fuel s3) as [[[r2 s6] t6]|] eqn:Hrest; [|discriminate].
  inversion Hbody; subst. clear Hbody.
  bind_inv Hrest as a s7 tl td Hloop.
  rewrite migrateLoop_pending in Hloop.
  apply applyAll_batch in Hloop
    as (processed & rest & Hsplit & Hann & Hres).
  destruct (silent _ _ WaitEvent_silent
                   (waitBefore_events E db _ _ _ _ _ Hwait)) as [Hwa Hwi].
  assert (Hdump : announced td = [] /\ inserted td = [] /\ r = a).
  { destruct a as [err|].
    - cbn in Hrest. inversion Hrest; subst. auto.
    - bind_inv Hrest as u s8 t8 t9 Hauto. cbn in Hrest.
      inversion Hrest; subst. rewrite app_nil_r.
      apply autoDump_shape in Hauto as [-> | [_ Hshape]]; [auto|].
      destruct (DumpShape_silent _ Hshape). auto. }
  destruct Hdump as (Hda & Hdi & ->).
  exists processed, rest. split; [exact Hsplit|].
  assert (Hann' : announced (tw ++ ([] ++ [EvOpen c; EvCreateTable c]
                               ++ (([EvSelect c (-1)] ++ tl ++ td)
                                     ++ [EvClose c]))) = announced tl).
  { rewrite announced_app, Hwa. cbn [app].
    change (announced (EvOpen c :: EvCreateTable c :: EvSelect c (-1)
                              :: (tl ++ td) ++ [EvClose c]))
      with (announced ((tl ++ td) ++ [EvClose c])).
    rewrite !announced_app, Hda. cbn. rewrite !app_nil_r. reflexivity. }
  assert (Hins' : inserted (tw ++ ([] ++ [EvOpen c; EvCreateTable c]
                               ++ (([EvSelect c (-1)] ++ tl ++ td)
                                     ++ [EvClose c]))) = inserted tl).
  { rewrite inserted_app, Hwi. cbn [app].
    change (inserted (EvOpen c :: EvCreateTable c :: EvSelect c (-1)
                             :: (tl ++ td) ++ [EvClose c]))
      with (inserted ((tl ++ td) ++ [EvClose c])).
    rewrite !inserted_app, Hdi. cbn. rewrite !app_nil_r. reflexivity. }
  match goal with
  | |- announced ?t = _ /\ _ =>
    change t with (tw ++ ([] ++ [EvOpen c; EvCreateTable c]
                        ++ (([EvSelect c (-1)] ++ tl ++ td) ++ [EvClose c])))
  end.
  rewrite Hann', Hins'. split; assumption.
Qed.

End Batch.

(** ** The bookkeeping table in the reference world (claims C6 and C7) *)

Section Bookkeeping.

Variable D : Type.
Variable run : string -> D -> result D.
Variable dump : D -> result string.

Local Abbreviation E := (Ref.env D run dump).
Local Abbreviation driver := (Ref.driver D dump).
Local Abbreviation State := (Ref.State D).

Lemma sameData_refl (s : State) : sameData s s.
Proof. repeat split; auto. Qed.

Lemma sameData_trans (s1 s2 s3 : State) :
  sameData s1 s2 -> sameData s2 s3 -> sameData s1 s3.
Proof.
  intros (H1 & H2 & H3 & H4 & H5 & H6) (K1 & K2 & K3 & K4 & K5 & K6).
  repeat split; try congruence. auto.
Qed.

Lemma ref_GetDriver db drv : DB_GetDriver E db = Ok drv -> drv = driver.
Proof.
  unfold DB_GetDriver. cbn. unfold Ref.GetDriver.
  destruct (existsb _ _); intros H; inversion H. reflexivity.
Qed.

Lemma ref_Ping url (s : State) :
  sameData s (snd (Ref.Ping D url s)) /\
  (Ref.downFor D s = Some O -> Ref.Ping D url s = (None, s)).
Proof.
  unfold Ref.Ping. destruct (Ref.downFor D s) as [[|n]|] eqn:Hdown; cbn.
  - split; [apply sameData_refl | reflexivity].
  - split; [|discriminate]. repeat split; cbn; auto. rewrite Hdown. discriminate.
  - split; [apply sameData_refl | discriminate].
Qed.

Lemma ref_waitLoop db :
  forall fuel i err (s : State) r s' t,
    waitLoop driver db i err fuel s = Some (r, s', t) -> sameData s s'.
Proof.
  induction fuel as [|fuel IH]; intros i err s r s' t; cbn [waitLoop];
    destruct (i <? WaitTimeout db)%Z; try discriminate;
      try solve [intros H; inversion H; subst; apply sameData_refl].
  pose proof (proj1 (ref_Ping (DatabaseURL db) s)) as Hping.
  change (Driver.Ping driver (DatabaseURL db) s)
    with (Ref.Ping D (DatabaseURL db) s).
  destruct (Ref.Ping D (DatabaseURL db) s) as [[e|] s1]; cbn [snd] in Hping.
  - destruct (waitLoop driver db _ e fuel s1) as [[[r2 s2] t2]|] eqn:Hloop;
      [|discriminate].
    intros H; inversion H; subst.
    eapply sameData_trans; [exact Hping|]. eapply IH; eauto.
  - intros H; inversion H; subst. exact Hping.
Qed.

Lemma ref_waitBefore db fuel (s : State) r s' t :
  waitBefore E db fuel s = Some (r, s', t) -> sameData s s'.
Proof.
  unfold waitBefore, Wait. destruct (WaitBefore db).
  - destruct (DB_GetDriver E db) as [drv|err] eqn:Hdrv.
    + apply ref_GetDriver in Hdrv. subst drv.
      unfold ping. rewrite bind_call.
      pose proof (proj1 (ref_Ping (DatabaseURL db) s)) as Hping.
      change (Driver.Ping driver (DatabaseURL db) s)
        with (Ref.Ping D (DatabaseURL db) s).
      destruct (Ref.Ping D (DatabaseURL db) s) as [[e|] s1];
        cbn [fst snd] in *.
      * rewrite bind_emit.
        destruct (waitLoop driver db 0 e fuel s1) as [[[r2 s2] t2]|] eqn:Hloop;
          [|discriminate].
        intros H; inversion H; subst.
        eapply sameData_trans; [exact Hping|]. eapply ref_waitLoop; eauto.
      * cbn. intros H; inversion H; subst. exact Hping.
    + cbn. intros H; inversion H; subst. apply sameData_refl.
  - cbn. intros H; inversion H; subst. apply sameData_refl.
Qed.

(** With the server answering, the optional wait succeeds at once. *)
Lemma ref_waitBefore_up db fuel (s : State) :
  DB_GetDriver E db = Ok driver ->
  Ref.downFor D s = Some O ->
  exists tw, waitBefore E db fuel s = Some (None, s, tw).
Proof.
  intros Hdrv Hup. unfold waitBefore, Wait. destruct (WaitBefore db).
  - exists [EvPing None]. rewrite Hdrv. cbv beta iota.
    unfold ping. rewrite bind_call.
    change (Driver.Ping driver (DatabaseURL db) s)
      with (Ref.Ping D (DatabaseURL db) s).
    rewrite (proj2 (ref_Ping (DatabaseURL db) s) Hup). reflexivity.
  - exists []. reflexivity.
Qed.

Lemma ref_open db fuel (s : State) drv c s' t :
  openDatabaseForMigration E db fuel s = Some (Ok (drv, c), s', t) ->
  drv = driver /\ DB_GetDriver E db = Ok driver /\
  Ref.downFor D s = Some O /\ sameData s s'.
Proof.
  unfold openDatabaseForMigration.
  destruct (DB_GetDriver E db) as [drv0|err] eqn:Hdrv;
    [|cbn; intros H; inversion H].
  apply ref_GetDriver in Hdrv as Heq. subst drv0.
  rewrite bind_call.
  change (Driver.Open driver (DatabaseURL db) s)
    with (Ref.Open D (DatabaseURL db) s).
  unfold Ref.Open.
  destruct (Ref.downFor D s) as [[|n]|] eqn:Hdown; cbn;
    intros H; inversion H; subst.
  repeat split; cbn; auto.
Qed.

Lemma ref_open_up db fuel (s : State) :
  DB_GetDriver E db = Ok driver ->
  Ref.downFor D s = Some O ->
  openDatabaseForMigration E db fuel s =
  Some (Ok (driver, Ref.nextConn D s),
        Ref.withConn D s (Datatypes.S (Ref.nextConn D s)),
        [EvOpen (Ref.nextConn D s); EvCreateTable (Ref.nextConn D s)]).
Proof.
  intros Hdrv Hup.
  apply (open_run E db driver (Ref.nextConn D s) fuel s
                  (Ref.withConn D s (Datatypes.S (Ref.nextConn D s)))
                  (Ref.withConn D s (Datatypes.S (Ref.nextConn D s))) Hdrv).
  - cbn. unfold Ref.Open. rewrite Hup. reflexivity.
  - reflexivity.
Qed.

Lemma ref_dumpBody db c fuel (s : State) :
  exists r s' t,
    dumpBody E db driver c fuel s = Some (r, s', t) /\ sameData s s'.
Proof.
  unfold dumpBody. rewrite bind_call. cbn [fst snd Driver.DumpSchema driver].
  unfold Ref.DumpSchema. cbn [fst snd].
  destruct (dump (Ref.schema D s)) as [text|err].
  - rewrite bind_emit, bind_call. cbn. do 3 eexists. split; [reflexivity|].
    repeat split; auto.
  - cbn. do 3 eexists. split; [reflexivity | apply sameData_refl].
Qed.

(** [DumpSchema] leaves the data as it is; with the server answering it
    returns. *)
Lemma ref_DumpSchema db fuel (s : State) r s' t :
  DumpSchema E db fuel s = Some (r, s', t) -> sameData s s'.
Proof.
  unfold DumpSchema. intros H. bind_inv H as a s1 tw tr Hwait.
  apply ref_waitBefore in Hwait. destruct a as [err|].
  - cbn in H. inversion H; subst. exact Hwait.
  - bind_inv H as b s2 to tb Hopen. destruct b as [[drv c]|err].
    + apply ref_open in Hopen as (-> & _ & _ & Hsame).
      apply deferClose_returns in H as (s3 & tc & Hbody & -> & _).
      destruct (ref_dumpBody db c fuel s2) as (r' & s4 & t' & Hrun & Hsame').
      rewrite Hrun in Hbody. inversion Hbody; subst.
      eapply sameData_trans; [exact Hwait|].
      eapply sameData_trans; [exact Hsame|]. exact Hsame'.
    + cbn in H. inversion H; subst.
      eapply sameData_trans; [exact Hwait|].
      unfold openDatabaseForMigration in Hopen.
      destruct (DB_GetDriver E db) as [drv0|err0] eqn:Hdrv.
      * apply ref_GetDriver in Hdrv as Heq. subst drv0.
        rewrite bind_call in Hopen.
        change (Driver.Open driver (DatabaseURL db) s1)
          with (Ref.Open D (DatabaseURL db) s1) in Hopen.
        unfold Ref.Open in Hopen.
        destruct (Ref.downFor D s1) as [[|n]|]; cbn in Hopen;
          inversion Hopen; subst; apply sameData_refl.
      * cbn in Hopen. inversion Hopen; subst. apply sameData_refl.
Qed.

Lemma ref_DumpSchema_up db fuel (s : State) :
  DB_GetDriver E db = Ok driver ->
  Ref.downFor D s = Some O ->
  exists r s' t, DumpSchema E db fuel s = Some (r, s', t).
Proof.
  intros Hdrv Hup. unfold DumpSchema.
  destruct (ref_waitBefore_up db fuel s Hdrv Hup) as (tw & Hwait).
  rewrite (bind_run _ _ _ _ _ _ _ Hwait). cbv beta iota.
  rewrite (bind_run _ _ _ _ _ _ _ (ref_open_up db fuel s Hdrv Hup)).
  cbv beta iota.
  destruct (ref_dumpBody db (Ref.nextConn D s) fuel
                         (Ref.withConn D s (Datatypes.S (Ref.nextConn D s))))
    as (r & s' & t & Hrun & _).
  rewrite (deferClose_run E _ _ _ _ _ _ _ Hrun). eauto.
Qed.

Lemma ref_autoDump db fuel (s : State) r s' t :
  autoDump E db fuel s = Some (r, s', t) -> sameData s s'.
Proof.
  unfold autoDump. destruct (AutoDumpSchema db).
  - intros H. bind_inv H as a s1 t1 t2 Hdump. cbn in H. inversion H; subst.
    eapply ref_DumpSchema; eauto.
  - cbn. intros H; inversion H; subst. apply sameData_refl.
Qed.

Lemma ref_autoDump_up db fuel (s : State) :
  DB_GetDriver E db = Ok driver ->
  Ref.downFor D s = Some O ->
  exists s' t, autoDump E db fuel s = Some (tt, s', t).
Proof.
  intros Hdrv Hup. unfold autoDump. destruct (AutoDumpSchema db).
  - destruct (ref_DumpSchema_up db fuel s Hdrv Hup) as (r & s' & t & Hrun).
    rewrite (bind_run _ _ _ _ _ _ _ Hrun). do 2 eexists. reflexivity.
  - do 2 eexists. reflexivity.
Qed.

Lemma mapGet_appliedSet rws v :
  mapGet (appliedSet rws) v = true <-> In v rws.
Proof.
  unfold mapGet, appliedSet. induction rws as [|a rws IH]; cbn.
  - split; [discriminate | tauto].
  - destruct (String.eqb_spec a v) as [-> | Hne]; cbn.
    + tauto.
    + rewrite IH. split; [tauto | intros [? | ?]; [congruence | assumption]].
Qed.

Lemma pending_none rws files :
  (forall f, In f files -> In (migrationVersion f) rws) ->
  pendingFiles (appliedSet rws) files = [].
Proof.
  unfold pendingFiles. induction files as [|f files IH]; intros Hcover;
    [reflexivity|].
  cbn [filter].
  rewrite (proj2 (mapGet_appliedSet rws (migrationVersion f)))
    by (apply Hcover; left; reflexivity).
  apply IH. intros g Hg. apply Hcover. right; exact Hg.
Qed.

Lemma static_refl (s : State) : static s s.
Proof. repeat split. Qed.

Lemma static_trans (s1 s2 s3 : State) :
  static s1 s2 -> static s2 s3 -> static s1 s3.
Proof. intros (H1 & H2 & H3) (K1 & K2 & K3). repeat split; congruence. Qed.

Lemma ref_Exec tx q (s : State) :
  static s (snd (Ref.Exec D run tx q s)) /\
  Ref.rows D (snd (Ref.Exec D run tx q s)) = Ref.rows D s /\
  Ref.saved D (snd (Ref.Exec D run tx q s)) = Ref.saved D s.
Proof.
  unfold Ref.Exec. destruct (run q (Ref.schema D s)); cbn; repeat split.
Qed.

Lemma ref_execStatements tx statements :
  forall fuel (s : State) r s' t,
    execStatements E tx statements fuel s = Some (r, s', t) ->
    static s s' /\ Ref.rows D s' = Ref.rows D s /\
    Ref.saved D s' = Ref.saved D s.
Proof.
  induction statements as [|q rest IH]; intros fuel s r s' t;
    cbn [execStatements].
  - cbn. intros H; inversion H; subst. repeat split.
  - unfold exec. rewrite bind_call.
    change (sql_Exec E tx q s) with (Ref.Exec D run tx q s).
    destruct (ref_Exec tx q s) as (Hst & Hrows & Hsaved).
    destruct (fst (Ref.Exec D run tx q s)).
    + cbn. intros H; inversion H; subst. auto.
    + destruct (execStatements E tx rest fuel _) as [[[r2 s2] t2]|] eqn:Hrest;
        [|discriminate].
      intros H; inversion H; subst.
      apply IH in Hrest as (Hst' & Hrows' & Hsaved').
      split; [eapply static_trans; eauto|]. split; congruence.
Qed.

Lemma ref_executeScript tx script native fuel (s : State) r s' t :
  executeScript E tx script native fuel s = Some (r, s', t) ->
  static s s' /\ Ref.rows D s' = Ref.rows D s /\
  Ref.saved D s' = Ref.saved D s.
Proof.
  unfold executeScript. rewrite bind_emit. destruct native.
  - unfold exec. rewrite call_run.
    change (sql_Exec E tx script s) with (Ref.Exec D run tx script s).
    intros H; inversion H; subst. apply ref_Exec.
  - destruct (execStatements E tx _ fuel s) as [[[r2 s2] t2]|] eqn:Hrun;
      [|discriminate].
    intros H; inversion H; subst. eapply ref_execStatements; eauto.
Qed.

(** The closure of [Migrate]: on success the version is the newest row. *)
Lemma ref_execMigrationUp db up ver tx fuel (s : State) s' t :
  execMigrationUp E db driver up ver tx fuel s = Some (None, s', t) ->
  static s s' /\ Ref.rows D s' = ver :: Ref.rows D s /\
  Ref.saved D s' = Ref.saved D s.
Proof.
  unfold execMigrationUp. intros H. bind_inv H as a s1 t1 t2 Hscript.
  apply ref_executeScript in Hscript as (Hst & Hrows & Hsaved).
  destruct a as [err|]; [cbn in H; inversion H|].
  rewrite call_run in H.
  change (Driver.InsertMigration driver tx ver s1)
    with (Ref.InsertMigration D tx ver s1) in H.
  unfold Ref.InsertMigration in H.
  destruct (existsb (String.eqb ver) (Ref.rows D s1)); cbn in H;
    inversion H; subst.
  split; [exact Hst|]. cbn. split; congruence.
Qed.

(** The closure of [Rollback]: on success the version has no row. *)
Lemma ref_execMigrationDown db down latest tx fuel (s : State) s' t :
  execMigrationDown E db driver down latest tx fuel s = Some (None, s', t) ->
  static s s' /\
  Ref.rows D s' = filter (fun v => negb (String.eqb latest v)) (Ref.rows D s) /\
  Ref.saved D s' = Ref.saved D s.
Proof.
  unfold execMigrationDown. intros H. bind_inv H as a s1 t1 t2 Hscript.
  apply ref_executeScript in Hscript as (Hst & Hrows & Hsaved).
  destruct a as [err|]; [cbn in H; inversion H|].
  rewrite call_run in H. cbn in H. inversion H; subst.
  split; [exact Hst|]. cbn. split; congruence.
Qed.

(** A body that succeeds under either transaction policy leaves the rows
    it wrote. *)
Lemma ref_scoped (policy : bool) (c : conn)
      (body : Transaction -> M State (option error))
      (change : list string -> list string) fuel (s : State) s' t :
  (forall tx fuel s s' t,
      body tx fuel s = Some (None, s', t) ->
      static s s' /\ Ref.rows D s' = change (Ref.rows D s) /\
      Ref.saved D s' = Ref.saved D s) ->
  (if policy then doTransaction E c body else body (OnDB c)) fuel s
  = Some (None, s', t) ->
  static s s' /\ Ref.rows D s' = change (Ref.rows D s).
Proof.
  intros Hbody. destruct policy.
  - unfold doTransaction. rewrite bind_call.
    change (sql_Begin E c s) with (Ref.Begin D c s). unfold Ref.Begin.
    destruct (Ref.saved D s) eqn:Hsaved; cbn [fst snd].
    + cbn. intros H; inversion H.
    + intros H. destruct (bind _ _ fuel _) as [[[r2 s2] t2]|] eqn:Hrest;
        [|discriminate].
      inversion H; subst. clear H.
      bind_inv Hrest as rb sb tb tk Hrun. destruct rb as [err|].
      * rewrite bind_call in Hrest.
        destruct (fst (sql_Rollback E O sb)); cbn in Hrest; inversion Hrest.
      * apply Hbody in Hrun as (Hst & Hrows & _).
        rewrite call_run in Hrest. cbn in Hrest. inversion Hrest; subst.
        cbn. split; [|exact Hrows].
        destruct Hst as (H1 & H2 & H3). repeat split; assumption.
  - intros H. apply Hbody in H. tauto.
Qed.

Lemma ref_applyMigration db c f fuel (s : State) s' t :
  applyMigration E db driver c f fuel s = Some (None, s', t) ->
  static s s' /\ Ref.rows D s' = migrationVersion f :: Ref.rows D s.
Proof.
  unfold applyMigration. rewrite bind_emit, bind_look.
  destruct (parseMigration E _ s) as [[up down]|err];
    [|cbn; intros H; inversion H].
  cbv beta iota.
  destruct ((if MigrationOptions.Transaction (Options up)
             then doTransaction E c
                    (execMigrationUp E db driver up (migrationVersion f))
             else execMigrationUp E db driver up (migrationVersion f) (OnDB c))
              fuel s) as [[[r3 s3] t3]|] eqn:Hstep; [|discriminate].
  intros H. inversion H; subst. clear H.
  eapply (ref_scoped _ c _ (cons (migrationVersion f))); [|exact Hstep].
  intros tx fuel' s0 s0' t0. apply ref_execMigrationUp.
Qed.

Lemma ref_applyAll db c files :
  forall fuel (s : State) s' t,
    applyAll E db driver c files fuel s = Some (None, s', t) ->
    static s s' /\
    Ref.rows D s' = rev (map migrationVersion files) ++ Ref.rows D s.
Proof.
  induction files as [|f files IH]; intros fuel s s' t; cbn [applyAll].
  - cbn. intros H; inversion H; subst. split; [apply static_refl | reflexivity].
  - intros H. bind_inv H as a s1 t1 t2 Hone.
    destruct a as [err|]; [cbn in H; inversion H|].
    apply ref_applyMigration in Hone as (Hst & Hrows).
    apply IH in H as (Hst' & Hrows').
    split; [eapply static_trans; eauto|].
    rewrite Hrows', Hrows. cbn [map rev]. rewrite <- app_assoc. reflexivity.
Qed.

Lemma ref_rollbackMigration db c down latest fuel (s : State) s' t :
  rollbackMigration E db driver c down latest fuel s = Some (None, s', t) ->
  static s s' /\
  Ref.rows D s' = filter (fun v => negb (String.eqb latest v)) (Ref.rows D s).
Proof.
  unfold rollbackMigration. intros H.
  eapply (ref_scoped _ c _ (filter (fun v => negb (String.eqb latest v))));
    [|exact H].
  intros tx fuel' s0 s0' t0. apply ref_execMigrationDown.
Qed.

Lemma filter_out (v : string) l :
  ~ In v l -> filter (fun x => negb (String.eqb v x)) (v :: l) = l.
Proof.
  intros Hnot. cbn. rewrite String.eqb_refl. cbn.
  induction l as [|a l IH]; [reflexivity|]. cbn.
  destruct (String.eqb_spec v a) as [-> | Hne].
  - exfalso. apply Hnot. left; reflexivity.
  - cbn. f_equal. apply IH. intros Hin. apply Hnot. right; exact Hin.
Qed.

(** A successful [Migrate] in the reference world: where it started, and
    what it left. *)
Lemma ref_Migrate_success db fuel (s0 s1 : State) t1 :
  Migrate E db fuel s0 = Some (None, s1, t1) ->
  DB_GetDriver E db = Ok driver /\
  ReadDir E (MigrationsDir db) s0 = Ok (listing s0) /\
  discovered (listing s0) <> [] /\
  Ref.dirName D s1 = Ref.dirName D s0 /\
  Ref.files D s1 = Ref.files D s0 /\
  Ref.downFor D s1 = Some O /\
  Ref.rows D s1 =
  rev (map migrationVersion
           (pendingFiles (appliedSet (Ref.rows D s0)) (discovered (listing s0))))
      ++ Ref.rows D s0.
Proof.
  intros H. unfold Migrate in H.
  rewrite (bind_run _ _ _ _ _ _ _ (findMigrationFiles_run E _ _ fuel s0)) in H.
  change (ReadDir E (MigrationsDir db) s0)
    with (Ref.ReadDir D (MigrationsDir db) s0) in *.
  unfold Ref.ReadDir in *.
  destruct (String.eqb (MigrationsDir db) (Ref.dirName D s0));
    [|cbn in H; inversion H].
  cbv beta iota in H. fold (listing s0) in *. fold (discovered (listing s0)) in H.
  destruct (discovered (listing s0)) as [|f0 files] eqn:Hd;
    [cbn in H; inversion H|].
  assert (Hne : f0 :: files <> []) by discriminate.
  cbn [length Nat.eqb] in H. rewrite <- Hd in *. clear Hd f0 files.
  apply run_nil in H.
  bind_inv H as a sa tw tr Hwait. apply ref_waitBefore in Hwait.
  destruct a as [err|]; [cbn in H; inversion H|].
  bind_inv H as b sb to tb Hopen.
  destruct b as [[drv c]|err]; [|cbn in H; inversion H].
  apply ref_open in Hopen as (-> & Hdrv & Hup & Hsame).
  apply deferClose_returns in H as (sc & tc & Hbody & Hs1 & _).
  cbn in Hs1. subst s1.
  unfold migrateBody in Hbody. rewrite bind_call in Hbody.
  change (Driver.SelectMigrations driver c (-1) sb)
    with (Ref.SelectMigrations D c (-1) sb) in Hbody.
  unfold Ref.SelectMigrations in Hbody. cbn [fst snd Z.ltb Z.compare] in Hbody.
  fold (appliedSet (Ref.rows D sb)) in Hbody.
  destruct (bind _ _ fuel sb) as [[[r2 s2] t2]|] eqn:Hrest; [|discriminate].
  inversion Hbody; subst. clear Hbody.
  bind_inv Hrest as a2 sd tl td Hloop.
  rewrite migrateLoop_pending in Hloop.
  destruct a2 as [err|]; [cbn in Hrest; inversion Hrest|].
  apply ref_applyAll in Hloop as ((Hd1 & Hd2 & Hd3) & Hrows).
  bind_inv Hrest as u se t3 t4 Hauto.
  apply ref_autoDump in Hauto as (Ha1 & Ha2 & _ & Ha4 & _ & Ha6).
  cbn in Hrest. inversion Hrest; subst. clear Hrest.
  destruct Hwait as (Hw1 & Hw2 & _ & Hw4 & _ & _).
  destruct Hsame as (Ho1 & Ho2 & _ & Ho4 & _ & Ho6).
  split; [exact Hdrv|]. split; [reflexivity|]. split; [assumption|].
  split; [congruence|]. split; [congruence|].
  split; [apply Ha6; rewrite Hd3; apply Ho6; exact Hup|].
  rewrite Ha4, Hrows, Ho4, Hw4. reflexivity.
Qed.

(** C6.  In the reference world, when [Migrate] succeeds, running it
    again (with the same fuel) succeeds too: it waits if asked, opens and
    releases one connection, queries the bookkeeping table, dumps the
    schema if asked, and nothing else; no file is announced, parsed or
    run and no row is inserted, every discovered file having its version
    in the table; the table is as the first run left it. *)
Theorem Migrate_twice_applies_nothing
        (db : DB) (fuel : nat) (s0 s1 : State) (t1 : list Event) :
  Migrate E db fuel s0 = Some (None, s1, t1) ->
  (forall f, In f (discovered (listing s0)) ->
             In (migrationVersion f) (Ref.rows D s1)) /\
  exists s2 tw c td,
    Migrate E db fuel s1 =
    Some (None, s2,
          tw ++ [EvOpen c; EvCreateTable c; EvSelect c (-1)] ++ td
             ++ [EvClose c]) /\
    Forall (WaitEvent db) tw /\
    (td = [] \/ AutoDumpSchema db = true /\ DumpShape E db td) /\
    Ref.rows D s2 = Ref.rows D s1.
Proof.
  intros H.
  apply ref_Migrate_success in H
    as (Hdrv & Hdir & Hfiles & Hname & Hfs & Hup & Hrows).
  assert (Hcover : forall f, In f (discovered (listing s0)) ->
                             In (migrationVersion f) (Ref.rows D s1)).
  { intros f Hin. rewrite Hrows. apply in_or_app.
    destruct (mapGet (appliedSet (Ref.rows D s0)) (migrationVersion f))
      eqn:Hget.
    - right. apply mapGet_appliedSet. exact Hget.
    - left. apply in_rev. rewrite rev_involutive. apply in_map.
      unfold pendingFiles. apply filter_In. rewrite Hget. auto. }
  split; [exact Hcover|].
  assert (Hlisting : listing s1 = listing s0)
    by (unfold listing; rewrite Hfs; reflexivity).
  assert (Hdir1 : ReadDir E (MigrationsDir db) s1 = Ok (listing s0)).
  { change (ReadDir E (MigrationsDir db) s1)
      with (Ref.ReadDir D (MigrationsDir db) s1).
    change (ReadDir E (MigrationsDir db) s0)
      with (Ref.ReadDir D (MigrationsDir db) s0) in Hdir.
    unfold Ref.ReadDir in *. rewrite Hname. fold (listing s1).
    rewrite Hlisting. exact Hdir. }
  destruct (ref_waitBefore_up db fuel s1 Hdrv Hup) as (tw & Hwait).
  set (c := Ref.nextConn D s1).
  set (sb := Ref.withConn D s1 (Datatypes.S c)).
  assert (Hpending : pendingFiles (appliedSet (Ref.rows D sb))
                                  (discovered (listing s0)) = []).
  { apply pending_none. exact Hcover. }
  destruct (ref_autoDump_up db fuel sb Hdrv Hup) as (s2 & td & Hauto).
  exists s2, tw, c, td.
  split; [|split; [eapply waitBefore_events; eauto|split]].
  - unfold Migrate.
    rewrite (bind_run _ _ _ _ _ _ _ (findMigrationFiles_run E _ _ fuel s1)).
    rewrite Hdir1. cbv beta iota. fold (discovered (listing s0)).
    destruct (discovered (listing s0)) as [|f0 files] eqn:Hd; [congruence|].
    cbn [length Nat.eqb]. rewrite <- Hd in *. clear Hd f0 files.
    rewrite (bind_run _ _ _ _ _ _ _ Hwait). cbv beta iota.
    rewrite (bind_run _ _ _ _ _ _ _ (ref_open_up db fuel s1 Hdrv Hup)).
    cbv beta iota. fold c. fold sb.
    rewrite (deferClose_run E c _ fuel sb None s2 ([EvSelect c (-1)] ++ td)).
    + reflexivity.
    + unfold migrateBody. rewrite bind_call.
      change (Driver.SelectMigrations driver c (-1) sb)
        with (Ref.SelectMigrations D c (-1) sb).
      unfold Ref.SelectMigrations. cbn [fst snd Z.ltb Z.compare].
      fold (appliedSet (Ref.rows D sb)).
      rewrite (bind_run _ _ _ _ None sb []).
      * rewrite (bind_run _ _ _ _ _ _ _ Hauto). cbn.
        rewrite app_nil_r. reflexivity.
      * rewrite migrateLoop_pending, Hpending. reflexivity.
  - eapply autoDump_shape; eauto.
  - apply ref_autoDump in Hauto as (_ & _ & _ & Hr & _). exact Hr.
Qed.

(** C7.  In the reference world, when [Migrate] succeeds with one file
    [f] pending and the [Rollback] that follows succeeds (so the file has
    an Up and a Down section that both run), the bookkeeping table, which
    [Migrate] has extended by the version of [f], is again what it was
    before [Migrate]. *)
Theorem Migrate_then_Rollback_restores
        (db : DB) (fuel : nat) (s0 s1 s2 : State) (t1 t2 : list Event)
        (f : string) :
  pendingFiles (appliedSet (Ref.rows D s0)) (discovered (listing s0)) = [f] ->
  Migrate E db fuel s0 = Some (None, s1, t1) ->
  Rollback E db fuel s1 = Some (None, s2, t2) ->
  Ref.rows D s1 = migrationVersion f :: Ref.rows D s0 /\
  Ref.rows D s2 = Ref.rows D s0.
Proof.
  intros Hpending Hmigrate H.
  apply ref_Migrate_success in Hmigrate as (_ & _ & _ & _ & _ & _ & Hrows).
  rewrite Hpending in Hrows. cbn in Hrows.
  split; [exact Hrows|].
  assert (Hfresh : ~ In (migrationVersion f) (Ref.rows D s0)).
  { intros Hin. apply mapGet_appliedSet in Hin.
    assert (Hf : In f (pendingFiles (appliedSet (Ref.rows D s0))
                                    (discovered (listing s0))))
      by (rewrite Hpending; left; reflexivity).
    apply filter_In in Hf as (_ & Hf). rewrite Hin in Hf. discriminate. }
  unfold Rollback in H.
  bind_inv H as a sa tw tr Hwait. apply ref_waitBefore in Hwait.
  destruct a as [err|]; [cbn in H; inversion H|].
  bind_inv H as b sb to tb Hopen.
  destruct b as [[drv c]|err]; [|cbn in H; inversion H].
  apply ref_open in Hopen as (-> & Hdrv & Hup & Hsame).
  apply deferClose_returns in H as (sc & tc & Hbody & Hs2 & _).
  cbn in Hs2. subst s2.
  assert (Hrows_b : Ref.rows D sb = migrationVersion f :: Ref.rows D s0).
  { destruct Hwait as (_ & _ & _ & Hw & _). destruct Hsame as (_ & _ & _ & Ho & _).
    congruence. }
  assert (Hselect : Driver.SelectMigrations driver c 1 sb
                    = (Ok [(migrationVersion f, true)], sb)).
  { change (Driver.SelectMigrations driver c 1 sb)
      with (Ref.SelectMigrations D c 1 sb).
    unfold Ref.SelectMigrations. rewrite Hrows_b. reflexivity. }
  unfold rollbackBody in Hbody. rewrite bind_call, Hselect in Hbody.
  cbn [fst snd] in Hbody. cbv zeta in Hbody.
  change (latestOf [(migrationVersion f, true)])
    with (migrationVersion f) in Hbody.
  destruct (String.eqb (migrationVersion f) "");
    [cbn in Hbody; inversion Hbody|].
  destruct (bind _ _ fuel sb) as [[[r2 s3] t3]|] eqn:Hrest; [|discriminate].
  inversion Hbody; subst. clear Hbody.
  bind_inv Hrest as g sd tf tg Hfind.
  apply findMigrationFile_returns in Hfind as (_ & -> & _).
  destruct g as [g|err]; [|cbn in Hrest; inversion Hrest].
  rewrite bind_emit, bind_look in Hrest.
  destruct (parseMigration E _ sb) as [[up down]|err];
    [|cbn in Hrest; inversion Hrest].
  destruct (bind _ _ fuel sb) as [[[r4 s4] t4]|] eqn:Hstep; [|discriminate].
  inversion Hrest; subst. clear Hrest.
  bind_inv Hstep as a2 se tl td Hrevert.
  destruct a2 as [err|]; [cbn in Hstep; inversion Hstep|].
  apply ref_rollbackMigration in Hrevert as (_ & Hrows_e).
  bind_inv Hstep as u sf t5 t6 Hauto.
  apply ref_autoDump in Hauto as (_ & _ & _ & Hr & _).
  cbn in Hstep. inversion Hstep; subst.
  rewrite Hr, Hrows_e, Hrows_b. apply filter_out. exact Hfresh.
Qed.

End Bookkeeping.

(** ** More of the splitter: comments and blank statements *)

Section SplitterMore.

Import Scanner.

Lemma parseLoop_keeps (P : string -> Prop) :
  (forall st, GoString.TrimSpace_empty st = false -> P st) ->
  forall fuel s statement statements,
    Forall P statements ->
    Forall P (parseLoop fuel s statement statements).
Proof.
  intros HP. induction fuel as [|fuel IH]; intros s statement statements Hall;
    [exact Hall|].
  cbn [parseLoop].
  assert (Hclose : Forall P (if GoString.TrimSpace_empty statement
                             then statements else statements ++ [statement])).
  { destruct (GoString.TrimSpace_empty statement) eqn:Hblank; [exact Hall|].
    apply Forall_app. split; [exact Hall|]. constructor; [|constructor].
    apply HP. exact Hblank. }
  destruct (Scan s) as [[tok text] rest].
  destruct tok; try (apply IH; exact Hall).
  - exact Hclose.
  - destruct (Ascii.eqb c endOfStatement); apply IH; assumption.
Qed.

Lemma quoteFree_skip m s : quoteFree s = true -> quoteFree (skip m s) = true.
Proof.
  remember (String.length s) as n eqn:Hn.
  revert m s Hn. induction n as [n IH] using lt_wf_ind. intros m s Hn Hq.
  destruct s as [|c s']; [reflexivity|].
  simpl in Hn. pose proof Hq as Hq0. cbn [quoteFree] in Hq.
  apply andb_true_iff in Hq as [Hc Hs'].
  assert (Hgo : forall m', quoteFree (skip m' s') = true).
  { intros m'. apply (IH (String.length s')); auto; lia. }
  destruct m; cbn [skip].
  - destruct (Ascii.eqb c GoString.CR); [apply Hgo|].
    destruct (Ascii.eqb c "/"); [|exact Hq0].
    destruct s' as [|c' s'']; [exact Hq0|].
    cbn [quoteFree] in Hs'. apply andb_true_iff in Hs' as [Hc' Hs''].
    simpl in Hn.
    destruct (Ascii.eqb c' "/");
      [apply (IH (String.length s'')); auto; lia|].
    destruct (Ascii.eqb c' "*");
      [apply (IH (String.length s'')); auto; lia|exact Hq0].
  - destruct (Ascii.eqb c GoString.LF); [exact Hq0|apply Hgo].
  - destruct (Ascii.eqb c "*"); [|apply Hgo].
    destruct s' as [|c' s'']; [reflexivity|].
    pose proof Hs' as Hs0.
    cbn [quoteFree] in Hs'. apply andb_true_iff in Hs' as [Hc' Hs''].
    simpl in Hn.
    destruct (Ascii.eqb c' "/");
      [apply (IH (String.length s'')); auto; lia|].
    apply (IH (String.length (String c' s''))); auto. simpl. lia.
Qed.

Lemma uncomment_skip m s :
  uncomment m s =
  match skip m s with
  | EmptyString => EmptyString
  | String c s' => String c (uncomment Code s')
  end.
Proof.
  remember (String.length s) as n eqn:Hn.
  revert m s Hn. induction n as [n IH] using lt_wf_ind. intros m s Hn.
  destruct s as [|c s']; [reflexivity|].
  simpl in Hn.
  assert (Hgo : forall m', uncomment m' s' =
                           match skip m' s' with
                           | EmptyString => EmptyString
                           | String c0 s0 => String c0 (uncomment Code s0)
                           end).
  { intros m'. apply (IH (String.length s')); auto; lia. }
  destruct m; cbn [skip uncomment].
  - destruct (Ascii.eqb c GoString.CR); [apply Hgo|].
    destruct (Ascii.eqb c "/"); [|reflexivity].
    destruct s' as [|c' s'']; [reflexivity|]. simpl in Hn.
    destruct (Ascii.eqb c' "/");
      [apply (IH (String.length s'')); auto; lia|].
    destruct (Ascii.eqb c' "*");
      [apply (IH (String.length s'')); auto; lia|reflexivity].
  - destruct (Ascii.eqb c GoString.LF); [reflexivity|apply Hgo].
  - destruct (Ascii.eqb c "*"); [|apply Hgo].
    destruct s' as [|c' s'']; [reflexivity|]. simpl in Hn.
    destruct (Ascii.eqb c' "/");
      [apply (IH (String.length s'')); auto; lia|].
    apply (IH (String.length (String c' s''))); auto. simpl. lia.
Qed.

Lemma parseLoop_quoteFree s :
  forall fuel statement statements,
    quoteFree s = true -> String.length s < fuel ->
    parseLoop fuel s statement statements =
    statements ++ splitSpec (uncomment Code s) statement.
Proof.
  remember (String.length s) as n eqn:Hn.
  revert s Hn. induction n as [n IH] using lt_wf_ind.
  intros s Hn fuel statement statements Hq Hfuel.
  destruct fuel as [|fuel]; [lia|]. cbn [parseLoop].
  rewrite (uncomment_skip Code s). unfold Scan.
  pose proof (skip_shorter Code s) as Hshort.
  pose proof (quoteFree_skip Code s Hq) as Hq'.
  destruct (skip Code s) as [|c s'].
  - cbn. unfold closeStatement.
    destruct (GoString.TrimSpace_empty statement);
      [rewrite app_nil_r|]; reflexivity.
  - cbn [quoteFree] in Hq'. rewrite !andb_true_iff, !negb_true_iff in Hq'.
    destruct Hq' as [[Hdq Hbq] Hs']. rewrite Hdq, Hbq.
    simpl in Hshort. cbn [splitSpec].
    destruct (Ascii.eqb c endOfStatement).
    + rewrite (IH (String.length s')) by (auto; lia). unfold closeStatement.
      destruct (GoString.TrimSpace_empty statement);
        [reflexivity | rewrite <- app_assoc; reflexivity].
    + rewrite (IH (String.length s')) by (auto; lia). reflexivity.
Qed.

Lemma quoteFree_Init s : quoteFree s = true -> quoteFree (Init s) = true.
Proof.
  intros Hq. unfold Init.
  destruct s as [|b0 [|b1 [|b2 rest]]]; auto.
  destruct ((GoString.code b0 =? 239)%nat && (GoString.code b1 =? 187)%nat
            && (GoString.code b2 =? 191)%nat); [|exact Hq].
  cbn [quoteFree] in Hq. rewrite !andb_true_iff in Hq. tauto.
Qed.

Lemma Init_shorter s : String.length (Init s) <= String.length s.
Proof.
  unfold Init. destruct s as [|b0 [|b1 [|b2 rest]]]; auto.
  destruct ((GoString.code b0 =? 239)%nat && (GoString.code b1 =? 187)%nat
            && (GoString.code b2 =? 191)%nat); simpl; lia.
Qed.

Lemma parseStatements_uncomment_ (script : string) :
  quoteFree script = true ->
  parseStatements script = splitSpec (uncomment Code (Init script)) EmptyString.
Proof.
  intros Hq. unfold parseStatements.
  rewrite parseLoop_quoteFree.
  - reflexivity.
  - apply quoteFree_Init. exact Hq.
  - pose proof (Init_shorter script). lia.
Qed.

(** X5.  On a script without double quote and back quote, [parseStatements]
    is the splitter of the specification applied to the script without its
    byte-order mark, carriage returns and comments. *)
Theorem parseStatements_drops_comments (script : string) :
  quoteFree script = true ->
  parseStatements script = splitSpec (uncomment Code (Init script)) EmptyString.
Proof. apply parseStatements_uncomment_. Qed.

Lemma holds_app c a b : holds c (a ++ b)%string <-> holds c a \/ holds c b.
Proof.
  unfold holds. induction a as [|x a IH]; simpl.
  - tauto.
  - rewrite IH. tauto.
Qed.

Lemma splitSpec_chars s :
  forall acc st c,
    In st (splitSpec s acc) -> holds c st ->
    holds c acc \/ (holds c s /\ c <> endOfStatement).
Proof.
  induction s as [|x rest IH]; intros acc st c Hin Hc; cbn [splitSpec] in Hin.
  - unfold closeStatement in Hin.
    destruct (GoString.TrimSpace_empty acc); [destruct Hin|].
    destruct Hin as [<-|[]]. auto.
  - destruct (Ascii.eqb x endOfStatement) eqn:Hx.
    + apply in_app_or in Hin as [Hin|Hin].
      * unfold closeStatement in Hin.
        destruct (GoString.TrimSpace_empty acc); [destruct Hin|].
        destruct Hin as [<-|[]]. auto.
      * destruct (IH _ _ _ Hin Hc) as [Hacc|[Hrest Hne]]; [destruct Hacc|].
        right. split; [right; exact Hrest | exact Hne].
    + destruct (IH _ _ _ Hin Hc) as [Hacc|[Hrest Hne]].
      * apply holds_app in Hacc as [Hacc|[<-|[]]]; [auto|].
        right. split; [left; reflexivity|].
        intros ->. rewrite Ascii.eqb_refl in Hx. discriminate.
      * right. split; [right; exact Hrest | exact Hne].
Qed.

Lemma uncomment_chars m s c :
  holds c (uncomment m s) -> holds c s /\ c <> GoString.CR.
Proof.
  remember (String.length s) as n eqn:Hn.
  revert m s Hn. induction n as [n IH] using lt_wf_ind. intros m s Hn.
  destruct s as [|x s']; [intros []|].
  simpl in Hn.
  assert (Hgo : forall m', holds c (uncomment m' s') ->
                           holds c (String x s') /\ c <> GoString.CR).
  { intros m' H. apply (IH (String.length s')) in H; [|lia|reflexivity].
    split; [right|]; tauto. }
  assert (Hemit : Ascii.eqb x GoString.CR = false ->
                  holds c (String x (uncomment Code s')) ->
                  holds c (String x s') /\ c <> GoString.CR).
  { intros Hx [<-|H].
    - split; [left; reflexivity|].
      intros ->. rewrite Ascii.eqb_refl in Hx. discriminate.
    - apply (Hgo Code). exact H. }
  destruct m; cbn [uncomment].
  - destruct (Ascii.eqb x GoString.CR) eqn:Hcr; [apply Hgo|].
    destruct (Ascii.eqb x "/"); [|apply Hemit; reflexivity].
    destruct s' as [|x' s'']; [apply (Hemit eq_refl)|]. simpl in Hn.
    destruct (Ascii.eqb x' "/").
    { intros H. apply (IH (String.length s'')) in H; [|lia|reflexivity].
      split; [right; right|]; tauto. }
    destruct (Ascii.eqb x' "*"); [|apply Hemit; reflexivity].
    intros H. apply (IH (String.length s'')) in H; [|lia|reflexivity].
    split; [right; right|]; tauto.
  - destruct (Ascii.eqb x GoString.LF) eqn:Hlf; [|apply Hgo].
    apply Hemit. apply Ascii.eqb_eq in Hlf. subst x. reflexivity.
  - destruct (Ascii.eqb x "*"); [|apply Hgo].
    destruct s' as [|x' s'']; [intros []|]. simpl in Hn.
    destruct (Ascii.eqb x' "/"); [|apply Hgo].
    intros H. apply (IH (String.length s'')) in H; [|lia|reflexivity].
    split; [right; right|]; tauto.
Qed.

Lemma Init_chars s c : holds c (Init s) -> holds c s.
Proof.
  unfold Init. destruct s as [|b0 [|b1 [|b2 rest]]]; auto.
  destruct ((GoString.code b0 =? 239)%nat && (GoString.code b1 =? 187)%nat
            && (GoString.code b2 =? 191)%nat); [|auto].
  intros H. right. right. right. exact H.
Qed.

(** X6.  No statement [parseStatements] returns is blank; and on a script
    without double quote and back quote every byte of a statement is a byte
    of the script, and none is the semicolon or the carriage return. *)
Theorem parseStatements_statements (script : string) :
  Forall nonBlank (parseStatements script) /\
  (quoteFree script = true ->
   Forall (fun st => forall c, holds c st ->
                               holds c script /\ c <> endOfStatement
                               /\ c <> GoString.CR)
          (parseStatements script)).
Proof.
  split.
  - unfold parseStatements. apply parseLoop_keeps; [auto | constructor].
  - intros Hq. rewrite (parseStatements_uncomment_ script Hq).
    apply Forall_forall. intros st Hin c Hc.
    destruct (splitSpec_chars _ _ _ _ Hin Hc) as [[]|[Hu Hne]].
    apply uncomment_chars in Hu as [Hs Hcr].
    split; [apply Init_chars; exact Hs | split; assumption].
Qed.

Lemma asciiSpace_facts c :
  asciiSpace c = true ->
  GoString.between 0 127 c = true /\
  GoString.IsSpace (N_of_ascii c) = true /\
  Ascii.eqb c GoString.DQUOTE = false /\ Ascii.eqb c GoString.BQUOTE = false /\
  Ascii.eqb c "/" = false /\ Ascii.eqb c endOfStatement = false.
Proof.
  destruct c as [[] [] [] [] [] [] [] []]; intros H; try discriminate H;
    repeat split; reflexivity.
Qed.

Lemma asciiBlank_app a b :
  asciiBlank a = true -> asciiBlank b = true -> asciiBlank (a ++ b) = true.
Proof.
  intros Ha Hb. induction a as [|c a IH]; [exact Hb|].
  cbn [asciiBlank String.append] in *.
  apply andb_true_iff in Ha as [Hc Ha]. rewrite Hc. auto.
Qed.

Lemma TrimSpace_asciiBlank s :
  asciiBlank s = true -> GoString.TrimSpace_empty s = true.
Proof.
  unfold GoString.TrimSpace_empty, GoString.runes.
  induction s as [|c s IH]; [reflexivity|].
  cbn [asciiBlank]. intros H. apply andb_true_iff in H as [Hc Hs].
  apply asciiSpace_facts in Hc as (Hlow & Hsp & _).
  cbn [GoString.decode]. rewrite Hlow. cbn [map fst forallb].
  rewrite Hsp. auto.
Qed.

Lemma asciiBlank_quoteFree s : asciiBlank s = true -> quoteFree s = true.
Proof.
  induction s as [|c s IH]; [reflexivity|].
  cbn [asciiBlank quoteFree]. intros H. apply andb_true_iff in H as [Hc Hs].
  apply asciiSpace_facts in Hc as (_ & _ & -> & -> & _). auto.
Qed.

Lemma asciiBlank_uncomment s :
  asciiBlank s = true -> asciiBlank (uncomment Code s) = true.
Proof.
  induction s as [|c s IH]; [reflexivity|].
  cbn [asciiBlank uncomment]. intros H. apply andb_true_iff in H as [Hc Hs].
  pose proof (asciiSpace_facts _ Hc) as (_ & _ & _ & _ & -> & _).
  destruct (Ascii.eqb c GoString.CR); [auto|].
  cbn [asciiBlank]. rewrite Hc. auto.
Qed.

Lemma asciiBlank_Init s : asciiBlank s = true -> asciiBlank (Init s) = true.
Proof.
  intros H. unfold Init. destruct s as [|b0 [|b1 [|b2 rest]]]; auto.
  destruct ((GoString.code b0 =? 239)%nat && (GoString.code b1 =? 187)%nat
            && (GoString.code b2 =? 191)%nat); [|exact H].
  cbn [asciiBlank] in H. rewrite !andb_true_iff in H. tauto.
Qed.

Lemma splitSpec_asciiBlank s :
  forall acc, asciiBlank s = true -> asciiBlank acc = true ->
              splitSpec s acc = [].
Proof.
  induction s as [|c s IH]; intros acc Hs Hacc; cbn [splitSpec].
  - unfold closeStatement. rewrite TrimSpace_asciiBlank; auto.
  - cbn [asciiBlank] in Hs. apply andb_true_iff in Hs as [Hc Hs].
    pose proof (asciiSpace_facts _ Hc) as (_ & _ & _ & _ & _ & ->).
    apply IH; [exact Hs|]. apply asciiBlank_app; [exact Hacc|].
    cbn [asciiBlank]. rewrite Hc. reflexivity.
Qed.

Lemma parseStatements_asciiBlank script :
  asciiBlank script = true -> parseStatements script = [].
Proof.
  intros H. rewrite parseStatements_uncomment_ by (apply asciiBlank_quoteFree; exact H).
  apply splitSpec_asciiBlank; [|reflexivity].
  apply asciiBlank_uncomment, asciiBlank_Init. exact H.
Qed.

End SplitterMore.

(** ** More of the files: names, versions and resolution *)

Section Names.

Import GoString.

Lemma between_bounds lo hi c :
  between lo hi c = true <->
  (N.of_nat lo <= N_of_ascii c <= N.of_nat hi)%N.
Proof.
  unfold between, code, nat_of_ascii.
  rewrite andb_true_iff, !Nat.leb_le. lia.
Qed.

Lemma between_out lo hi c :
  between lo hi c = false ->
  (N_of_ascii c < N.of_nat lo \/ N.of_nat hi < N_of_ascii c)%N.
Proof.
  unfold between, code, nat_of_ascii.
  rewrite andb_false_iff, !Nat.leb_gt. lia.
Qed.

Lemma byte_bound c : (N_of_ascii c < 256)%N.
Proof. apply N_ascii_bounded. Qed.

(** The first rune of a non-empty string: an ASCII byte is its own rune;
    anything else yields a rune of 128 or more and consumes, besides the
    first byte, at most three bytes, none of them ASCII. *)
Lemma decode_head b0 s0 :
  exists r w rest,
    decode (String b0 s0) = (r, w) :: decode rest /\
    ((between 0 127 b0 = true /\ r = N_of_ascii b0 /\ rest = s0)
     \/
     (between 0 127 b0 = false /\ (128 <= r)%N /\
      exists pre, s0 = (pre ++ rest)%string /\
                  forall c, holds c pre -> cont c = true)).
Proof.
  assert (Hbad : between 0 127 b0 = false ->
                 exists r w rest,
                   (RuneError, 1%nat) :: decode s0 = (r, w) :: decode rest /\
                   ((between 0 127 b0 = true /\ r = N_of_ascii b0 /\ rest = s0)
                    \/
                    (between 0 127 b0 = false /\ (128 <= r)%N /\
                     exists pre, s0 = (pre ++ rest)%string /\
                                 forall c, holds c pre -> cont c = true))).
  { intros H0. exists RuneError, 1%nat, s0. split; [reflexivity|]. right.
    split; [exact H0|]. split; [unfold RuneError; lia|].
    exists EmptyString. split; [reflexivity | intros c []]. }
  cbn [decode].
  destruct (between 0 127 b0) eqn:H0.
  { exists (N_of_ascii b0), 1%nat, s0. split; [reflexivity|]. left. auto. }
  specialize (Hbad eq_refl).
  destruct (between 194 223 b0) eqn:H1.
  { destruct s0 as [|b1 s1]; [exact Hbad|].
    destruct (cont b1) eqn:Hc1; [|exact Hbad].
    eexists _, _, s1. split; [reflexivity|]. right. split; [reflexivity|].
    apply between_bounds in H1. unfold cont in Hc1.
    apply between_bounds in Hc1. unfold low6. split; [lia|].
    exists (String b1 EmptyString). split; [reflexivity|].
    intros c [<-|[]]. unfold cont. apply between_bounds. lia. }
  destruct (between 224 239 b0) eqn:H2.
  { destruct s0 as [|b1 [|b2 s2]]; try exact Hbad.
    destruct ((if (code b0 =? 224)%nat then between 160 191 b1
               else if (code b0 =? 237)%nat then between 128 159 b1
                    else cont b1) && cont b2) eqn:Hc; [|exact Hbad].
    apply andb_true_iff in Hc as [Hc1 Hc2].
    eexists _, _, s2. split; [reflexivity|]. right. split; [reflexivity|].
    apply between_bounds in H2. unfold cont in Hc2.
    apply between_bounds in Hc2.
    assert (Hb1 : (128 <= N_of_ascii b1 <= 191)%N /\
                  (N_of_ascii b0 = 224 -> 160 <= N_of_ascii b1)%N).
    { unfold code, nat_of_ascii in Hc1.
      destruct (N.to_nat (N_of_ascii b0) =? 224)%nat eqn:E0.
      - apply between_bounds in Hc1. lia.
      - apply Nat.eqb_neq in E0.
        destruct (N.to_nat (N_of_ascii b0) =? 237)%nat;
          [|unfold cont in Hc1]; apply between_bounds in Hc1; lia. }
    unfold low6. split; [lia|].
    exists (String b1 (String b2 EmptyString)). split; [reflexivity|].
    intros c [<-|[<-|[]]]; unfold cont; apply between_bounds; lia. }
  destruct (between 240 244 b0) eqn:H3; [|exact Hbad].
  destruct s0 as [|b1 [|b2 [|b3 s3]]]; try exact Hbad.
  destruct ((if (code b0 =? 240)%nat then between 144 191 b1
             else if (code b0 =? 244)%nat then between 128 143 b1
                  else cont b1) && cont b2 && cont b3) eqn:Hc; [|exact Hbad].
  apply andb_true_iff in Hc as [Hc Hc3].
  apply andb_true_iff in Hc as [Hc1 Hc2].
  eexists _, _, s3. split; [reflexivity|]. right. split; [reflexivity|].
  apply between_bounds in H3. unfold cont in Hc2, Hc3.
  apply between_bounds in Hc2. apply between_bounds in Hc3.
  assert (Hb1 : (128 <= N_of_ascii b1 <= 191)%N /\
                (N_of_ascii b0 = 240 -> 144 <= N_of_ascii b1)%N).
  { unfold code, nat_of_ascii in Hc1.
    destruct (N.to_nat (N_of_ascii b0) =? 240)%nat eqn:E0.
    - apply between_bounds in Hc1. lia.
    - apply Nat.eqb_neq in E0.
      destruct (N.to_nat (N_of_ascii b0) =? 244)%nat;
        [|unfold cont in Hc1]; apply between_bounds in Hc1; lia. }
  unfold low6. split; [lia|].
  exists (String b1 (String b2 (String b3 EmptyString))). split; [reflexivity|].
  intros c [<-|[<-|[<-|[]]]]; unfold cont; apply between_bounds; lia.
Qed.

Lemma append_length (a b : string) :
  String.length (a ++ b) = String.length a + String.length b.
Proof. induction a as [|c a IH]; simpl; [reflexivity | rewrite IH; reflexivity]. Qed.

Lemma append_assoc (a b c : string) : ((a ++ b) ++ c = a ++ (b ++ c))%string.
Proof. induction a as [|x a IH]; simpl; [reflexivity | rewrite IH; reflexivity]. Qed.

Lemma runes_cons b0 s0 :
  exists r rest,
    runes (String b0 s0) = r :: runes rest /\
    String.length rest <= String.length s0 /\
    ((between 0 127 b0 = true /\ r = N_of_ascii b0 /\ rest = s0)
     \/
     (between 0 127 b0 = false /\ (128 <= r)%N /\
      exists pre, s0 = (pre ++ rest)%string /\
                  forall c, holds c pre -> cont c = true)).
Proof.
  destruct (decode_head b0 s0) as (r & w & rest & Hd & H).
  exists r, rest. unfold runes. rewrite Hd. split; [reflexivity|].
  split; [|exact H].
  destruct H as [(_ & _ & ->)|(_ & _ & pre & -> & _)]; [lia|].
  rewrite append_length. lia.
Qed.

Lemma N_of_ascii_inj a b : N_of_ascii a = N_of_ascii b -> a = b.
Proof.
  intros H. rewrite <- (ascii_N_embedding a), <- (ascii_N_embedding b), H.
  reflexivity.
Qed.

Lemma runes_nil s : runes s = [] -> s = EmptyString.
Proof.
  destruct s as [|b0 s0]; [reflexivity|].
  destruct (runes_cons b0 s0) as (r & rest & -> & _). discriminate.
Qed.

(** A string whose runes are those of an ASCII string is that string. *)
Lemma runes_ascii_inj t :
  (forall c, holds c t -> between 0 127 c = true) ->
  forall s, runes s = runes t -> s = t.
Proof.
  induction t as [|c t IH]; intros Hascii s Hs.
  - apply runes_nil. exact Hs.
  - assert (Hc : between 0 127 c = true) by (apply Hascii; left; reflexivity).
    unfold runes in Hs at 2. cbn [decode] in Hs. rewrite Hc in Hs.
    cbn [map fst] in Hs. fold (runes t) in Hs.
    destruct s as [|b0 s0]; [discriminate Hs|].
    destruct (runes_cons b0 s0) as (r & rest & Hr & _ & Hcase).
    rewrite Hr in Hs. inversion Hs as [[Hhead Htail]].
    destruct Hcase as [(_ & -> & ->)|(_ & Hbig & _)].
    + apply N_of_ascii_inj in Hhead. subst b0. f_equal.
      apply IH; [|exact Htail]. intros x Hx. apply Hascii. right. exact Hx.
    + apply between_bounds in Hc. lia.
Qed.

Lemma dotStarSql_step r l :
  dotStarSql (r :: l) = true <->
  r :: l = dotSql \/ ((r =? 10)%N = false /\ dotStarSql l = true).
Proof.
  cbn [dotStarSql]. change (runes ".sql") with dotSql.
  destruct (list_eq_dec N.eq_dec (r :: l) dotSql) as [Heq|Hne].
  - cbn. tauto.
  - cbn [orb]. rewrite andb_true_iff, negb_true_iff. tauto.
Qed.

Lemma cont_not_LF c : cont c = true -> c <> LF.
Proof.
  intros H ->. unfold cont in H. apply between_bounds in H. cbn in H. lia.
Qed.

(** A prefix without full stop ends before the extension. *)
Lemma dotless_prefix pre :
  (forall c, holds c pre -> c <> "."%char) ->
  forall a rest,
    (a ++ ".sql")%string = (pre ++ rest)%string ->
    exists a', a = (pre ++ a')%string /\ rest = (a' ++ ".sql")%string.
Proof.
  induction pre as [|p pre IH]; intros Hdot a rest Heq.
  - exists a. split; [reflexivity | symmetry; exact Heq].
  - assert (Hp : p <> "."%char) by (apply Hdot; left; reflexivity).
    destruct a as [|x a].
    + cbn in Heq. inversion Heq; subst. congruence.
    + cbn in Heq. inversion Heq; subst.
      destruct (IH (fun c Hc => Hdot c (or_intror Hc)) a rest H1)
        as (a' & -> & ->).
      exists a'. split; reflexivity.
Qed.

Lemma cont_prefix pre :
  (forall c, holds c pre -> cont c = true) ->
  forall a rest,
    (a ++ ".sql")%string = (pre ++ rest)%string ->
    exists a', a = (pre ++ a')%string /\ rest = (a' ++ ".sql")%string.
Proof.
  intros Hcont. apply dotless_prefix. intros c Hc ->.
  specialize (Hcont _ Hc). discriminate Hcont.
Qed.

(** The pattern [.*\.sql$] on bytes: a stem without line feed, then the
    extension. *)
Lemma dotStarSql_bytes s :
  dotStarSql (runes s) = true <->
  exists stem, s = (stem ++ ".sql")%string /\ ~ holds LF stem.
Proof.
  split.
  - remember (String.length s) as n eqn:Hn.
    revert s Hn. induction n as [n IH] using lt_wf_ind. intros s Hn H.
    destruct s as [|b0 s0]; [discriminate H|].
    destruct (runes_cons b0 s0) as (r & rest & Hr & Hlen & Hcase).
    rewrite Hr in H. apply dotStarSql_step in H as [Heq|[Hr10 Hrest]].
    + exists EmptyString. split; [|intros []].
      apply runes_ascii_inj.
      * intros c [<-|[<-|[<-|[<-|[]]]]]; reflexivity.
      * rewrite Hr. exact Heq.
    + simpl in Hn.
      destruct (IH (String.length rest) ltac:(lia) rest eq_refl Hrest)
        as (stem & Hrest' & Hstem).
      destruct Hcase as [(H0 & Hr' & Hs0)|(H0 & Hbig & pre & Hs0 & Hpre)];
        subst s0.
      * subst r rest. exists (String b0 stem). split; [reflexivity|].
        intros [Heq|Hin]; [|exact (Hstem Hin)].
        subst b0. cbn in Hr10. discriminate Hr10.
      * subst rest. exists (String b0 (pre ++ stem)). split.
        { cbn. rewrite append_assoc. reflexivity. }
        intros [Heq|Hin]; [subst b0; discriminate H0|].
        apply holds_app in Hin as [Hin|Hin]; [|exact (Hstem Hin)].
        exact (cont_not_LF _ (Hpre _ Hin) eq_refl).
  - intros (stem & -> & Hstem).
    remember (String.length stem) as n eqn:Hn.
    revert stem Hn Hstem. induction n as [n IH] using lt_wf_ind.
    intros stem Hn Hstem.
    destruct stem as [|b0 st0]; [reflexivity|].
    cbn [String.append].
    destruct (runes_cons b0 (st0 ++ ".sql")) as (r & rest & Hr & _ & Hcase).
    rewrite Hr. apply dotStarSql_step. right. simpl in Hn.
    assert (Hst0 : ~ holds LF st0) by (intros Hin; apply Hstem; right; exact Hin).
    destruct Hcase as [(H0 & -> & ->)|(H0 & Hbig & pre & Heq & Hpre)].
    + split; [|apply (IH (String.length st0)); auto; lia].
      apply N.eqb_neq. intros H10. apply Hstem. left.
      apply N_of_ascii_inj. rewrite H10. reflexivity.
    + split; [apply N.eqb_neq; lia|].
      destruct (cont_prefix pre Hpre st0 rest Heq) as (a' & -> & ->).
      apply (IH (String.length a')); auto.
      * rewrite append_length in Hn. lia.
      * intros Hin. apply Hst0. apply holds_app. right. exact Hin.
Qed.

Lemma isDecimal_ascii c : isDecimal c = true -> between 0 127 c = true.
Proof.
  unfold isDecimal. rewrite !between_bounds. cbn. lia.
Qed.

Lemma isDecimal_rune c :
  isDecimal c = ((48 <=? N_of_ascii c) && (N_of_ascii c <=? 57))%N.
Proof.
  apply eq_true_iff_eq. unfold isDecimal.
  rewrite between_bounds, andb_true_iff, !N.leb_le. cbn. lia.
Qed.

Lemma runes_ascii c s :
  between 0 127 c = true -> runes (String c s) = N_of_ascii c :: runes s.
Proof.
  intros H. unfold runes. cbn [decode]. rewrite H. reflexivity.
Qed.

(** The first rune is a digit exactly when the first byte is. *)
Lemma first_rune_digit b0 s0 :
  match runes (String b0 s0) with
  | d :: rest =>
    ((48 <=? d) && (d <=? 57))%N = isDecimal b0 /\
    (isDecimal b0 = true -> rest = runes s0)
  | [] => False
  end.
Proof.
  destruct (runes_cons b0 s0) as (r & rest & -> & _ & Hcase).
  destruct Hcase as [(H0 & -> & ->)|(H0 & Hbig & _)].
  - split; [symmetry; apply isDecimal_rune | reflexivity].
  - assert (Hd : isDecimal b0 = false).
    { destruct (isDecimal b0) eqn:Hd; [|reflexivity].
      apply isDecimal_ascii in Hd. congruence. }
    rewrite Hd. split; [|discriminate].
    apply andb_false_iff. right. apply N.leb_gt. lia.
Qed.

(** [migrationFileRegexp] on bytes: a digit, a stem without line feed,
    the extension. *)
Lemma migrationFileRegexp_digit_stem name :
  migrationFileRegexp name = true <->
  exists d stem,
    name = String d (stem ++ ".sql") /\ isDecimal d = true /\ ~ holds LF stem.
Proof.
  unfold migrationFileRegexp. split.
  - destruct name as [|b0 s0]; [discriminate|].
    pose proof (first_rune_digit b0 s0) as Hfirst.
    destruct (runes (String b0 s0)) as [|d rest]; [destruct Hfirst|].
    destruct Hfirst as [Hd Hrest]. rewrite Hd. intros H.
    apply andb_true_iff in H as [Hdigit Htail].
    rewrite (Hrest Hdigit) in Htail.
    apply dotStarSql_bytes in Htail as (stem & -> & Hstem).
    exists b0, stem. auto.
  - intros (d & stem & -> & Hd & Hstem).
    rewrite (runes_ascii _ _ (isDecimal_ascii _ Hd)).
    rewrite <- isDecimal_rune, Hd. cbn [andb].
    apply dotStarSql_bytes. exists stem. auto.
Qed.

(** Stripping the runes of a string of digits strips its bytes. *)
Lemma stripPrefix_digits ver :
  allDigits ver = true ->
  forall name,
    match stripPrefix (runes ver) (runes name) with
    | Some rest => exists tail, name = (ver ++ tail)%string /\ rest = runes tail
    | None => forall tail, name <> (ver ++ tail)%string
    end.
Proof.
  induction ver as [|c ver IH]; intros Hdigits name.
  - cbn. exists name. auto.
  - cbn [allDigits] in Hdigits. apply andb_true_iff in Hdigits as [Hc Hver].
    rewrite (runes_ascii _ _ (isDecimal_ascii _ Hc)).
    destruct name as [|b0 s0]; [cbn; intros tail; discriminate|].
    destruct (runes_cons b0 s0) as (r & rest & -> & _ & Hcase).
    cbn [stripPrefix].
    destruct (N.eqb_spec (N_of_ascii c) r) as [Heq|Hne].
    + destruct Hcase as [(H0 & -> & ->)|(H0 & Hbig & _)].
      * apply N_of_ascii_inj in Heq. subst b0.
        specialize (IH Hver s0).
        destruct (stripPrefix (runes ver) (runes s0)) as [l|].
        -- destruct IH as (tail & -> & ->). exists tail. auto.
        -- intros tail Heq. inversion Heq. exact (IH _ H1).
      * apply isDecimal_ascii, between_bounds in Hc. cbn in Hc. lia.
    + intros tail Heq. inversion Heq; subst.
      destruct Hcase as [(H0 & -> & _)|(H0 & _)]; [congruence|].
      apply isDecimal_ascii in Hc. congruence.
Qed.

(** [versionFileRegexp] on bytes, for a version made of digits: the
    version, a stem without line feed, the extension. *)
Lemma versionFileRegexp_digits ver name :
  allDigits ver = true ->
  (versionFileRegexp ver name = true <->
   exists stem, name = (ver ++ stem ++ ".sql")%string /\ ~ holds LF stem).
Proof.
  intros Hver. unfold versionFileRegexp.
  pose proof (stripPrefix_digits ver Hver name) as Hstrip.
  destruct (stripPrefix (runes ver) (runes name)) as [rest|].
  - destruct Hstrip as (tail & -> & ->). rewrite dotStarSql_bytes.
    split; intros (stem & Heq & Hstem); exists stem; split; auto.
    + rewrite Heq. reflexivity.
    + revert Heq. clear. induction ver as [|c ver IH]; cbn; intros H.
      * exact H.
      * inversion H. auto.
  - split; [discriminate|]. intros (stem & Heq & _).
    exfalso. exact (Hstrip _ Heq).
Qed.

Lemma migrationVersion_digits f : allDigits (migrationVersion f) = true.
Proof.
  induction f as [|c f IH]; [reflexivity|]. cbn [migrationVersion].
  destruct (isDecimal c) eqn:Hc; [|reflexivity].
  cbn [allDigits]. rewrite Hc. exact IH.
Qed.

Lemma migrationVersion_split f :
  exists rest, f = (migrationVersion f ++ rest)%string /\
               startsWithDigit rest = false.
Proof.
  induction f as [|c f (rest & IH & Hrest)].
  - exists EmptyString. auto.
  - cbn [migrationVersion]. destruct (isDecimal c) eqn:Hc.
    + exists rest. cbn. rewrite <- IH. auto.
    + exists (String c f). cbn. auto.
Qed.

Lemma migrationVersion_app ver rest :
  allDigits ver = true -> startsWithDigit rest = false ->
  migrationVersion (ver ++ rest) = ver.
Proof.
  intros Hver Hrest. induction ver as [|c ver IH].
  - destruct rest as [|x rest]; [reflexivity|].
    cbn in *. rewrite Hrest. reflexivity.
  - cbn [allDigits] in Hver. apply andb_true_iff in Hver as [Hc Hver].
    cbn. rewrite Hc, IH by exact Hver. reflexivity.
Qed.

End Names.

Section Resolving.

Import GoString.

Context {S : Type} (E : Env S).

Lemma version_stem stem :
  exists stem',
    (stem ++ ".sql")%string
    = (migrationVersion (stem ++ ".sql") ++ stem' ++ ".sql")%string /\
    startsWithDigit (stem' ++ ".sql") = false /\
    (~ holds LF stem -> ~ holds LF stem').
Proof.
  induction stem as [|c stem (stem' & IH & Hstart & Hlf)].
  - exists EmptyString. repeat split; auto.
  - cbn [String.append migrationVersion]. destruct (isDecimal c) eqn:Hc.
    + exists stem'. cbn [String.append]. rewrite <- IH.
      repeat split; auto. intros H. apply Hlf. intros Hin. apply H.
      right. exact Hin.
    + exists (String c stem). cbn. rewrite Hc. auto.
Qed.

Lemma QuoteMeta_digits ver : allDigits ver = true -> QuoteMeta ver = ver.
Proof.
  induction ver as [|c ver IH]; [reflexivity|].
  cbn [allDigits QuoteMeta]. intros H. apply andb_true_iff in H as [Hc Hver].
  rewrite IH by exact Hver.
  assert (Hmeta : isMeta c = false).
  { unfold isDecimal in Hc. apply between_bounds in Hc.
    unfold isMeta. cbn [list_ascii_of_string existsb].
    repeat match goal with
           | |- context [Ascii.eqb c ?x] =>
             let Hx := fresh in
             destruct (Ascii.eqb_spec c x) as [Hx|Hx];
               [subst c; cbn in Hc; lia|]
           end.
    reflexivity. }
  rewrite Hmeta. reflexivity.
Qed.

Lemma ValidString_digits ver : allDigits ver = true -> ValidString ver = true.
Proof.
  unfold ValidString. induction ver as [|c ver IH]; [reflexivity|].
  cbn [allDigits]. intros H. apply andb_true_iff in H as [Hc Hver].
  cbn [decode]. rewrite (isDecimal_ascii _ Hc). cbn [forallb fst snd].
  rewrite IH by exact Hver.
  assert (Hne : (N_of_ascii c =? RuneError)%N = false).
  { apply N.eqb_neq. pose proof (byte_bound c). unfold RuneError. lia. }
  rewrite Hne. reflexivity.
Qed.

Lemma prefix_append a b : String.prefix a (a ++ b) = true.
Proof.
  induction a as [|c a IH]; cbn.
  - destruct b; reflexivity.
  - destruct (ascii_dec c c); [exact IH | congruence].
Qed.

Lemma prefix_split a :
  forall h, String.prefix a h = true -> exists tail, h = (a ++ tail)%string.
Proof.
  induction a as [|c a IH]; intros h H.
  - exists h. reflexivity.
  - destruct h as [|x h]; [discriminate H|]. cbn in H.
    destruct (ascii_dec c x) as [->|]; [|discriminate H].
    destruct (IH h H) as (tail & ->). exists tail. reflexivity.
Qed.

Lemma discovered_name f :
  migrationFileRegexp f = true ->
  exists stem,
    f = (migrationVersion f ++ stem ++ ".sql")%string /\
    migrationVersion f <> EmptyString /\
    allDigits (migrationVersion f) = true /\
    startsWithDigit (stem ++ ".sql") = false /\
    ~ holds LF stem.
Proof.
  intros H. apply migrationFileRegexp_digit_stem in H
    as (d & stem & -> & Hd & Hstem).
  destruct (version_stem stem) as (stem' & Heq & Hstart & Hlf).
  exists stem'. cbn [migrationVersion]. rewrite Hd.
  split; [cbn [String.append]; rewrite <- Heq; reflexivity|].
  split; [discriminate|].
  split; [cbn [allDigits]; rewrite Hd; apply migrationVersion_digits|].
  auto.
Qed.

Lemma digits_dotless ver :
  allDigits ver = true -> forall c, holds c ver -> c <> "."%char.
Proof.
  induction ver as [|x ver IH]; intros Hver c Hc; [destruct Hc|].
  cbn [allDigits] in Hver. apply andb_true_iff in Hver as [Hx Hver].
  destruct Hc as [<-|Hc]; [|exact (IH Hver c Hc)].
  intros ->. discriminate Hx.
Qed.

Lemma digits_not_LF ver :
  allDigits ver = true -> ~ holds LF ver.
Proof.
  induction ver as [|x ver IH]; intros Hver Hc; [destruct Hc|].
  cbn [allDigits] in Hver. apply andb_true_iff in Hver as [Hx Hver].
  destruct Hc as [Heq|Hc]; [|exact (IH Hver Hc)].
  subst x. discriminate Hx.
Qed.

(** Among the names [migrationFileRegexp] accepts, [versionFileRegexp]
    accepts those that start with the version. *)
Lemma versionFileRegexp_prefix ver h :
  allDigits ver = true -> ver <> EmptyString ->
  (versionFileRegexp ver h = true <->
   migrationFileRegexp h = true /\ String.prefix ver h = true).
Proof.
  intros Hver Hne. rewrite (versionFileRegexp_digits ver h Hver). split.
  - intros (stem & -> & Hstem). split; [|apply prefix_append].
    destruct ver as [|d ver]; [congruence|].
    cbn [allDigits] in Hver. apply andb_true_iff in Hver as [Hd Hver].
    apply migrationFileRegexp_digit_stem. exists d, (ver ++ stem)%string.
    split; [cbn; rewrite append_assoc; reflexivity|].
    split; [exact Hd|]. intros Hin. apply holds_app in Hin as [Hin|Hin].
    + exact (digits_not_LF _ Hver Hin).
    + exact (Hstem Hin).
  - intros [Hre Hpre].
    apply migrationFileRegexp_digit_stem in Hre as (d & stem & -> & Hd & Hstem).
    apply prefix_split in Hpre as (tail & Hsplit).
    destruct (dotless_prefix ver (digits_dotless ver Hver)
                             (String d stem) tail Hsplit) as (a' & Ha & ->).
    exists a'. split; [exact Hsplit|].
    intros Hin.
    assert (Hboth : holds LF (String d stem)).
    { rewrite Ha. apply holds_app. right. exact Hin. }
    destruct Hboth as [Heq|Hboth]; [subst d; discriminate Hd | exact (Hstem Hboth)].
Qed.

(** X12.  The version of a discovered file resolves to a discovered file:
    the least name, in byte-wise order, that starts with the version. *)
Theorem findMigrationFile_resolves
        (dir : string) (fuel : nat) (s : S) (ents : list FileInfo) (f : string) :
  ReadDir E dir s = Ok ents ->
  In f (discovered ents) ->
  exists g,
    findMigrationFile E dir (migrationVersion f) fuel s = Some (Ok g, s, []) /\
    In g (discovered ents) /\
    String.prefix (migrationVersion f) g = true /\
    String.leb g f = true /\
    (forall h, In h (discovered ents) ->
               String.prefix (migrationVersion f) h = true ->
               String.leb g h = true) /\
    ((forall h, In h (discovered ents) ->
                String.prefix (migrationVersion f) h = true -> h = f) ->
     g = f).
Proof.
  intros Hdir Hf.
  pose proof Hf as Hfile. apply discovered_matching in Hfile
    as (file & Hin & Hname & Hisdir & Hre).
  destruct (discovered_name f Hre) as (stem & Hsplit & Hne & Hver & _ & Hstem).
  set (ver := migrationVersion f) in *.
  assert (Hmatch : forall h, In h (discovered ents) ->
                             String.prefix ver h = true ->
                             versionFileRegexp ver h = true).
  { intros h Hh Hpre. apply versionFileRegexp_prefix; auto.
    apply discovered_matching in Hh as (_ & _ & _ & _ & Hh). auto. }
  assert (Hfpre : String.prefix ver f = true)
    by (rewrite Hsplit; apply prefix_append).
  set (found := StringSort.sort
                  (map Name (filter (fun file => negb (IsDir file)
                                                 && versionFileRegexp ver (Name file))
                                    ents))).
  assert (Hfound : forall h, In h found <->
                             In h (discovered ents) /\ String.prefix ver h = true).
  { intros h. unfold found. split.
    - intros Hh.
      eapply Permutation_in in Hh;
        [|apply Permutation_sym, StringSort.Permuted_sort].
      apply in_map_iff in Hh as (file' & <- & Hh).
      apply filter_In in Hh as (Hh & Hok).
      apply andb_true_iff in Hok as [Hd Hv]. apply negb_true_iff in Hd.
      apply versionFileRegexp_prefix in Hv as [Hv Hp]; auto.
      split; [|exact Hp]. apply discovered_matching. eauto.
    - intros [Hh Hp].
      pose proof (Hmatch h Hh Hp) as Hv.
      apply discovered_matching in Hh as (file' & Hin' & <- & Hd & _).
      eapply Permutation_in; [apply StringSort.Permuted_sort|].
      apply in_map, filter_In. split; [exact Hin'|].
      rewrite Hd, Hv. reflexivity. }
  assert (Hsorted : ascending found) by apply StringSort.Sorted_sort.
  assert (Hrun : findMigrationFile E dir ver fuel s =
                 Some (match found with
                       | [] => Err ("can't find migration file: " ++ ver ++ "*.sql")%string
                       | g :: _ => Ok g
                       end, s, [])).
  { unfold findMigrationFile.
    destruct (String.eqb_spec ver ""); [congruence|].
    rewrite (QuoteMeta_digits ver Hver), (ValidString_digits ver Hver).
    cbn [negb]. rewrite (bind_run _ _ _ _ _ _ _
                                  (findMigrationFiles_run E dir _ fuel s)).
    rewrite Hdir. fold found. destruct found; reflexivity. }
  assert (Hfin : In f found) by (apply Hfound; auto).
  destruct found as [|g rest] eqn:Hlist; [destruct Hfin|].
  exists g. split; [exact Hrun|].
  assert (Hg : In g (discovered ents) /\ String.prefix ver g = true)
    by (apply Hfound; left; reflexivity).
  assert (Hleast : forall h, In h (g :: rest) -> String.leb g h = true).
  { apply ascending_strongly in Hsorted.
    inversion Hsorted as [|? ? _ Hall]; subst.
    intros h [<-|Hh].
    - apply leb_iff. left. reflexivity.
    - rewrite Forall_forall in Hall. auto. }
  destruct Hg as [Hg Hgpre].
  repeat split; auto.
  - intros h Hh Hp. apply Hleast, Hfound. auto.
Qed.

(** X9.  [findMigrationFiles] always returns and changes nothing. When the
    directory cannot be read the error names the directory (the cause is
    dropped); otherwise the result holds, in ascending byte-wise order, the
    name of every entry that is not a directory and that the pattern
    accepts, as often as the listing has it. *)
Theorem findMigrationFiles_sorted_matches
        (dir : string) (re : Regexp) (fuel : nat) (s : S) :
  exists r,
    findMigrationFiles E dir re fuel s = Some (r, s, []) /\
    match ReadDir E dir s with
    | Err _ =>
      r = Err ("could not find migrations directory `" ++ dir ++ "`")%string
    | Ok ents =>
      exists files,
        r = Ok files /\ ascending files /\
        Permutation (matching re ents) files /\
        (forall f, In f files <->
                   exists file, In file ents /\ Name file = f /\
                                IsDir file = false /\ re f = true)
    end.
Proof.
  eexists. split; [apply findMigrationFiles_run|].
  destruct (ReadDir E dir s) as [ents|err]; [|reflexivity].
  eexists. split; [reflexivity|]. fold (matching re ents).
  split; [apply StringSort.Sorted_sort|].
  split; [apply StringSort.Permuted_sort|].
  intros f. split.
  - intros Hin.
    eapply Permutation_in in Hin;
      [|apply Permutation_sym, StringSort.Permuted_sort].
    apply in_map_iff in Hin as (file & <- & Hin).
    apply filter_In in Hin as (Hin & Hok).
    apply andb_true_iff in Hok as [Hdir Hre].
    apply negb_true_iff in Hdir. eauto.
  - intros (file & Hin & <- & Hdir & Hre).
    eapply Permutation_in; [apply StringSort.Permuted_sort|].
    apply in_map, filter_In. split; [exact Hin|].
    rewrite Hdir, Hre. reflexivity.
Qed.

(** X10.  The files [Migrate] and [Status] discover, on bytes: the entries
    that are not directories and whose name is a digit, then any bytes but
    the line feed, then the extension [.sql]. *)
Theorem discovered_names (ents : list FileInfo) (f : string) :
  In f (discovered ents) <->
  exists file d stem,
    In file ents /\ IsDir file = false /\ Name file = f /\
    f = String d (stem ++ ".sql") /\ isDecimal d = true /\ ~ holds LF stem.
Proof.
  rewrite discovered_matching. split.
  - intros (file & Hin & Hname & Hdir & Hre).
    apply migrationFileRegexp_digit_stem in Hre as (d & stem & Hf & Hd & Hstem).
    exists file, d, stem. repeat split; auto.
  - intros (file & d & stem & Hin & Hdir & Hname & Hf & Hd & Hstem).
    exists file. repeat split; auto.
    apply migrationFileRegexp_digit_stem. exists d, stem. auto.
Qed.

(** X11.  Every discovered file has a version: the digits its name starts
    with, at least one, followed by something that is not a digit and ends
    in [.sql]; and the pattern [findMigrationFile] builds from that version
    accepts the file. *)
Theorem discovered_version (ents : list FileInfo) (f : string) :
  In f (discovered ents) ->
  migrationVersion f <> EmptyString /\
  allDigits (migrationVersion f) = true /\
  (exists stem,
      f = (migrationVersion f ++ stem ++ ".sql")%string /\
      startsWithDigit (stem ++ ".sql") = false) /\
  versionFileRegexp (migrationVersion f) f = true.
Proof.
  intros Hin. apply discovered_matching in Hin as (_ & _ & _ & _ & Hre).
  destruct (discovered_name f Hre) as (stem & Hsplit & Hne & Hver & Hstart & Hstem).
  repeat split; auto.
  - exists stem. auto.
  - apply versionFileRegexp_digits; [exact Hver|]. exists stem. auto.
Qed.

End Resolving.

(** ** More of the engine: scripts, waiting, dumping, failing *)

Section Scripts.

Context {S : Type} (E : Env S).

Lemma execStatements_run tx statements :
  forall fuel s,
  exists r s' done,
    execStatements E tx statements fuel s
    = Some (r, s', map (EvExec tx) done) /\
    match r with
    | None =>
      done = statements /\ allSucceed E tx done s /\ s' = runQueries E tx done s
    | Some err =>
      exists ok q rest,
        done = ok ++ [q] /\ statements = ok ++ q :: rest /\
        allSucceed E tx ok s /\
        sql_Exec E tx q (runQueries E tx ok s) = (Some err, s')
    end.
Proof.
  induction statements as [|q statements IH]; intros fuel s.
  - exists None, s, []. cbn. auto.
  - cbn [execStatements]. unfold exec. rewrite bind_call.
    destruct (sql_Exec E tx q s) as [[err|] s1] eqn:Hq; cbn [fst snd].
    + exists (Some err), s1, [q]. split; [reflexivity|].
      exists [], q, statements. cbn. auto.
    + destruct (IH fuel s1) as (r & s' & done & Hrun & Hres).
      rewrite Hrun. exists r, s', (q :: done). split; [reflexivity|].
      destruct r as [err|].
      * destruct Hres as (ok & q' & rest & -> & -> & Hok & Hfail).
        exists (q :: ok), q', rest. cbn. rewrite Hq. cbn. auto.
      * destruct Hres as (-> & Hok & ->). cbn. rewrite Hq. cbn. auto.
Qed.

(** X7.  In emulated mode [executeScript] always returns: it prints the
    banner of the emulated engine, then sends the statements of the script
    in order, each on [tx], and stops at the first that fails, whose error
    it returns; the statements after that one are not sent. *)
Theorem executeScript_emulated_halts
        (tx : Transaction) (script : string) (fuel : nat) (s : S) :
  exists r s' done,
    executeScript E tx script false fuel s
    = Some (r, s', EvPrint emulatedBanner :: map (EvExec tx) done) /\
    match r with
    | None =>
      done = parseStatements script /\ allSucceed E tx done s /\
      s' = runQueries E tx done s
    | Some err =>
      exists ok q rest,
        done = ok ++ [q] /\ parseStatements script = ok ++ q :: rest /\
        allSucceed E tx ok s /\
        sql_Exec E tx q (runQueries E tx ok s) = (Some err, s')
    end.
Proof.
  unfold executeScript. rewrite bind_emit.
  destruct (execStatements_run tx (parseStatements script) fuel s)
    as (r & s' & done & -> & Hres).
  exists r, s', done. auto.
Qed.

(** X8.  A script of ASCII white space only: emulated execution sends
    nothing to the server and succeeds; native execution sends the script as
    it is. *)
Theorem executeScript_blank
        (tx : Transaction) (script : string) (fuel : nat) (s : S) :
  asciiBlank script = true ->
  executeScript E tx script false fuel s
  = Some (None, s, [EvPrint emulatedBanner]) /\
  executeScript E tx script true fuel s
  = Some (fst (sql_Exec E tx script s), snd (sql_Exec E tx script s),
          [EvPrint nativeBanner; EvExec tx script]).
Proof.
  intros Hblank. unfold executeScript. rewrite !bind_emit. split.
  - rewrite (parseStatements_asciiBlank script Hblank). reflexivity.
  - unfold exec. rewrite call_run. reflexivity.
Qed.

End Scripts.

Section Outcomes.

Context {S : Type} (E : Env S) (db : DB).

Lemma waitLoop_retries (drv : Driver.t S) :
  forall fuel i err s r s' t,
    waitLoop drv db i err fuel s = Some (r, s', t) ->
    exists errs,
      (r = None /\
       t = flat_map (retry db) (map Some errs ++ [None]) ++ [EvPrint nl])
      \/
      (r = Some (timeoutMessage (last errs err)) /\
       t = flat_map (retry db) (map Some errs) ++ [EvPrint nl]).
Proof.
  induction fuel as [|fuel IH]; intros i err s r s' t; cbn [waitLoop].
  - destruct (i <? WaitTimeout db)%Z; [discriminate|].
    intros H; inversion H; subst. exists []. right. auto.
  - destruct (i <? WaitTimeout db)%Z.
    + destruct (Driver.Ping drv (DatabaseURL db) s) as [[err'|] s1].
      * destruct (waitLoop drv db _ err' fuel s1) as [[[r2 s2] t2]|] eqn:Hrec;
          [|discriminate].
        intros H; inversion H; subst.
        apply IH in Hrec as (errs & [[-> ->]|[-> ->]]); exists (err' :: errs).
        -- left. split; reflexivity.
        -- right. split; [|reflexivity]. rewrite last_cons. reflexivity.
      * intros H; inversion H; subst. exists []. left. split; reflexivity.
    + intros H; inversion H; subst. exists []. right. auto.
Qed.

(** X1.  What [Wait] prints and when it sleeps: nothing when the first probe
    succeeds (or no driver is found); otherwise the notice, then for each
    retry a dot, a sleep of the interval and the probe, then the end of the
    line. *)
Theorem Wait_output (fuel : nat) (s : S) r s' t :
  Wait E db fuel s = Some (r, s', t) ->
  (exists e, DB_GetDriver E db = Err e /\ r = Some e /\ t = [] /\ s' = s)
  \/ (r = None /\ t = [EvPing None])
  \/ (exists e0 errs,
         t = [EvPing (Some e0); EvPrint "Waiting for database"]
               ++ flat_map (retry db)
                           (map Some errs
                                ++ match r with None => [None] | Some _ => [] end)
               ++ [EvPrint nl] /\
         (r = None \/ r = Some (timeoutMessage (last errs e0)))).
Proof.
  unfold Wait. destruct (DB_GetDriver E db) as [drv|e].
  - unfold ping. rewrite bind_call.
    destruct (Driver.Ping drv (DatabaseURL db) s) as [[e0|] s1]; cbn [fst snd].
    + rewrite bind_emit.
      destruct (waitLoop drv db 0 e0 fuel s1) as [[[r2 s2] t2]|] eqn:Hloop;
        [|discriminate].
      intros H; inversion H; subst.
      apply waitLoop_retries in Hloop as (errs & [[-> ->]|[-> ->]]);
        right; right; exists e0, errs; split; auto.
      rewrite app_nil_r. reflexivity.
    + intros H; inversion H; subst. right; left. auto.
  - intros H; inversion H; subst. left. eauto.
Qed.



(** X13.  [Migrate] and [Status] look at the migrations directory first:
    when it cannot be read or holds no migration file they return at once,
    without waiting for the server or opening a connection. *)
Theorem nothing_found_before_connecting (quiet : bool) (fuel : nat) (s : S) :
  match ReadDir E (MigrationsDir db) s with
  | Ok ents => discovered ents = []
  | Err _ => True
  end ->
  Migrate E db fuel s
  = Some (Some (nothingFound (MigrationsDir db) (ReadDir E (MigrationsDir db) s)),
          s, []) /\
  Status E db quiet fuel s
  = Some ((-1, Some (nothingFound (MigrationsDir db)
                                  (ReadDir E (MigrationsDir db) s)))%Z,
          s, []).
Proof.
  intros Hnone. split.
  - unfold Migrate.
    rewrite (bind_run _ _ _ _ _ _ _ (findMigrationFiles_run E _ _ fuel s)).
    destruct (ReadDir E (MigrationsDir db) s) as [ents|err]; [|reflexivity].
    cbv beta iota. fold (discovered ents). rewrite Hnone. reflexivity.
  - assert (Hcheck : checkMigrationsStatus E db fuel s
                     = Some (Err (nothingFound (MigrationsDir db)
                                               (ReadDir E (MigrationsDir db) s)),
                             s, [])).
    { unfold checkMigrationsStatus.
      rewrite (bind_run _ _ _ _ _ _ _ (findMigrationFiles_run E _ _ fuel s)).
      destruct (ReadDir E (MigrationsDir db) s) as [ents|err]; [|reflexivity].
      cbv beta iota. fold (discovered ents). rewrite Hnone. reflexivity. }
    unfold Status. rewrite (bind_run _ _ _ _ _ _ _ Hcheck). reflexivity.
Qed.

Lemma dumpBody_run drv c fuel s :
  dumpBody E db drv c fuel s =
  match Driver.DumpSchema drv (DatabaseURL db) c s with
  | (Err e, s3) => Some (Some e, s3, [EvDump c])
  | (Ok schema, s3) =>
    match ensureDir E (filepath_Dir E (SchemaFile db)) s3 with
    | (Some e, s4) =>
      Some (Some e, s4,
            [EvDump c; EvPrint ("Writing: " ++ SchemaFile db ++ nl);
             EvMkdir (filepath_Dir E (SchemaFile db))])
    | (None, s4) =>
      Some (fst (WriteFile E (SchemaFile db) schema s4),
            snd (WriteFile E (SchemaFile db) schema s4),
            [EvDump c; EvPrint ("Writing: " ++ SchemaFile db ++ nl);
             EvMkdir (filepath_Dir E (SchemaFile db));
             EvWrite (SchemaFile db) schema])
    end
  end.
Proof.
  unfold dumpBody. rewrite bind_call.
  destruct (Driver.DumpSchema drv (DatabaseURL db) c s) as [[schema|e] s3];
    cbn [fst snd]; [|reflexivity].
  rewrite bind_emit, bind_call.
  destruct (ensureDir E (filepath_Dir E (SchemaFile db)) s3) as [[e|] s4];
    cbn [fst snd]; [reflexivity|].
  rewrite call_run. reflexivity.
Qed.

(** X17.  [DumpSchema] on a connection it could open: the schema file is
    written once, with what the driver dumped, after its directory was
    ensured; when the dump or the directory fails nothing is written; the
    connection is released in every case. *)
Theorem DumpSchema_outcome
        (fuel : nat) (s s0 s1 s2 : S) (tw : list Event)
        (drv : Driver.t S) (c : conn) :
  waitBefore E db fuel s = Some (None, s0, tw) ->
  DB_GetDriver E db = Ok drv ->
  Driver.Open drv (DatabaseURL db) s0 = (Ok c, s1) ->
  Driver.CreateMigrationsTable drv c s1 = (None, s2) ->
  DumpSchema E db fuel s =
  match Driver.DumpSchema drv (DatabaseURL db) c s2 with
  | (Err e, s3) =>
    Some (Some e, sql_Close E c s3,
          tw ++ [EvOpen c; EvCreateTable c; EvDump c; EvClose c])
  | (Ok schema, s3) =>
    match ensureDir E (filepath_Dir E (SchemaFile db)) s3 with
    | (Some e, s4) =>
      Some (Some e, sql_Close E c s4,
            tw ++ [EvOpen c; EvCreateTable c; EvDump c;
                   EvPrint ("Writing: " ++ SchemaFile db ++ nl);
                   EvMkdir (filepath_Dir E (SchemaFile db)); EvClose c])
    | (None, s4) =>
      Some (fst (WriteFile E (SchemaFile db) schema s4),
            sql_Close E c (snd (WriteFile E (SchemaFile db) schema s4)),
            tw ++ [EvOpen c; EvCreateTable c; EvDump c;
                   EvPrint ("Writing: " ++ SchemaFile db ++ nl);
                   EvMkdir (filepath_Dir E (SchemaFile db));
                   EvWrite (SchemaFile db) schema; EvClose c])
    end
  end.
Proof.
  intros Hwait Hdrv Hopen Hcreate. unfold DumpSchema.
  rewrite (bind_run _ _ _ _ _ _ _ Hwait). cbv beta iota.
  rewrite (bind_run _ _ _ _ _ _ _
                    (open_run E db drv c fuel s0 s1 s2 Hdrv Hopen Hcreate)).
  cbv beta iota.
  pose proof (dumpBody_run drv c fuel s2) as Hbody.
  destruct (Driver.DumpSchema drv (DatabaseURL db) c s2) as [[schema|e] s3].
  - destruct (ensureDir E (filepath_Dir E (SchemaFile db)) s3) as [[e|] s4];
      rewrite (deferClose_run E c _ _ _ _ _ _ Hbody); reflexivity.
  - rewrite (deferClose_run E c _ _ _ _ _ _ Hbody). reflexivity.
Qed.

(** X4.  [doTransaction] reports success exactly when the scope could be
    opened, the body succeeded in it and the commit succeeded. *)
Theorem doTransaction_succeeds_iff
        (c : conn) (txFunc : Transaction -> M S (option error))
        (fuel : nat) (s s' : S) (t : list Event) :
  doTransaction E c txFunc fuel s = Some (None, s', t) <->
  exists tx s0 sb tb,
    sql_Begin E c s = (Ok tx, s0) /\
    txFunc (OnTx tx) fuel s0 = Some (None, sb, tb) /\
    sql_Commit E tx sb = (None, s') /\
    t = [EvBegin tx] ++ tb ++ [EvCommit tx].
Proof.
  unfold doTransaction. rewrite bind_call. split.
  - destruct (sql_Begin E c s) as [[tx|e] s0]; cbn [fst snd];
      [|intros H; inversion H].
    destruct (bind _ _ fuel s0) as [[[r2 s2] t2]|] eqn:Hrest; [|discriminate].
    intros H; inversion H; subst. clear H.
    bind_inv Hrest as rb sb tb t3 Hbody.
    destruct rb as [err|].
    + bind_inv Hrest as r1 s3 t4 t5 Hroll.
      destruct r1; cbn in Hrest; inversion Hrest.
    + rewrite call_run in Hrest. inversion Hrest as [[Hr Hs Ht]].
      exists tx, s0, sb, tb. split; [reflexivity|].
      split; [rewrite Hr; exact Hbody|].
      split; [destruct (sql_Commit E tx sb); reflexivity | reflexivity].
  - intros (tx & s0 & sb & tb & -> & Hbody & Hcommit & ->). cbn [fst snd].
    rewrite (bind_run _ _ _ _ _ _ _ Hbody). rewrite call_run, Hcommit.
    reflexivity.
Qed.



Lemma migrateBody_split drv c files fuel s r s' t :
  migrateBody E db drv c files fuel s = Some (r, s', t) ->
  exists tl td,
    t = [EvSelect c (-1)] ++ tl ++ td /\
    Forall (ApplyEvent E db c) tl /\
    (td = [] \/
     r = None /\ exists s1 s2, autoDump E db fuel s1 = Some (tt, s2, td)).
Proof.
  unfold migrateBody. rewrite bind_call.
  destruct (fst (Driver.SelectMigrations drv c (-1) s)) as [applied|err].
  - destruct (bind _ _ fuel _) as [[[r2 s2] t2]|] eqn:Hrest; [|discriminate].
    intros H; inversion H; subst. bind_inv Hrest as a s1 tl td Hrun.
    apply migrateLoop_events in Hrun. exists tl, td.
    repeat split; auto. destruct a.
    + cbn in Hrest. inversion Hrest; subst. auto.
    + bind_inv Hrest as u s3 t3 t4 Hdump. cbn in Hrest.
      inversion Hrest; subst.
      rewrite app_nil_r. right. split; [reflexivity|].
      destruct u. eauto.
  - cbn. intros H; inversion H; subst. exists [], []. auto.
Qed.

Lemma rollbackBody_split drv c fuel s r s' t :
  rollbackBody E db drv c fuel s = Some (r, s', t) ->
  exists latest tl td,
    t = [EvSelect c 1] ++ tl ++ td /\
    Forall (RevertEvent E db c latest) tl /\
    (td = [] \/
     r = None /\ exists s1 s2, autoDump E db fuel s1 = Some (tt, s2, td)).
Proof.
  intros H. pose proof (rollbackBody_shape E db _ _ _ _ _ _ _ H) as Hshape.
  destruct Hshape as (tl0 & td0 & _ & _ & Hevents).
  revert H Hevents. unfold rollbackBody. rewrite bind_call.
  destruct (fst (Driver.SelectMigrations drv c 1 s)) as [applied|err].
  - destruct (String.eqb (latestOf applied) "").
    { cbn. intros H; inversion H; subst. exists EmptyString, [], []. auto. }
    destruct (bind _ _ fuel _) as [[[r2 s2] t2]|] eqn:Hrest; [|discriminate].
    intros H _; inversion H; subst. clear H.
    bind_inv Hrest as a s1 tf tr Hfind.
    apply findMigrationFile_returns in Hfind as (-> & -> & _ & Hmatch).
    exists (latestOf applied).
    destruct a as [f|err].
    + specialize (Hmatch f eq_refl).
      rewrite bind_emit, bind_look in Hrest.
      destruct (parseMigration E _ _) as [[up down]|err].
      * destruct (bind _ _ fuel _) as [[[r3 s3] t3]|] eqn:Hstep;
          [|discriminate].
        inversion Hrest; subst. clear Hrest.
        bind_inv Hstep as b s4 tl td Hrun.
        apply rollbackMigration_events in Hrun.
        exists ([EvPrint ("Rolling back: " ++ f ++ nl);
                 EvParse (filepath_Join E (MigrationsDir db) f)] ++ tl), td.
        split; [rewrite <- !app_assoc; reflexivity|]. split.
        -- constructor; [apply RevertNotice; exact Hmatch|].
           constructor; [apply RevertParse; exact Hmatch|]. exact Hrun.
        -- destruct b.
           ++ cbn in Hstep. inversion Hstep; subst. auto.
           ++ bind_inv Hstep as u s5 t5 t6 Hdump. cbn in Hstep.
              inversion Hstep; subst.
              rewrite app_nil_r. right. split; [reflexivity|].
              destruct u. eauto.
      * cbn in Hrest. inversion Hrest; subst.
        exists [EvPrint ("Rolling back: " ++ f ++ nl);
                EvParse (filepath_Join E (MigrationsDir db) f)], [].
        repeat split; auto.
        constructor; [apply RevertNotice; exact Hmatch|].
        constructor; [apply RevertParse; exact Hmatch|]. constructor.
    + cbn in Hrest. inversion Hrest; subst. exists [], []. auto.
  - cbn. intros H; inversion H; subst. exists EmptyString, [], []. auto.
Qed.

(** An operation that waits if asked, opens the database, defers the
    release and runs [body]: what holds of the events of the wait, of the
    connection and of the body holds of the whole trace. *)
Lemma guarded_forall (P : Event -> Prop) (Q : option error -> Prop)
      (body : Driver.t S -> conn -> M S (option error)) :
  (forall fuel s r s' t,
      waitBefore E db fuel s = Some (r, s', t) -> Forall P t) ->
  (forall c, P (EvOpen c) /\ P (EvCreateTable c) /\ P (EvClose c)) ->
  (forall drv c fuel s r s' t,
      body drv c fuel s = Some (r, s', t) -> Q r -> Forall P t) ->
  forall fuel s r s' t,
    (r0 <- waitBefore E db ;;
     match r0 with
     | Some err => ret (Some err)
     | None =>
       r1 <- openDatabaseForMigration E db ;;
       match r1 with
       | Err err => ret (Some err)
       | Ok (drv, sqlDB) => deferClose E sqlDB (body drv sqlDB)
       end
     end) fuel s = Some (r, s', t) ->
    Q r -> Forall P t.
Proof.
  intros Hwait Hconn Hbody fuel s r s' t H HQ.
  bind_inv H as a s1 tw t2 Hrun. apply Hwait in Hrun.
  apply Forall_app. split; [exact Hrun|].
  destruct a; [cbn in H; inversion H; constructor|].
  bind_inv H as b s2 to tb Hopen.
  apply open_returns in Hopen as [(err & -> & Hopen) | (drv & c & -> & _ & ->)].
  - cbn in H. inversion H; subst. rewrite app_nil_r.
    destruct Hopen as [-> | (c & ->)]; [constructor|].
    destruct (Hconn c) as (? & ? & ?). repeat constructor; assumption.
  - apply deferClose_returns in H as (s3 & tc & Hrun' & -> & ->).
    destruct (Hconn c) as (? & ? & ?).
    repeat (apply Forall_app; split); repeat constructor; auto.
    eapply Hbody; eauto.
Qed.

Lemma ScopeEvent_cases script book tx e :
  ScopeEvent db script book tx e ->
  e = EvPrint (banner db) \/ (exists q, e = EvExec tx q) \/ e = book tx.
Proof.
  intros [e' [|q Hq]|]; eauto.
Qed.

Lemma ApplyEvent_plain c e :
  ApplyEvent E db c e -> isDump e = false /\ isProbe e = false.
Proof.
  intros [f|f|tx|tx|tx|tx up ver e' _ He]; auto.
  apply ScopeEvent_cases in He as [->|[(q & ->)| ->]]; auto.
Qed.

Lemma RevertEvent_plain c latest e :
  RevertEvent E db c latest e -> isDump e = false /\ isProbe e = false.
Proof.
  intros [f|f|tx|tx|tx|tx down e' _ He]; auto.
  apply ScopeEvent_cases in He as [->|[(q & ->)| ->]]; auto.
Qed.

Lemma WaitEvent_notDump e : WaitEvent db e -> isDump e = false.
Proof. intros []; reflexivity. Qed.

(** X15.  A [Migrate] or [Rollback] that fails leaves the schema file alone:
    the schema is dumped only after everything else has succeeded. *)
Theorem failure_dumps_nothing (op : Operation) fuel s err s' t :
  op = OpMigrate \/ op = OpRollback ->
  runOp E db op fuel s = Some (Some err, s', t) ->
  Forall (fun e => isDump e = false) t.
Proof.
  intros Hop H.
  assert (Hwait : forall fuel s r s' t,
             waitBefore E db fuel s = Some (r, s', t) ->
             Forall (fun e => isDump e = false) t).
  { intros fuel0 s0 r0 s0' t0 Hrun. apply waitBefore_events in Hrun.
    eapply Forall_impl; [|exact Hrun]. apply WaitEvent_notDump. }
  assert (Hconn : forall c : conn,
             isDump (EvOpen c) = false /\ isDump (EvCreateTable c) = false
             /\ isDump (EvClose c) = false) by (intros; auto).
  destruct Hop as [-> | ->]; cbn [runOp] in H.
  - unfold Migrate in H.
    rewrite (bind_run _ _ _ _ _ _ _ (findMigrationFiles_run E _ _ fuel s)) in H.
    destruct (ReadDir E (MigrationsDir db) s) as [ents|e];
      [|cbn in H; inversion H; constructor].
    cbv beta iota in H.
    destruct (length _ =? 0)%nat; [cbn in H; inversion H; constructor|].
    destruct (bind _ _ fuel s) as [[[r2 s2] t2]|] eqn:Hrest; [|discriminate].
    inversion H; subst. cbn [app].
    eapply (guarded_forall _ (fun r => r <> None)
                           (fun drv c => migrateBody E db drv c _));
      [exact Hwait | exact Hconn | | exact Hrest | discriminate].
    intros drv c fuel0 s0 r0 s0' t0 Hbody Hr.
    apply migrateBody_split in Hbody as (tl & td & -> & Hl & [->|[-> _]]);
      [|congruence].
    rewrite app_nil_r. constructor; [reflexivity|].
    eapply Forall_impl; [|exact Hl]. intros e He.
    apply (ApplyEvent_plain _ _ He).
  - unfold Rollback in H.
    eapply (guarded_forall _ (fun r => r <> None) (rollbackBody E db));
      [exact Hwait | exact Hconn | | exact H | discriminate].
    intros drv c fuel0 s0 r0 s0' t0 Hbody Hr.
    apply rollbackBody_split in Hbody
      as (latest & tl & td & -> & Hl & [->|[-> _]]); [|congruence].
    rewrite app_nil_r. constructor; [reflexivity|].
    eapply Forall_impl; [|exact Hl]. intros e He.
    apply (RevertEvent_plain _ _ _ He).
Qed.

Lemma Status_unprobed quiet fuel s r s' t :
  Status E db quiet fuel s = Some (r, s', t) ->
  Forall (fun e => isProbe e = false) t.
Proof.
  intros H. apply Status_shape in H as (tb & tp & -> & Hb & Hp & _).
  apply Forall_app. split.
  - eapply Bracket_forall; [| |exact Hb].
    + intros c. auto.
    + intros c tc ->. repeat constructor.
  - eapply Forall_impl; [|exact Hp]. intros e (line & ->). reflexivity.
Qed.

Lemma waitBefore_off fuel s r s' t :
  WaitBefore db = false ->
  waitBefore E db fuel s = Some (r, s', t) -> t = [].
Proof.
  unfold waitBefore. intros ->. cbn. intros H; inversion H; reflexivity.
Qed.

Lemma DumpEvent_notProbe c e : DumpEvent E db c e -> isProbe e = false.
Proof. intros []; reflexivity. Qed.

Lemma DumpSchema_unprobed fuel s r s' t :
  WaitBefore db = false ->
  DumpSchema E db fuel s = Some (r, s', t) ->
  Forall (fun e => isProbe e = false) t.
Proof.
  intros Hoff H. unfold DumpSchema in H.
  eapply (guarded_forall _ (fun _ => True) (dumpBody E db)); [| | |exact H|exact I].
  - intros fuel0 s0 r0 s0' t0 Hrun.
    rewrite (waitBefore_off _ _ _ _ _ Hoff Hrun). constructor.
  - intros c. auto.
  - intros drv c fuel0 s0 r0 s0' t0 Hbody _.
    apply dumpBody_events in Hbody.
    eapply Forall_impl; [|exact Hbody]. apply DumpEvent_notProbe.
Qed.

Lemma autoDump_unprobed fuel s r s' t :
  WaitBefore db = false ->
  autoDump E db fuel s = Some (r, s', t) ->
  Forall (fun e => isProbe e = false) t.
Proof.
  intros Hoff. unfold autoDump. destruct (AutoDumpSchema db).
  - intros H. bind_inv H as a s1 t1 t2 Hrun. cbn in H. inversion H; subst.
    rewrite app_nil_r. eapply DumpSchema_unprobed; eauto.
  - cbn. intros H; inversion H; subst. constructor.
Qed.

(** X19.  With [WaitBefore] off (the default) no operation probes the server
    or sleeps; [Status] never does, whatever the flag says. *)
Theorem no_probe_unless_asked (op : Operation) fuel s r s' t :
  WaitBefore db = false \/ (exists quiet, op = OpStatus quiet) ->
  runOp E db op fuel s = Some (r, s', t) ->
  Forall (fun e => isProbe e = false) t.
Proof.
  intros Hoff H.
  assert (Hstatus : forall quiet,
             runOp E db (OpStatus quiet) fuel s = Some (r, s', t) ->
             Forall (fun e => isProbe e = false) t).
  { intros quiet Hrun. cbn [runOp] in Hrun.
    bind_inv Hrun as a s1 t1 t2 Hst. cbn in Hrun. inversion Hrun; subst.
    rewrite app_nil_r. eapply Status_unprobed; eauto. }
  destruct Hoff as [Hoff | (quiet & ->)]; [|eauto].
  assert (Hwait : forall fuel s r s' t,
             waitBefore E db fuel s = Some (r, s', t) ->
             Forall (fun e => isProbe e = false) t).
  { intros fuel0 s0 r0 s0' t0 Hrun.
    rewrite (waitBefore_off _ _ _ _ _ Hoff Hrun). constructor. }
  assert (Hconn : forall c : conn,
             isProbe (EvOpen c) = false /\ isProbe (EvCreateTable c) = false
             /\ isProbe (EvClose c) = false) by (intros; auto).
  assert (Hdump : forall td,
             td = [] \/
             r = None /\ (exists s1 s2, autoDump E db fuel s1 = Some (tt, s2, td)) ->
             Forall (fun e => isProbe e = false) td).
  { intros td [->|[_ (s1 & s2 & Hd)]]; [constructor|].
    eapply autoDump_unprobed; eauto. }
  destruct op as [| |quiet|]; [| |eauto|]; cbn [runOp] in H.
  - unfold Migrate in H.
    rewrite (bind_run _ _ _ _ _ _ _ (findMigrationFiles_run E _ _ fuel s)) in H.
    destruct (ReadDir E (MigrationsDir db) s) as [ents|e];
      [|cbn in H; inversion H; constructor].
    cbv beta iota in H.
    destruct (length _ =? 0)%nat; [cbn in H; inversion H; constructor|].
    destruct (bind _ _ fuel s) as [[[r2 s2] t2]|] eqn:Hrest; [|discriminate].
    inversion H; subst. cbn [app].
    eapply (guarded_forall _ (fun r0 => r0 = r)
                           (fun drv c => migrateBody E db drv c _));
      [exact Hwait | exact Hconn | | exact Hrest | reflexivity].
    intros drv c fuel0 s0 r0 s0' t0 Hbody ->.
    apply migrateBody_split in Hbody as (tl & td & -> & Hl & Htd).
    constructor; [reflexivity|]. apply Forall_app. split.
    + eapply Forall_impl; [|exact Hl]. intros e He.
      apply (ApplyEvent_plain _ _ He).
    + destruct Htd as [->|[-> (s1 & s2 & Hd)]]; [constructor|].
      eapply autoDump_unprobed; eauto.
  - unfold Rollback in H.
    eapply (guarded_forall _ (fun _ => True) (rollbackBody E db));
      [exact Hwait | exact Hconn | | exact H | exact I].
    intros drv c fuel0 s0 r0 s0' t0 Hbody _.
    apply rollbackBody_split in Hbody as (latest & tl & td & -> & Hl & Htd).
    constructor; [reflexivity|]. apply Forall_app. split.
    + eapply Forall_impl; [|exact Hl]. intros e He.
      apply (RevertEvent_plain _ _ _ He).
    + destruct Htd as [->|[-> (s1 & s2 & Hd)]]; [constructor|].
      eapply autoDump_unprobed; eauto.
  - eapply DumpSchema_unprobed; eauto.
Qed.

(** X14.  The automatic schema dump of [Migrate] is best effort: once every
    pending file is applied, [Migrate] succeeds whatever [DumpSchema]
    returns. *)
Theorem Migrate_ignores_dump_result
        (fuel : nat) (s s0 s1 s2 s3 s4 s5 : S) (tw tl td : list Event)
        (ents : list FileInfo) (drv : Driver.t S) (c : conn) (m : versions)
        (rd : option error) :
  ReadDir E (MigrationsDir db) s = Ok ents ->
  discovered ents <> [] ->
  waitBefore E db fuel s = Some (None, s0, tw) ->
  DB_GetDriver E db = Ok drv ->
  Driver.Open drv (DatabaseURL db) s0 = (Ok c, s1) ->
  Driver.CreateMigrationsTable drv c s1 = (None, s2) ->
  Driver.SelectMigrations drv c (-1) s2 = (Ok m, s3) ->
  migrateLoop E db drv c m (discovered ents) fuel s3 = Some (None, s4, tl) ->
  AutoDumpSchema db = true ->
  DumpSchema E db fuel s4 = Some (rd, s5, td) ->
  Migrate E db fuel s =
  Some (None, sql_Close E c s5,
        tw ++ [EvOpen c; EvCreateTable c; EvSelect c (-1)] ++ tl ++ td
           ++ [EvClose c]).
Proof.
  intros Hdir Hne Hwait Hdrv Hopen Hcreate Hselect Hloop Hauto Hdump.
  unfold Migrate.
  rewrite (bind_run _ _ _ _ _ _ _ (findMigrationFiles_run E _ _ fuel s)).
  rewrite Hdir. cbv beta iota. fold (discovered ents).
  destruct (discovered ents) as [|f0 files] eqn:Hd; [congruence|].
  cbn [length Nat.eqb]. rewrite <- Hd in *.
  rewrite (bind_run _ _ _ _ _ _ _ Hwait). cbv beta iota.
  rewrite (bind_run _ _ _ _ _ _ _
                    (open_run E db drv c fuel s0 s1 s2 Hdrv Hopen Hcreate)).
  cbv beta iota.
  assert (Hbody : migrateBody E db drv c (discovered ents) fuel s2
                  = Some (None, s5, [EvSelect c (-1)] ++ tl ++ td)).
  { unfold migrateBody. rewrite bind_call, Hselect. cbn [fst snd].
    rewrite (bind_run _ _ _ _ _ _ _ Hloop). cbv beta iota.
    unfold autoDump. rewrite Hauto.
    rewrite (bind_run _ _ _ _ tt s5 td)
      by (rewrite (bind_run _ _ _ _ _ _ _ Hdump); cbn;
          rewrite app_nil_r; reflexivity).
    cbn. rewrite app_nil_r. reflexivity. }
  rewrite (deferClose_run E c _ _ _ _ _ _ Hbody).
  cbn [app]. rewrite <- !app_assoc. reflexivity.
Qed.

(** X16.  [Rollback] of a version no file of the directory starts with: it
    fails with an error that names the version, quoted as in the pattern it
    searched for, having run no script and deleted no row. *)
Theorem Rollback_missing_file
        (fuel : nat) (s s0 s1 s2 s3 : S) (tw : list Event)
        (drv : Driver.t S) (c : conn) (m : versions) (ents : list FileInfo) :
  waitBefore E db fuel s = Some (None, s0, tw) ->
  DB_GetDriver E db = Ok drv ->
  Driver.Open drv (DatabaseURL db) s0 = (Ok c, s1) ->
  Driver.CreateMigrationsTable drv c s1 = (None, s2) ->
  Driver.SelectMigrations drv c 1 s2 = (Ok m, s3) ->
  latestOf m <> EmptyString ->
  GoString.ValidString (GoString.QuoteMeta (latestOf m)) = true ->
  ReadDir E (MigrationsDir db) s3 = Ok ents ->
  matching (versionFileRegexp (latestOf m)) ents = [] ->
  Rollback E db fuel s =
  Some (Some ("can't find migration file: "
                ++ GoString.QuoteMeta (latestOf m) ++ "*.sql")%string,
        sql_Close E c s3,
        tw ++ [EvOpen c; EvCreateTable c; EvSelect c 1; EvClose c]).
Proof.
  intros Hwait Hdrv Hopen Hcreate Hselect Hne Hvalid Hdir Hnone.
  unfold Rollback.
  rewrite (bind_run _ _ _ _ _ _ _ Hwait). cbv beta iota.
  rewrite (bind_run _ _ _ _ _ _ _
                    (open_run E db drv c fuel s0 s1 s2 Hdrv Hopen Hcreate)).
  cbv beta iota.
  assert (Hfind : findMigrationFile E (MigrationsDir db) (latestOf m) fuel s3
                  = Some (Err ("can't find migration file: "
                                 ++ GoString.QuoteMeta (latestOf m) ++ "*.sql")%string,
                          s3, [])).
  { unfold findMigrationFile.
    destruct (String.eqb_spec (latestOf m) ""); [congruence|].
    rewrite Hvalid. cbn [negb].
    rewrite (bind_run _ _ _ _ _ _ _ (findMigrationFiles_run E _ _ fuel s3)).
    rewrite Hdir. fold (matching (versionFileRegexp (latestOf m)) ents).
    rewrite Hnone. reflexivity. }
  assert (Hbody : rollbackBody E db drv c fuel s2
                  = Some (Some ("can't find migration file: "
                                  ++ GoString.QuoteMeta (latestOf m) ++ "*.sql")%string,
                          s3, [EvSelect c 1])).
  { unfold rollbackBody. rewrite bind_call, Hselect. cbn [fst snd].
    destruct (String.eqb_spec (latestOf m) ""); [congruence|].
    rewrite (bind_run _ _ _ _ _ _ _ Hfind). reflexivity. }
  rewrite (deferClose_run E c _ _ _ _ _ _ Hbody). reflexivity.
Qed.

(** X2.  With a timeout that is not positive [Wait] probes once and does not
    sleep: it needs no fuel. *)
Theorem Wait_single_probe (drv : Driver.t S) (fuel : nat) (s : S) :
  (WaitTimeout db <= 0)%Z ->
  DB_GetDriver E db = Ok drv ->
  Wait E db fuel s =
  match Driver.Ping drv (DatabaseURL db) s with
  | (None, s1) => Some (None, s1, [EvPing None])
  | (Some e, s1) =>
    Some (Some (timeoutMessage e), s1,
          [EvPing (Some e); EvPrint "Waiting for database"; EvPrint nl])
  end.
Proof.
  intros Htimeout Hdrv. unfold Wait, ping. rewrite Hdrv, bind_call.
  destruct (Driver.Ping drv (DatabaseURL db) s) as [[e|] s1]; cbn [fst snd];
    [|reflexivity].
  rewrite bind_emit.
  assert (Hloop : waitLoop drv db 0 e fuel s1
                  = Some (Some (timeoutMessage e), s1, [EvPrint nl])).
  { destruct fuel; cbn [waitLoop];
      (destruct (Z.ltb_spec 0 (WaitTimeout db)); [lia | reflexivity]). }
  rewrite Hloop. reflexivity.
Qed.

End Outcomes.

(** ** The database itself, and new migration files *)

Section AdministrationProps.

Context {S : Type} (E : Env S) (admin : Driver.t S -> DriverAdmin.t S)
        (F : Files S) (db : DB).

(** X20.  When the wait that precedes an operation fails, the operation
    returns the error of the wait and does nothing else. *)
Theorem wait_failure_aborts (fuel : nat) (s s0 : S) (err : error)
        (tw : list Event) :
  waitBefore E db fuel s = Some (Some err, s0, tw) ->
  Create E admin db fuel s = Some (Some err, s0, tw) /\
  Drop E admin db fuel s = Some (Some err, s0, tw) /\
  CreateAndMigrate E admin db fuel s = Some (Some err, s0, tw) /\
  DumpSchema E db fuel s = Some (Some err, s0, tw) /\
  Rollback E db fuel s = Some (Some err, s0, tw) /\
  (forall ents, ReadDir E (MigrationsDir db) s = Ok ents ->
                discovered ents <> [] ->
                Migrate E db fuel s = Some (Some err, s0, tw)).
Proof.
  intros Hwait.
  unfold Create, Drop, CreateAndMigrate, DumpSchema, Rollback.
  rewrite !(bind_run _ _ _ _ _ _ _ Hwait). cbn. rewrite app_nil_r.
  do 5 (split; [reflexivity|]).
  intros ents Hdir Hne. unfold Migrate.
  rewrite (bind_run _ _ _ _ _ _ _ (findMigrationFiles_run E _ _ fuel s)).
  rewrite Hdir. cbv beta iota. fold (discovered ents).
  destruct (discovered ents) as [|f0 files] eqn:Hd; [congruence|].
  cbn [length Nat.eqb]. rewrite (bind_run _ _ _ _ _ _ _ Hwait). cbn.
  rewrite app_nil_r. reflexivity.
Qed.

Lemma waitBefore_no_driver fuel s e :
  DB_GetDriver E db = Err e ->
  waitBefore E db fuel s = Some (Some e, s, []) \/
  waitBefore E db fuel s = Some (None, s, []).
Proof.
  intros Hdrv. unfold waitBefore, Wait. rewrite Hdrv.
  destruct (WaitBefore db); auto.
Qed.

(** X21.  When no driver serves the scheme of the URL, every operation that
    needs the database returns the error of the lookup and touches nothing,
    whether it was asked to wait or not; [Migrate] and [Status] do so once
    they have found migration files. *)
Theorem no_driver_no_effect (quiet : bool) (fuel : nat) (s : S) (e : error) :
  DB_GetDriver E db = Err e ->
  Wait E db fuel s = Some (Some e, s, []) /\
  Create E admin db fuel s = Some (Some e, s, []) /\
  Drop E admin db fuel s = Some (Some e, s, []) /\
  CreateAndMigrate E admin db fuel s = Some (Some e, s, []) /\
  DumpSchema E db fuel s = Some (Some e, s, []) /\
  Rollback E db fuel s = Some (Some e, s, []) /\
  (forall ents, ReadDir E (MigrationsDir db) s = Ok ents ->
                discovered ents <> [] ->
                Migrate E db fuel s = Some (Some e, s, []) /\
                Status E db quiet fuel s = Some ((-1, Some e)%Z, s, [])).
Proof.
  intros Hdrv.
  assert (Hopen : openDatabaseForMigration E db fuel s = Some (Err e, s, [])).
  { unfold openDatabaseForMigration. rewrite Hdrv. reflexivity. }
  split; [unfold Wait; rewrite Hdrv; reflexivity|].
  unfold Create, Drop, CreateAndMigrate, DumpSchema, Rollback.
  destruct (waitBefore_no_driver fuel s e Hdrv) as [Hwait|Hwait];
    rewrite !(bind_run _ _ _ _ _ _ _ Hwait); cbv beta iota;
      rewrite ?Hdrv, ?(bind_run _ _ _ _ _ _ _ Hopen); cbn;
        (do 5 (split; [reflexivity|]));
        intros ents Hdir Hne;
        (assert (Hfound : findMigrationFiles E (MigrationsDir db)
                                             migrationFileRegexp fuel s
                          = Some (Ok (discovered ents), s, []))
          by (rewrite findMigrationFiles_run, Hdir; reflexivity));
        (destruct (discovered ents) as [|f0 files] eqn:Hd; [congruence|]);
        (split;
         [unfold Migrate;
          rewrite (bind_run _ _ _ _ _ _ _ Hfound); cbn [length Nat.eqb];
          cbv beta iota; rewrite (bind_run _ _ _ _ _ _ _ Hwait);
          cbv beta iota; rewrite ?(bind_run _ _ _ _ _ _ _ Hopen); reflexivity
         |assert (Hcheck : checkMigrationsStatus E db fuel s
                           = Some (Err e, s, []))
            by (unfold checkMigrationsStatus;
                rewrite (bind_run _ _ _ _ _ _ _ Hfound); cbn [length Nat.eqb];
                cbv beta iota; rewrite (bind_run _ _ _ _ _ _ _ Hopen);
                reflexivity);
          unfold Status; rewrite (bind_run _ _ _ _ _ _ _ Hcheck); reflexivity]).
Qed.

(** X22.  [CreateAndMigrate] creates the database only when the existence
    check succeeds and says it does not exist; a creation that fails stops
    the operation before [Migrate]; in every other case what follows is
    [Migrate], also when the existence check itself fails. *)
Theorem CreateAndMigrate_creates_when_absent
        (fuel : nat) (s s0 : S) (tw : list Event) (drv : Driver.t S) :
  waitBefore E db fuel s = Some (None, s0, tw) ->
  DB_GetDriver E db = Ok drv ->
  CreateAndMigrate E admin db fuel s =
  match DriverAdmin.DatabaseExists (admin drv) (DatabaseURL db) s0 with
  | (Ok false, s1) =>
    match DriverAdmin.CreateDatabase (admin drv) (DatabaseURL db) s1 with
    | (Some err, s2) => Some (Some err, s2, tw)
    | (None, s2) => after tw (Migrate E db fuel s2)
    end
  | (_, s1) => after tw (Migrate E db fuel s1)
  end.
Proof.
  intros Hwait Hdrv. unfold CreateAndMigrate.
  rewrite (bind_run _ _ _ _ _ _ _ Hwait). cbv beta iota. rewrite Hdrv.
  rewrite bind_call.
  destruct (DriverAdmin.DatabaseExists (admin drv) (DatabaseURL db) s0)
    as [[[|]|e] s1]; cbn [fst snd].
  - rewrite bind_ret. unfold after.
    destruct (Migrate E db fuel s1) as [[[r s'] t]|]; reflexivity.
  - rewrite bind_call.
    destruct (DriverAdmin.CreateDatabase (admin drv) (DatabaseURL db) s1)
      as [[err|] s2]; cbn [fst snd].
    + cbn. rewrite app_nil_r. reflexivity.
    + unfold after.
      destruct (Migrate E db fuel s2) as [[[r s'] t]|]; reflexivity.
  - rewrite bind_ret. unfold after.
    destruct (Migrate E db fuel s1) as [[[r s'] t]|]; reflexivity.
Qed.

Lemma migrationFileName_matches timestamp name :
  allDigits timestamp = true -> timestamp <> EmptyString ->
  ~ holds GoString.LF name ->
  migrationFileRegexp (migrationFileName timestamp name) = true /\
  migrationVersion (migrationFileName timestamp name) = timestamp /\
  versionFileRegexp timestamp (migrationFileName timestamp name) = true.
Proof.
  intros Hts Hne Hname. unfold migrationFileName.
  assert (Hunder : ~ holds GoString.LF ("_" ++ name)).
  { intros [H|H]; [discriminate H | exact (Hname H)]. }
  split; [|split].
  - destruct timestamp as [|d ts]; [congruence|].
    cbn [allDigits] in Hts. apply andb_true_iff in Hts as [Hd Hts].
    apply migrationFileRegexp_digit_stem.
    exists d, (ts ++ "_" ++ name)%string.
    split; [cbn [String.append]; rewrite !append_assoc; reflexivity|].
    split; [exact Hd|]. intros Hin. apply holds_app in Hin as [Hin|Hin].
    + exact (digits_not_LF _ Hts Hin).
    + exact (Hunder Hin).
  - apply migrationVersion_app; [exact Hts | reflexivity].
  - apply versionFileRegexp_digits; [exact Hts|].
    exists ("_" ++ name)%string. split; [|exact Hunder].
    rewrite !append_assoc. reflexivity.
Qed.

(** X23.  [NewMigration] refuses an empty name before it touches anything,
    and never overwrites: unless [os.Stat] reports that nothing exists at
    the path, it returns "file already exists" and creates nothing. *)
Theorem NewMigration_refuses (name : string) (fuel : nat) (s s1 : S) :
  NewMigration E F db "" fuel s
  = Some (Some "please specify a name for the new migration", s, []) /\
  (name <> EmptyString ->
   ensureDir E (MigrationsDir db) s = (None, s1) ->
   (forall e,
       os_Stat F (filepath_Join E (MigrationsDir db)
                                (migrationFileName (time_Now F s) name)) s1
       = Some e ->
       os_IsNotExist F e = false) ->
   NewMigration E F db name fuel s
   = Some (Some "file already exists", s1,
           [EvMkdir (MigrationsDir db);
            EvPrint ("Creating migration: "
                       ++ filepath_Join E (MigrationsDir db)
                                        (migrationFileName (time_Now F s) name)
                       ++ nl)])).
Proof.
  split; [reflexivity|].
  intros Hname Hdir Hstat. unfold NewMigration. rewrite bind_look.
  destruct (String.eqb_spec name ""); [congruence|].
  rewrite bind_call, Hdir. cbn [fst snd]. rewrite bind_emit, bind_look.
  destruct (os_Stat F _ s1) as [e|] eqn:Hst.
  - rewrite (Hstat e eq_refl). reflexivity.
  - reflexivity.
Qed.

(** X24.  When [NewMigration] succeeds it has created one file, in the
    migrations directory, with the template as its content; and, the
    timestamp being a string of digits and the name holding no line feed,
    the file is one that [Migrate] discovers, its version is the timestamp,
    and [Rollback] finds it by that version. *)
Theorem NewMigration_is_discoverable
        (name : string) (fuel : nat) (s s' : S) (t : list Event) :
  allDigits (time_Now F s) = true -> time_Now F s <> EmptyString ->
  ~ holds GoString.LF name ->
  NewMigration E F db name fuel s = Some (None, s', t) ->
  let f := migrationFileName (time_Now F s) name in
  (exists fl s1 s2 s3,
      ensureDir E (MigrationsDir db) s = (None, s1) /\
      os_Create F (filepath_Join E (MigrationsDir db) f) s1 = (Ok fl, s2) /\
      file_WriteString F fl migrationTemplate s2 = (None, s3) /\
      s' = file_Close F fl s3) /\
  name <> EmptyString /\
  migrationFileRegexp f = true /\
  migrationVersion f = time_Now F s /\
  versionFileRegexp (time_Now F s) f = true.
Proof.
  intros Hts Hne Hname H f.
  destruct (migrationFileName_matches _ _ Hts Hne Hname) as (Hre & Hver & Hfind).
  split; [|split; [|auto]].
  - unfold NewMigration in H. rewrite bind_look in H.
    destruct (String.eqb name ""); [discriminate H|].
    rewrite bind_call in H.
    destruct (ensureDir E (MigrationsDir db) s) as [[e|] s1] eqn:Hdir;
      cbn [fst snd] in H; [discriminate H|].
    rewrite bind_emit, bind_look in H. fold f in H.
    destruct (negb _); [discriminate H|].
    rewrite bind_call in H.
    destruct (os_Create F (filepath_Join E (MigrationsDir db) f) s1)
      as [[fl|e] s2] eqn:Hcreate; cbn [fst snd] in H; [|discriminate H].
    rewrite bind_call in H.
    destruct (file_WriteString F fl migrationTemplate s2) as [[e|] s3] eqn:Hwrite;
      cbn in H; [discriminate H|].
    inversion H; subst. exists fl, s1, s2, s3. auto.
  - intros ->. discriminate H.
Qed.

End AdministrationProps.

(** * The properties on fixtures *)

Section OnFixtures.

Import Fixture.

(** C1: on two applied and three pending files, quiet. *)
Lemma Status_returns_pending_count_witness :
  ReadDir env (MigrationsDir (New "postgres")) twoApplied
  = Ok (map (fun f => {| Name := Ref.file_name f; IsDir := Ref.file_isDir f |})
            five) /\
  Status env (New "postgres") true 0 twoApplied =
  Some ((3%Z, None), Ref.withConn _ twoApplied 1,
        [EvOpen 0; EvCreateTable 0; EvSelect 0 (-1); EvClose 0]).
Proof.
  split; [reflexivity|].
  refine (Status_returns_pending_count
            env (New "postgres") true 0 twoApplied _ _ _ _
            driver 0 _ eq_refl _ eq_refl eq_refl eq_refl
            eq_refl).
  vm_compute. discriminate.
Defined.

(** C1 as stated fails: with two applied and three pending files the
    first value [Status] returns is 3, the pending count, not the
    applied count 2; the second is the nil error. *)
Lemma Status_returns_pair_counterexample :
  appliedCount (statusOf [("2", true); ("1", true)]
                         ["1_a.sql"; "2_b.sql"; "3_c.sql"; "4_d.sql"; "5_e.sql"])
  = 2%nat /\
  ~ exists e s' t,
      Status env (New "postgres") true 0 twoApplied = Some ((2%Z, e), s', t).
Proof.
  split; [reflexivity|].
  intros (e & s' & t & H). vm_compute in H. discriminate H.
Qed.

(** C3: the example of the specification. *)
Lemma parseStatements_plain_witness :
  plain "select 1; select 2;;  " = true /\
  parseStatements "select 1; select 2;;  "
  = splitSpec "select 1; select 2;;  " EmptyString /\
  splitSpec "select 1; select 2;;  " EmptyString = ["select 1"; " select 2"].
Proof.
  split; [reflexivity|]. split; [|reflexivity].
  apply (parseStatements_plain "select 1; select 2;;  "); reflexivity.
Defined.

(** C3 as stated fails: a semicolon inside a double-quoted literal does
    not close the statement. *)
Lemma parseStatements_verbatim_counterexample :
  parseStatements quoted = [quoted] /\
  parseStatements quoted <> splitSpec quoted EmptyString.
Proof. split; [reflexivity | vm_compute; discriminate]. Qed.

(** C4: a body that fails is rolled back and its error returned. *)
Lemma doTransaction_commit_iff_body_succeeds_witness :
  sql_Begin env 0 fresh = (Ok 0, snd (sql_Begin env 0 fresh)) /\
  doTransaction env 0 failing 0 fresh =
  Some (Some "syntax error", fresh,
        [EvBegin 0; EvExec (OnTx 0) "fail"; EvRollback 0]).
Proof.
  split; [reflexivity|].
  exact (doTransaction_commit_iff_body_succeeds
           env 0 failing 0 fresh _ _ 0 (Some "syntax error") _
           eq_refl eq_refl).
Defined.



(** With nothing applied the operation still provisions the bookkeeping
    table: on a server without it, the failed [Rollback] leaves the table
    created. *)
Example Rollback_provisions_table :
  Ref.rows _ fresh = [] /\ Ref.schema _ fresh = [] /\
  exists s' t,
    Rollback Sample.provisioning (New "postgres") 0 fresh
    = Some (Some nothingToRollBack, s', t) /\
    t = [EvOpen 0; EvCreateTable 0; EvSelect 0 1; EvClose 0] /\
    Ref.schema _ s' = [Sample.tableDDL].
Proof.
  split; [reflexivity|]. split; [reflexivity|].
  eexists _, _. split; [vm_compute; reflexivity|]. split; reflexivity.
Qed.

(** C8: three refusals, then an answer, interval zero. *)
Lemma Wait_returns_witness :
  succeedsAfter driver impatient 3 (slow 3) /\
  exists fuel r s' t errs,
    Wait env impatient fuel (slow 3) = Some (r, s', t) /\
    pings t = pingRun driver impatient (length (pings t))
                      (slow 3) /\
    ((r = None /\ pings t = map Some errs ++ [None] /\
      (errs = [] \/
       ((Z.of_nat (length errs) - 1) * WaitInterval impatient
        < WaitTimeout impatient)%Z))
     \/
     (exists e,
         r = Some (timeoutMessage e) /\ pings t = map Some (errs ++ [e]) /\
         (Z.of_nat (length errs) * WaitInterval impatient
          >= WaitTimeout impatient)%Z /\
         (errs = [] \/
          ((Z.of_nat (length errs) - 1) * WaitInterval impatient
           < WaitTimeout impatient)%Z))).
Proof.
  assert (Hprobe : succeedsAfter driver impatient 3 (slow 3)).
  { exists [Ref.refused; Ref.refused; Ref.refused]. split; reflexivity. }
  split; [exact Hprobe|].
  apply (Wait_returns env driver impatient).
  - discriminate.
  - reflexivity.
  - reflexivity.
  - right; right. exists 3%nat. exact Hprobe.
Defined.

(** The same run, computed: success on the fourth probe. *)
Example Wait_fourth_attempt :
  exists s' t,
    Wait env impatient 3 (slow 3) = Some (None, s', t) /\
    pings t = [Some Ref.refused; Some Ref.refused; Some Ref.refused; None].
Proof. eexists _, _. split; reflexivity. Qed.

(** C8 as stated fails: with interval zero, a positive timeout and a
    server that never answers, [Wait] does not return, however much fuel
    it is given. *)
Lemma Wait_terminates_counterexample :
  ~ exists fuel res, Wait env impatient fuel dead = Some res.
Proof.
  assert (Hloop : forall fuel err,
             waitLoop driver impatient 0 err fuel dead = None).
  { induction fuel as [|fuel IH]; intros err; [reflexivity|].
    cbn [waitLoop]. change (0 <? WaitTimeout impatient)%Z with true.
    cbv iota. change (Driver.Ping driver
                                  (DatabaseURL impatient) dead)
                with (Some Ref.refused, dead).
    cbv iota beta. change (wrap64 (0 + WaitInterval impatient)) with 0%Z.
    rewrite IH. reflexivity. }
  intros (fuel & res & H). unfold Wait in H.
  change (DB_GetDriver env impatient) with (Ok driver) in H.
  cbv iota beta in H. unfold ping in H. rewrite bind_call in H.
  change (Driver.Ping driver (DatabaseURL impatient) dead)
    with (Some Ref.refused, dead) in H.
  cbn [fst snd] in H. rewrite bind_emit, Hloop in H. discriminate H.
Qed.

(** C9: a migration with the automatic dump. *)
Lemma connections_released_witness :
  exists r s' t,
    runOp env (New "postgres") OpMigrate 0 twoApplied = Some (r, s', t) /\
    live [] t = Some [] /\
    opens t <= maxOpens (New "postgres") OpMigrate.
Proof.
  eexists _, _, _. split; [vm_compute; reflexivity|].
  eapply (connections_released env (New "postgres") OpMigrate 0 twoApplied).
  vm_compute. reflexivity.
Defined.

(** C9 as stated fails: with the automatic schema dump on (the
    default), [Migrate] opens two connections, the second while the first
    is live. *)
Lemma one_connection_counterexample :
  exists r s' t,
    Migrate env (New "postgres") 0 twoApplied = Some (r, s', t) /\
    opens t = 2%nat /\
    live [] (firstn 25 t) = Some [1%nat; 0%nat].
Proof. eexists _, _, _. split; [|split]; vm_compute; reflexivity. Qed.

(** C10: the same migration with the scheme oracle and the native engine
    asked for; the first file of that directory would be sent as two
    statements. *)
Lemma oracle_runs_emulated_witness :
  exists r s' t,
    runOp env (New "oracle") OpMigrate 0 twoApplied = Some (r, s', t) /\
    NativeEngine (New "oracle") = true /\
    useNative (New "oracle") = false /\
    Forall (modeOK (New "oracle")) t /\
    Migrate env (New "oracle") 0 twoApplied =
    after [EvOpen 0; EvCreateTable 0; EvSelect 0 (-1)]
          (released env 0
             (thenDump env (New "oracle") 0
                (applyBatch env "./db/migrations" false driver 0
                            ["3_c.sql"; "4_d.sql"; "5_e.sql"]
                            (Ref.withConn _ twoApplied 1)))) /\
    executeScript env (OnTx 0) "create a; insert a"
                  (useNative (New "oracle")) 0 (Ref.withConn _ twoApplied 1)
    = Some (runScript env false (OnTx 0) "create a; insert a"
                      (Ref.withConn _ twoApplied 1)) /\
    snd (runScript env false (OnTx 0) "create a; insert a"
                   (Ref.withConn _ twoApplied 1))
    = [EvPrint emulatedBanner; EvExec (OnTx 0) "create a";
       EvExec (OnTx 0) " insert a"].
Proof.
  eexists _, _, _. split; [vm_compute; reflexivity|].
  split; [reflexivity|].
  assert (Hrun : runOp env (New "oracle") OpMigrate 0 twoApplied
                 = Migrate env (New "oracle") 0 twoApplied) by reflexivity.
  destruct (Migrate env (New "oracle") 0 twoApplied) as [[[r s'] t]|] eqn:Hm;
    [|vm_compute in Hm; discriminate Hm].
  destruct (oracle_runs_emulated env (New "oracle") OpMigrate 0 twoApplied
                                 r s' t (or_introl eq_refl) Hrun)
    as (Horacle & _ & Hmode & Hscript & _ & _ & Hwhole & _).
  split; [apply Horacle; reflexivity|].
  split; [vm_compute in Hm; inversion Hm; subst; exact Hmode|].
  assert (Hne : discovered (listing twoApplied) <> [])
    by (vm_compute; discriminate).
  split; [|split; [apply Hscript | reflexivity]].
  rewrite <- Hm.
  exact (Hwhole 0 twoApplied twoApplied
                (Ref.withConn _ twoApplied 1) (Ref.withConn _ twoApplied 1)
                (Ref.withConn _ twoApplied 1) [] (listing twoApplied) driver 0
                (appliedSet ["2"; "1"])
                eq_refl Hne eq_refl eq_refl eq_refl eq_refl eq_refl).
Defined.

(** C2: two of five files applied; the three others are processed in
    file-name order. *)
Lemma Migrate_applies_pending_in_file_order_witness :
  discovered (listing twoApplied)
  = ["1_a.sql"; "2_b.sql"; "3_c.sql"; "4_d.sql"; "5_e.sql"] /\
  Migrate env (New "postgres") 0 twoApplied =
  after [EvOpen 0; EvCreateTable 0; EvSelect 0 (-1)]
        (released env 0
           (thenDump env (New "postgres") 0
              (applyBatch env "./db/migrations" true driver 0
                          ["3_c.sql"; "4_d.sql"; "5_e.sql"]
                          (Ref.withConn _ twoApplied 1)))) /\
  exists s' t,
    Migrate env (New "postgres") 0 twoApplied = Some (None, s', t) /\
    batchOutcome ["3_c.sql"; "4_d.sql"; "5_e.sql"] None t.
Proof.
  split; [reflexivity|].
  assert (Hne : discovered (listing twoApplied) <> [])
    by (vm_compute; discriminate).
  destruct (Migrate_applies_pending_in_file_order
              env (New "postgres") 0 twoApplied twoApplied
              (Ref.withConn _ twoApplied 1) (Ref.withConn _ twoApplied 1)
              (Ref.withConn _ twoApplied 1) [] (listing twoApplied) driver 0
              (appliedSet ["2"; "1"])
              eq_refl Hne eq_refl eq_refl eq_refl eq_refl eq_refl)
    as (_ & _ & _ & _ & _ & Hout & _ & Hwhole).
  split; [exact Hwhole|].
  assert (Hm : exists s' t,
             Migrate env (New "postgres") 0 twoApplied = Some (None, s', t))
    by (eexists _, _; vm_compute; reflexivity).
  destruct Hm as (s' & t & Hm). exists s', t. split; [exact Hm|].
  exact (Hout None s' t Hm).
Defined.

(** C2 as stated fails: [1_a.sql] and [10_b.sql] are applied in file-name
    order, [10_b.sql] first, which is not ascending version order. *)
Lemma version_order_counterexample :
  exists s' t,
    Migrate env (New "postgres") 0 widths = Some (None, s', t) /\
    inserted t = ["10"; "1"] /\
    ~ ascending (inserted t).
Proof.
  eexists _, _. split; [vm_compute; reflexivity|].
  split; [reflexivity|].
  intros Hasc. vm_compute in Hasc.
  inversion Hasc as [|? ? _ Hhd]; subst.
  inversion Hhd as [|? ? Hle]; subst. discriminate Hle.
Qed.

(** C6: a first migration of the five files, then a second. *)
Lemma Migrate_twice_applies_nothing_witness :
  exists s1 t1,
    Migrate env (New "postgres") 0 fresh = Some (None, s1, t1) /\
    exists s2 t2,
      Migrate env (New "postgres") 0 s1 = Some (None, s2, t2) /\
      Ref.rows _ s2 = Ref.rows _ s1.
Proof.
  assert (Hm : exists s1 t1,
             Migrate env (New "postgres") 0 fresh = Some (None, s1, t1))
    by (eexists _, _; vm_compute; reflexivity).
  destruct Hm as (s1 & t1 & Hm). exists s1, t1. split; [exact Hm|].
  destruct (Migrate_twice_applies_nothing
              (list string) run dump (New "postgres") 0 fresh s1 t1 Hm)
    as (_ & s2 & tw & c & td & Hrun & _ & _ & Hrows).
  eauto.
Defined.

(** C7: one pending migration is applied, then rolled back. *)
Lemma Migrate_then_Rollback_restores_witness :
  pendingFiles (appliedSet (Ref.rows _ onePending))
               (discovered (listing onePending)) = ["2_b.sql"] /\
  exists s1 t1 s2 t2,
    Migrate env (New "postgres") 0 onePending = Some (None, s1, t1) /\
    Rollback env (New "postgres") 0 s1 = Some (None, s2, t2) /\
    Ref.rows _ s1 = ["2"; "1"] /\
    Ref.rows _ s2 = ["1"].
Proof.
  split; [reflexivity|].
  assert (Hm : exists s1 t1,
             Migrate env (New "postgres") 0 onePending = Some (None, s1, t1)
             /\ exists s2 t2,
                 Rollback env (New "postgres") 0 s1 = Some (None, s2, t2)).
  { eexists _, _. split; [vm_compute; reflexivity|].
    eexists _, _. vm_compute. reflexivity. }
  destruct Hm as (s1 & t1 & Hm & s2 & t2 & Hr).
  exists s1, t1, s2, t2. split; [exact Hm|]. split; [exact Hr|].
  exact (Migrate_then_Rollback_restores
           (list string) run dump (New "postgres") 0 onePending s1 s2 t1 t2
           "2_b.sql" eq_refl Hm Hr).
Defined.

End OnFixtures.

(** * The further properties on fixtures *)

Section OnSamples.

Import Fixture.

(** X1: three refusals, then an answer. *)
Lemma Wait_output_witness :
  exists r s' t,
    Wait env impatient 3 (slow 3) = Some (r, s', t) /\
    ((exists e, DB_GetDriver env impatient = Err e /\ r = Some e /\ t = []
                /\ s' = slow 3)
     \/ (r = None /\ t = [EvPing None])
     \/ (exists e0 errs,
            t = [EvPing (Some e0); EvPrint "Waiting for database"]
                  ++ flat_map (retry impatient)
                              (map Some errs
                                   ++ match r with None => [None] | Some _ => [] end)
                  ++ [EvPrint nl] /\
            (r = None \/ r = Some (timeoutMessage (last errs e0))))).
Proof.
  destruct (Wait env impatient 3 (slow 3)) as [[[r s'] t]|] eqn:H;
    [|vm_compute in H; discriminate H].
  exists r, s', t. split; [reflexivity|].
  exact (Wait_output env impatient 3 (slow 3) r s' t H).
Defined.

(** X2: a timeout of zero and a server that refuses. *)
Lemma Wait_single_probe_witness :
  Wait env Sample.once 0 dead
  = Some (Some (timeoutMessage Ref.refused), dead,
          [EvPing (Some Ref.refused); EvPrint "Waiting for database";
           EvPrint nl]).
Proof.
  apply (Wait_single_probe env Sample.once driver 0 dead).
  - vm_compute. discriminate.
  - reflexivity.
Defined.

(** X3: a server that refuses the connection. *)
Example openDatabaseForMigration_example :
  openDatabaseForMigration env (New "postgres") 0 dead
  = Some (Err Ref.refused, dead, []).
Proof. reflexivity. Qed.

(** X5: a general comment and a line comment. *)
Lemma parseStatements_drops_comments_witness :
  quoteFree Sample.commented = true /\
  parseStatements Sample.commented
  = splitSpec (uncomment Scanner.Code (Scanner.Init Sample.commented))
              EmptyString /\
  splitSpec (uncomment Scanner.Code (Scanner.Init Sample.commented)) EmptyString
  = ["create a"; "  create b"; " " ++ nl ++ "create d"]%string.
Proof.
  split; [reflexivity|]. split; [|reflexivity].
  apply (parseStatements_drops_comments Sample.commented). reflexivity.
Defined.

(** X6: the same script. *)
Lemma parseStatements_statements_witness :
  Forall nonBlank (parseStatements Sample.commented) /\
  Forall (fun st => forall c, holds c st ->
                              holds c Sample.commented /\ c <> endOfStatement
                              /\ c <> GoString.CR)
         (parseStatements Sample.commented).
Proof.
  destruct (parseStatements_statements Sample.commented) as [Hblank Hchars].
  split; [exact Hblank|]. apply Hchars. reflexivity.
Defined.

(** X8: spaces and a line feed. *)
Lemma executeScript_blank_witness :
  executeScript env (OnDB 0) ("  " ++ nl ++ " ") false 0 fresh
  = Some (None, fresh, [EvPrint emulatedBanner]) /\
  executeScript env (OnDB 0) ("  " ++ nl ++ " ") true 0 fresh
  = Some (None, snd (sql_Exec env (OnDB 0) ("  " ++ nl ++ " ") fresh),
          [EvPrint nativeBanner; EvExec (OnDB 0) ("  " ++ nl ++ " ")]).
Proof.
  apply (executeScript_blank env (OnDB 0) ("  " ++ nl ++ " ") 0 fresh).
  reflexivity.
Defined.

(** X11: a file of the five. *)
Lemma discovered_version_witness :
  In "3_c.sql" (discovered (listing fresh)) /\
  migrationVersion "3_c.sql" <> EmptyString /\
  allDigits (migrationVersion "3_c.sql") = true /\
  (exists stem,
      "3_c.sql" = (migrationVersion "3_c.sql" ++ stem ++ ".sql")%string /\
      startsWithDigit (stem ++ ".sql") = false) /\
  versionFileRegexp (migrationVersion "3_c.sql") "3_c.sql" = true.
Proof.
  assert (Hin : In "3_c.sql" (discovered (listing fresh)))
    by (vm_compute; auto).
  split; [exact Hin|].
  exact (discovered_version (listing fresh) "3_c.sql" Hin).
Defined.

(** X12: the version of [1_a.sql] beside [10_b.sql]. *)
Lemma findMigrationFile_resolves_witness :
  exists g,
    findMigrationFile env "./db/migrations" (migrationVersion "1_a.sql") 0 widths
    = Some (Ok g, widths, []) /\
    In g (discovered (listing widths)) /\
    String.prefix (migrationVersion "1_a.sql") g = true /\
    String.leb g "1_a.sql" = true /\
    (forall h, In h (discovered (listing widths)) ->
               String.prefix (migrationVersion "1_a.sql") h = true ->
               String.leb g h = true) /\
    ((forall h, In h (discovered (listing widths)) ->
                String.prefix (migrationVersion "1_a.sql") h = true ->
                h = "1_a.sql") ->
     g = "1_a.sql").
Proof.
  apply (findMigrationFile_resolves env "./db/migrations" 0 widths
                                    (listing widths) "1_a.sql").
  - reflexivity.
  - vm_compute. auto.
Defined.

(** X13: a directory with a README only. *)
Lemma nothing_found_before_connecting_witness :
  Migrate env (New "postgres") 0 Sample.empty
  = Some (Some "no migration files found", Sample.empty, []) /\
  Status env (New "postgres") true 0 Sample.empty
  = Some ((-1, Some "no migration files found")%Z, Sample.empty, []).
Proof.
  apply (nothing_found_before_connecting env (New "postgres") true 0
                                         Sample.empty).
  reflexivity.
Defined.

(** X14: a driver whose dump fails. *)
Lemma Migrate_ignores_dump_result_witness :
  exists s' t sd td,
    Migrate Sample.envNoDump (New "postgres") 0 onePending = Some (None, s', t) /\
    DumpSchema Sample.envNoDump (New "postgres") 0 sd
    = Some (Some "pg_dump: command not found", s', td) /\
    In (EvDump 1) t.
Proof.
  assert (Hloop : exists s4 tl,
             migrateLoop Sample.envNoDump (New "postgres") Sample.driverNoDump 0
                         (appliedSet ["1"]) (discovered (listing onePending))
                         0 (Ref.withConn _ onePending 1)
             = Some (None, s4, tl))
    by (eexists _, _; vm_compute; reflexivity).
  destruct Hloop as (s4 & tl & Hloop).
  assert (Hdump : exists s5 td,
             DumpSchema Sample.envNoDump (New "postgres") 0 s4
             = Some (Some "pg_dump: command not found", s5, td) /\
             In (EvDump 1) td).
  { vm_compute in Hloop. inversion Hloop; subst.
    eexists _, _. split; [vm_compute; reflexivity|]. vm_compute. auto. }
  destruct Hdump as (s5 & td & Hdump & Hin).
  exists s5, ([EvOpen 0; EvCreateTable 0; EvSelect 0 (-1)] ++ tl ++ td
                ++ [EvClose 0]), s4, td.
  split; [|split; [exact Hdump|]].
  - refine (Migrate_ignores_dump_result
              Sample.envNoDump (New "postgres") 0 onePending onePending
              (Ref.withConn _ onePending 1) (Ref.withConn _ onePending 1)
              (Ref.withConn _ onePending 1) s4 s5 [] tl td
              (listing onePending) Sample.driverNoDump 0 (appliedSet ["1"])
              (Some "pg_dump: command not found")
              eq_refl _ eq_refl eq_refl eq_refl eq_refl eq_refl Hloop eq_refl
              Hdump).
    vm_compute. discriminate.
  - apply in_or_app. right. apply in_or_app. right.
    apply in_or_app. left. exact Hin.
Defined.

(** X15: the second of two pending files fails. *)
Lemma failure_dumps_nothing_witness :
  exists err s' t,
    Migrate env (New "postgres") 0 Sample.broken = Some (Some err, s', t) /\
    Forall (fun e => isDump e = false) t.
Proof.
  destruct (Migrate env (New "postgres") 0 Sample.broken)
    as [[[[err|] s'] t]|] eqn:H;
    [|vm_compute in H; discriminate H|vm_compute in H; discriminate H].
  exists err, s', t. split; [reflexivity|].
  exact (failure_dumps_nothing env (New "postgres") OpMigrate 0 Sample.broken
                               err s' t (or_introl eq_refl) H).
Defined.

(** X16: version 7 is applied and no file starts with 7. *)
Lemma Rollback_missing_file_witness :
  Rollback env (New "postgres") 0 Sample.orphan
  = Some (Some "can't find migration file: 7*.sql",
          Ref.withConn _ Sample.orphan 1,
          [EvOpen 0; EvCreateTable 0; EvSelect 0 1; EvClose 0]).
Proof.
  refine (Rollback_missing_file
            env (New "postgres") 0 Sample.orphan Sample.orphan
            (Ref.withConn _ Sample.orphan 1) (Ref.withConn _ Sample.orphan 1)
            (Ref.withConn _ Sample.orphan 1) [] driver 0 [("7", true)]
            (listing Sample.orphan)
            eq_refl eq_refl eq_refl eq_refl eq_refl _ eq_refl eq_refl eq_refl).
  discriminate.
Defined.

(** X17: an empty schema. *)
Lemma DumpSchema_outcome_witness :
  DumpSchema env (New "postgres") 0 fresh
  = Some (None,
          Ref.withSchemaFile _ (Ref.withConn _ fresh 1) "",
          [EvOpen 0; EvCreateTable 0; EvDump 0;
           EvPrint ("Writing: ./db/schema.sql" ++ nl); EvMkdir "./db/";
           EvWrite "./db/schema.sql" ""; EvClose 0]).
Proof.
  exact (DumpSchema_outcome env (New "postgres") 0 fresh fresh
                            (Ref.withConn _ fresh 1) (Ref.withConn _ fresh 1)
                            [] driver 0 eq_refl eq_refl eq_refl eq_refl).
Defined.

(** X19: a migration without waiting. *)
Lemma no_probe_unless_asked_witness :
  exists r s' t,
    runOp env (New "postgres") OpMigrate 0 twoApplied = Some (r, s', t) /\
    Forall (fun e => isProbe e = false) t.
Proof.
  destruct (runOp env (New "postgres") OpMigrate 0 twoApplied)
    as [[[r s'] t]|] eqn:H; [|vm_compute in H; discriminate H].
  exists r, s', t. split; [reflexivity|].
  exact (no_probe_unless_asked env (New "postgres") OpMigrate 0 twoApplied
                               r s' t (or_introl eq_refl) H).
Defined.

(** X20: a server that never answers. *)
Lemma wait_failure_aborts_witness :
  exists tw,
    waitBefore env Sample.hurried 2 dead
    = Some (Some (timeoutMessage Ref.refused), dead, tw) /\
    Rollback env Sample.hurried 2 dead
    = Some (Some (timeoutMessage Ref.refused), dead, tw) /\
    CreateAndMigrate env (Sample.admin (Ok false) None) Sample.hurried 2 dead
    = Some (Some (timeoutMessage Ref.refused), dead, tw).
Proof.
  assert (Hwait : exists tw,
             waitBefore env Sample.hurried 2 dead
             = Some (Some (timeoutMessage Ref.refused), dead, tw))
    by (eexists; vm_compute; reflexivity).
  destruct Hwait as (tw & Hwait). exists tw. split; [exact Hwait|].
  destruct (wait_failure_aborts env (Sample.admin (Ok false) None)
                                Sample.hurried 2 dead dead _ tw Hwait)
    as (_ & _ & Hcreate & _ & Hrollback & _).
  split; [exact Hrollback | exact Hcreate].
Defined.

(** X21: a scheme no driver serves. *)
Lemma no_driver_no_effect_witness :
  Rollback env (New "mongodb") 0 fresh
  = Some (Some "unsupported driver: mongodb", fresh, []) /\
  Drop env (Sample.admin (Ok true) None) (New "mongodb") 0 fresh
  = Some (Some "unsupported driver: mongodb", fresh, []).
Proof.
  destruct (no_driver_no_effect env (Sample.admin (Ok true) None)
                                (New "mongodb") true 0 fresh
                                "unsupported driver: mongodb" eq_refl)
    as (_ & _ & Hdrop & _ & _ & Hrollback & _).
  split; [exact Hrollback | exact Hdrop].
Defined.

(** X22: a creation that fails, and an existence check that fails. *)
Lemma CreateAndMigrate_creates_when_absent_witness :
  CreateAndMigrate env (Sample.admin (Ok false) (Some "permission denied"))
                   (New "postgres") 0 fresh
  = Some (Some "permission denied", fresh, []) /\
  CreateAndMigrate env (Sample.admin (Err "permission denied") (Some "unused"))
                   (New "postgres") 0 fresh
  = Migrate env (New "postgres") 0 fresh.
Proof.
  split.
  - exact (CreateAndMigrate_creates_when_absent
             env (Sample.admin (Ok false) (Some "permission denied"))
             (New "postgres") 0 fresh fresh [] driver eq_refl eq_refl).
  - rewrite (CreateAndMigrate_creates_when_absent
               env (Sample.admin (Err "permission denied") (Some "unused"))
               (New "postgres") 0 fresh fresh [] driver eq_refl eq_refl).
    cbn [Sample.admin DriverAdmin.DatabaseExists]. unfold after.
    destruct (Migrate env (New "postgres") 0 fresh) as [[[r s'] t]|];
      reflexivity.
Defined.

(** X23: the empty name, and a name that is taken. *)
Lemma NewMigration_refuses_witness :
  NewMigration env Sample.files (New "postgres") "" 0 Sample.taken
  = Some (Some "please specify a name for the new migration", Sample.taken, [])
  /\
  NewMigration env Sample.files (New "postgres") "add_users" 0 Sample.taken
  = Some (Some "file already exists", Sample.taken,
          [EvMkdir "./db/migrations";
           EvPrint ("Creating migration: "
                      ++ "./db/migrations/20200102030405_add_users.sql" ++ nl)]).
Proof.
  destruct (NewMigration_refuses env Sample.files (New "postgres") "add_users"
                                 0 Sample.taken Sample.taken) as [Hempty Htaken].
  split; [exact Hempty|]. apply Htaken.
  - discriminate.
  - reflexivity.
  - intros e H. vm_compute in H. discriminate H.
Defined.

(** X24: a new file beside the five. *)
Lemma NewMigration_is_discoverable_witness :
  exists s' t,
    NewMigration env Sample.files (New "postgres") "add_users" 0 fresh
    = Some (None, s', t) /\
    migrationFileName "20200102030405" "add_users"
    = "20200102030405_add_users.sql" /\
    map Name (listing s')
    = map Name (listing fresh) ++ ["20200102030405_add_users.sql"] /\
    migrationFileRegexp "20200102030405_add_users.sql" = true /\
    migrationVersion "20200102030405_add_users.sql" = "20200102030405".
Proof.
  assert (Hrun : exists s' t,
             NewMigration env Sample.files (New "postgres") "add_users" 0 fresh
             = Some (None, s', t) /\
             map Name (listing s')
             = map Name (listing fresh) ++ ["20200102030405_add_users.sql"]).
  { eexists _, _. split; [vm_compute; reflexivity|]. vm_compute. reflexivity. }
  destruct Hrun as (s' & t & Hrun & Hin). exists s', t.
  split; [exact Hrun|]. split; [reflexivity|]. split; [exact Hin|].
  assert (Hname : ~ holds GoString.LF "add_users").
  { vm_compute. intuition discriminate. }
  destruct (NewMigration_is_discoverable
              env Sample.files (New "postgres") "add_users" 0 fresh s' t
              eq_refl ltac:(discriminate) Hname Hrun)
    as (_ & _ & Hre & Hver & _).
  split; [exact Hre | exact Hver].
Defined.

End OnSamples.
